(** * The API-project ingestion pipeline of the adapter

    A shallow embedding of [adapter/internal/api/apis_impl.go] and of the
    manifest model [APIYaml] with its validators, together with the
    properties of the ingestion pipeline that the specification states.

    Go strings are byte strings and are modelled by [string]; a Go [map] is a
    [gmap]; a call that may panic yields a [result]; the process-wide index of
    package [xds] is reached through the interface [XdsServer]. *)

From Stdlib Require Import Ascii.
From stdpp Require Import base strings list gmap fin_maps.

#[local] Set Warnings "-clear-no-such-hyp".

(** ** Go library functions over strings *)

Module Go.

(** [strings.HasPrefix]. *)
Definition HasPrefix (s prefix : string) : bool := String.prefix prefix s.

(** [strings.HasSuffix]. *)
Definition HasSuffix (s suffix : string) : bool :=
  String.prefix (String.rev suffix) (String.rev s).

(** [strings.Split s sep] for a separator [sep] of one byte: the pieces of
    [s] between the occurrences of [sep]; never the empty list. *)
Fixpoint Split (s : string) (sep : Ascii.ascii) : list string :=
  match s with
  | EmptyString => [""]
  | String c s' =>
      if Ascii.eqb c sep then "" :: Split s' sep
      else match Split s' sep with
           | piece :: pieces => String c piece :: pieces
           | [] => [String c ""]
           end
  end.

(** Whether the byte [sep] occurs in [s] ([strings.IndexByte(s, sep) >= 0]). *)
Fixpoint Contains (s : string) (sep : Ascii.ascii) : bool :=
  match s with
  | EmptyString => false
  | String c s' => Ascii.eqb c sep || Contains s' sep
  end.

(** [len(s)] of a Go string: its number of bytes. *)
Definition len (s : string) : nat := String.length s.

End Go.

(** A JSON value held in an [interface{}] after [json.Unmarshal]; [JNull] is
    the nil interface. *)
#[warnings="-register-all"]
Inductive json : Type :=
| JNull
| JBool (b : bool)
| JNumber (digits : string)
| JString (s : string)
| JArray (elements : list json)
| JObject (members : list (string * json)).

(** ** The manifest, [APIYaml] *)

(** The struct of the field [Config] of [EndpointInfo]. *)
Record EndpointInfoConfig := {
  ActionDuration : string;
  RetryTimeOut : string
}.

(** [EndpointInfo]. *)
Record EndpointInfo := {
  Endpoint : string;
  Config : EndpointInfoConfig
}.

(** [OperationYaml], without its policies, which no function below reads. *)
Record OperationYaml := {
  Target : string;
  Verb : string
}.

(** The struct of [APIYaml.Data.EndpointConfig]; the endpoint security
    block and the load-balancing settings play no part in the functions
    below and are left out.  The two raw fields hold what the manifest has
    under [production_endpoints] and [sandbox_endpoints]; the two normalized
    lists bear no JSON tag. *)
Record EndpointConfigYaml := {
  EndpointType : string;
  RawProdEndpoints : json;
  ProductionEndpoints : list EndpointInfo;
  ProductionFailoverEndpoints : list EndpointInfo;
  RawSandboxEndpoints : json;
  SandBoxEndpoints : list EndpointInfo;
  SandboxFailoverEndpoints : list EndpointInfo;
  ImplementationStatus : string
}.

(** The struct of [APIYaml.Data]. *)
Record APIYamlData := {
  ID : string;
  Name : string;
  Context : string;
  Version : string;
  RevisionID : Z;
  APIType : string;
  LifeCycleStatus : string;
  EndpointImplementationType : string;
  AuthorizationHeader : string;
  SecurityScheme : list string;
  OrganizationID : string;
  EndpointConfig : EndpointConfigYaml;
  Operations : list OperationYaml
}.

(** [APIYaml]; its fields [Type] and [Version] are [ManifestType] and
    [ManifestVersion] here, apart from those of [Data]. *)
Record APIYaml := {
  ManifestType : string;
  ManifestVersion : string;
  Data : APIYamlData
}.

Definition zeroEndpointInfo : EndpointInfo :=
  {| Endpoint := ""; Config := {| ActionDuration := ""; RetryTimeOut := "" |} |}.

Definition zeroEndpointConfig : EndpointConfigYaml :=
  {| EndpointType := ""; RawProdEndpoints := JNull; ProductionEndpoints := [];
     ProductionFailoverEndpoints := []; RawSandboxEndpoints := JNull;
     SandBoxEndpoints := []; SandboxFailoverEndpoints := [];
     ImplementationStatus := "" |}.

Definition zeroAPIYamlData : APIYamlData :=
  {| ID := ""; Name := ""; Context := ""; Version := ""; RevisionID := 0;
     APIType := ""; LifeCycleStatus := ""; EndpointImplementationType := "";
     AuthorizationHeader := ""; SecurityScheme := []; OrganizationID := "";
     EndpointConfig := zeroEndpointConfig; Operations := [] |}.

(** The zero value of [APIYaml], what a named result holds before it is
    assigned. *)
Definition zeroAPIYaml : APIYaml :=
  {| ManifestType := ""; ManifestVersion := ""; Data := zeroAPIYamlData |}.

(** Field updates, [apiYaml.Data.f = v] in the source. *)
Definition set_ProductionEndpoints (v : list EndpointInfo) (c : EndpointConfigYaml)
  : EndpointConfigYaml :=
  {| EndpointType := EndpointType c; RawProdEndpoints := RawProdEndpoints c;
     ProductionEndpoints := v;
     ProductionFailoverEndpoints := ProductionFailoverEndpoints c;
     RawSandboxEndpoints := RawSandboxEndpoints c;
     SandBoxEndpoints := SandBoxEndpoints c;
     SandboxFailoverEndpoints := SandboxFailoverEndpoints c;
     ImplementationStatus := ImplementationStatus c |}.

Definition set_SandBoxEndpoints (v : list EndpointInfo) (c : EndpointConfigYaml)
  : EndpointConfigYaml :=
  {| EndpointType := EndpointType c; RawProdEndpoints := RawProdEndpoints c;
     ProductionEndpoints := ProductionEndpoints c;
     ProductionFailoverEndpoints := ProductionFailoverEndpoints c;
     RawSandboxEndpoints := RawSandboxEndpoints c;
     SandBoxEndpoints := v;
     SandboxFailoverEndpoints := SandboxFailoverEndpoints c;
     ImplementationStatus := ImplementationStatus c |}.

Definition set_EndpointConfig (v : EndpointConfigYaml) (d : APIYamlData) : APIYamlData :=
  {| ID := ID d; Name := Name d; Context := Context d; Version := Version d;
     RevisionID := RevisionID d; APIType := APIType d;
     LifeCycleStatus := LifeCycleStatus d;
     EndpointImplementationType := EndpointImplementationType d;
     AuthorizationHeader := AuthorizationHeader d;
     SecurityScheme := SecurityScheme d; OrganizationID := OrganizationID d;
     EndpointConfig := v; Operations := Operations d |}.

Definition set_APIType (v : string) (d : APIYamlData) : APIYamlData :=
  {| ID := ID d; Name := Name d; Context := Context d; Version := Version d;
     RevisionID := RevisionID d; APIType := v;
     LifeCycleStatus := LifeCycleStatus d;
     EndpointImplementationType := EndpointImplementationType d;
     AuthorizationHeader := AuthorizationHeader d;
     SecurityScheme := SecurityScheme d; OrganizationID := OrganizationID d;
     EndpointConfig := EndpointConfig d; Operations := Operations d |}.

Definition set_LifeCycleStatus (v : string) (d : APIYamlData) : APIYamlData :=
  {| ID := ID d; Name := Name d; Context := Context d; Version := Version d;
     RevisionID := RevisionID d; APIType := APIType d;
     LifeCycleStatus := v;
     EndpointImplementationType := EndpointImplementationType d;
     AuthorizationHeader := AuthorizationHeader d;
     SecurityScheme := SecurityScheme d; OrganizationID := OrganizationID d;
     EndpointConfig := EndpointConfig d; Operations := Operations d |}.

Definition set_OrganizationID (v : string) (d : APIYamlData) : APIYamlData :=
  {| ID := ID d; Name := Name d; Context := Context d; Version := Version d;
     RevisionID := RevisionID d; APIType := APIType d;
     LifeCycleStatus := LifeCycleStatus d;
     EndpointImplementationType := EndpointImplementationType d;
     AuthorizationHeader := AuthorizationHeader d;
     SecurityScheme := SecurityScheme d; OrganizationID := v;
     EndpointConfig := EndpointConfig d; Operations := Operations d |}.

Definition set_Data (v : APIYamlData) (y : APIYaml) : APIYaml :=
  {| ManifestType := ManifestType y; ManifestVersion := ManifestVersion y; Data := v |}.

(** ** Constants declared outside the sources *)

Module constants.

(** Modelled from the spec: the API types of package [constants]
    ("type ∈ {HTTP, WS, WEBHOOK}"); the package is not among the sources. *)
Definition HTTP : string := "HTTP".
Definition WS : string := "WS".
Definition WEBHOOK : string := "WEBHOOK".

(** Modelled from the spec: [constants.InlineEndpointType]
    ("endpointImplementationType is not INLINE"). *)
Definition InlineEndpointType : string := "INLINE".

(** Modelled from the spec: [constants.AlreadyExists], the distinguished
    value a caller may match on.  Only its being one fixed string matters. *)
Definition AlreadyExists : string := "ALREADY_EXISTS".

End constants.

(** Modelled from the spec: [apiTypeFilterKey] of package [api] ("query of the
    form type:<value>"), declared in a file that is not among the sources. *)
Definition apiTypeFilterKey : string := "type".

(** Modelled from the spec: [zipExt] of package [api] ("each child whose name
    ends in .zip"), declared in a file that is not among the sources. *)
Definition zipExt : string := ".zip".

(** A Go [error], by its message; the nil error is [None] of an [option]. *)
Definition error : Type := string.

(** What the pipeline takes from the Go standard library and from package
    [encoding/json] without fixing it here.  Every statement below holds for
    all functions of these types; [asciiGo] further down is one to compute
    with. *)
Class GoLib := {
  (** [strings.ToUpper] *)
  ToUpper : string → string;
  (** [strings.TrimSpace] *)
  TrimSpace : string → string;
  (** [json.Marshal] of a decoded value followed by [json.Unmarshal] into a
      fresh [EndpointInfo]; the error of either is dropped by every caller. *)
  unmarshalEndpointInfo : json → EndpointInfo
}.

(** Package [config], read-only for the pipeline. *)
Class AdapterConfig := {
  DefaultGatewayName : string;
  (** [config.GetDefaultVhost]: the vhost, whether the environment is
      configured, and an error. *)
  GetDefaultVhost : string → string * bool * option error;
  GetControlPlaneConnectedTenantDomain : string;
  (** [conf.Adapter.Server.Enabled] *)
  ServerEnabled : bool
}.

Section Manifest.

Context {golib : GoLib} {config : AdapterConfig}.

(** [FormatAndUpdateInfo]: upper-case the type and the life-cycle status,
    take the organization from the configuration when the manifest has
    none. *)
Definition FormatAndUpdateInfo (apiYaml : APIYaml) : APIYaml :=
  let d := set_APIType (ToUpper (APIType (Data apiYaml))) (Data apiYaml) in
  let d := set_LifeCycleStatus (ToUpper (LifeCycleStatus d)) d in
  let d := if String.eqb (OrganizationID d) ""
           then set_OrganizationID GetControlPlaneConnectedTenantDomain d
           else d in
  set_Data d apiYaml.

(** The test on one endpoint in [ValidateMandatoryFields]:
    [strings.HasPrefix(ep.Endpoint, "/") || len(strings.TrimSpace(ep.Endpoint)) < 1]. *)
Definition relativeOrEmpty (ep : EndpointInfo) : bool :=
  Go.HasPrefix (Endpoint ep) "/" || (Go.len (TrimSpace (Endpoint ep)) <? 1)%nat.

(** One of the two loops over endpoints: the first offending endpoint
    returns the error [msg]. *)
Fixpoint checkEndpoints (msg : error) (eps : list EndpointInfo) : option error :=
  match eps with
  | [] => None
  | ep :: eps' => if relativeOrEmpty ep then Some msg else checkEndpoints msg eps'
  end.

Definition productionEndpointsError : error :=
  "relative urls or empty values are not supported for API production endpoints".

Definition sandboxEndpointsError : error :=
  "relative urls or empty values are not supported for API sandbox endpoints".

(** [ValidateMandatoryFields]; [None] is the nil error. *)
Definition ValidateMandatoryFields (apiYaml : APIYaml) : option error :=
  let errMsg := "" in
  let apiName := Name (Data apiYaml) in
  let apiVersion := Version (Data apiYaml) in
  let '(apiName, errMsg) :=
    if String.eqb apiName "" then ("unknownAPIName", "API Name ") else (apiName, errMsg) in
  let '(apiVersion, errMsg) :=
    if String.eqb apiVersion "" then ("unknownAPIVersion", errMsg +:+ "API Version ")
    else (apiVersion, errMsg) in
  let errMsg :=
    if String.eqb (Context (Data apiYaml)) "" then errMsg +:+ "API Context " else errMsg in
  let errMsg :=
    if (length (ProductionEndpoints (EndpointConfig (Data apiYaml))) <? 1)%nat
       && (length (SandBoxEndpoints (EndpointConfig (Data apiYaml))) <? 1)%nat
    then errMsg +:+ "API production and sandbox endpoints " else errMsg in
  if negb (String.eqb errMsg "") then
    Some (errMsg +:+ "fields cannot be empty for " +:+ apiName +:+ " " +:+ apiVersion)
  else
    match checkEndpoints productionEndpointsError
            (ProductionEndpoints (EndpointConfig (Data apiYaml))) with
    | Some e => Some e
    | None =>
        match checkEndpoints sandboxEndpointsError
                (SandBoxEndpoints (EndpointConfig (Data apiYaml))) with
        | Some e => Some e
        | None => None
        end
    end.

Definition noProductionEndpointsWarning : string := "No production endpoints provided".
Definition noSandboxEndpointsWarning : string := "No sandbox endpoints provided".

(** One half of [PopulateEndpointsInfo]: the list a raw field resolves to
    ([None] when the normalized field is not assigned) and the warning
    logged.  A [map[string]interface{}] gives one endpoint, a
    [[]interface{}] one endpoint per element, whatever the element is. *)
Definition populateFrom (raw : json) (warning : string)
  : option (list EndpointInfo) * list string :=
  match raw with
  | JNull => (None, [])
  | JObject _ => (Some [unmarshalEndpointInfo raw], [])
  | JArray elements => (Some (unmarshalEndpointInfo <$> elements), [])
  | _ => (None, [warning])
  end.

(** [PopulateEndpointsInfo], with the warnings it logs, in order. *)
Definition PopulateEndpointsInfo (apiYaml : APIYaml) : APIYaml * list string :=
  let c := EndpointConfig (Data apiYaml) in
  let '(prod, w1) := populateFrom (RawProdEndpoints c) noProductionEndpointsWarning in
  let c := match prod with Some l => set_ProductionEndpoints l c | None => c end in
  let '(sand, w2) := populateFrom (RawSandboxEndpoints c) noSandboxEndpointsWarning in
  let c := match sand with Some l => set_SandBoxEndpoints l c | None => c end in
  (set_Data (set_EndpointConfig c (Data apiYaml)) apiYaml, w1 ++ w2).

Definition noManifestError : error := "could not find api.yaml or api.json".
Definition unsupportedTypeError : error :=
  "API type is not currently supported with Choreo Connect".

(** [ValidateAPIType]. *)
Definition ValidateAPIType (apiYaml : APIYaml) : option error :=
  let apiType := APIType (Data apiYaml) in
  if String.eqb apiType "" then Some noManifestError
  else if negb (String.eqb apiType constants.HTTP)
          && negb (String.eqb apiType constants.WS)
          && negb (String.eqb apiType constants.WEBHOOK)
  then Some unsupportedTypeError
  else None.

(** The bytes of a manifest file, identified with what [utills.ToJSON] and
    [json.Unmarshal] make of them. *)
Inductive manifestBytes :=
| NotJSON (e : error)
| Undecodable (partial : APIYaml) (e : error)
| Manifest (decoded : APIYaml).

Definition inlineEndpointError : error :=
  "inline endpointImplementationType is not currently supported with Choreo Connect".

(** [NewAPIYaml]; the lines it logs are not kept. *)
Definition NewAPIYaml (fileContent : manifestBytes) : APIYaml * option error :=
  match fileContent with
  | NotJSON e => (zeroAPIYaml, Some e)
  | Undecodable partial e => (partial, Some e)
  | Manifest decoded =>
      let apiYaml := FormatAndUpdateInfo decoded in
      let apiYaml := fst (PopulateEndpointsInfo apiYaml) in
      match ValidateMandatoryFields apiYaml with
      | Some e => (apiYaml, Some e)
      | None =>
          if String.eqb (EndpointImplementationType (Data apiYaml))
               constants.InlineEndpointType
          then (apiYaml, Some inlineEndpointError)
          else (apiYaml, None)
      end
  end.

End Manifest.

(** ** The policies of an operation *)

(** [Policy]; its [Parameters] are an [interface{}]. *)
Record Policy := {
  PolicyName : string;
  Action : string;
  Order : Z;
  Parameters : json
}.

(** [policyStats].  A Go [int] has 64 bits; an index into a slice and a
    number of its elements stay below [2^63], so no sum below wraps. *)
Record policyStats := {
  firstIndex : Z;
  count : Z
}.

(** The body of the loop of [getStats] for the policy at index [i]. *)
Definition countPolicy (i : Z) (policy : Policy) (stats : gmap string policyStats)
  : gmap string policyStats :=
  match stats !! PolicyName policy with
  | Some stat =>
      <[PolicyName policy := {| firstIndex := firstIndex stat; count := count stat + 1 |}]>
        stats
  | None => <[PolicyName policy := {| firstIndex := i; count := 1 |}]> stats
  end.

(** The loop of [getStats] from index [i] on. *)
Fixpoint getStatsFrom (i : Z) (pl : list Policy) (stats : gmap string policyStats)
  : gmap string policyStats :=
  match pl with
  | [] => stats
  | policy :: pl' => getStatsFrom (i + 1) pl' (countPolicy i policy stats)
  end.

(** [PolicyList.getStats]. *)
Definition getStats (pl : list Policy) : gmap string policyStats := getStatsFrom 0 pl ∅.

(** ** Projects, deployments and the index interface *)

(** [model.Deployment]. *)
Record Deployment := {
  DisplayOnDevportal : bool;
  DeploymentEnvironment : string;
  DeploymentVhost : string
}.

(** [model.ProjectAPI], as far as this package reads and writes it.  A Go map
    or slice that may be nil is an [option]; [synchronizer.APIEnvProps] and
    [model.PolicyContainer] are only stored, so their content is an
    uninterpreted string. *)
Record ProjectAPI := {
  apiYamlOf : APIYaml;
  Deployments : option (list Deployment);
  UpstreamCerts : option (gmap string string);
  EndpointCerts : option (gmap string string);
  Policies : option (gmap string string);
  APIEnvProps : option (gmap string string)
}.

Definition set_Deployments (v : option (list Deployment)) (p : ProjectAPI) : ProjectAPI :=
  {| apiYamlOf := apiYamlOf p; Deployments := v; UpstreamCerts := UpstreamCerts p;
     EndpointCerts := EndpointCerts p; Policies := Policies p;
     APIEnvProps := APIEnvProps p |}.

Definition set_APIEnvProps (v : option (gmap string string)) (p : ProjectAPI) : ProjectAPI :=
  {| apiYamlOf := apiYamlOf p; Deployments := Deployments p;
     UpstreamCerts := UpstreamCerts p; EndpointCerts := EndpointCerts p;
     Policies := Policies p; APIEnvProps := v |}.

Definition set_apiYamlOf (v : APIYaml) (p : ProjectAPI) : ProjectAPI :=
  {| apiYamlOf := v; Deployments := Deployments p; UpstreamCerts := UpstreamCerts p;
     EndpointCerts := EndpointCerts p; Policies := Policies p;
     APIEnvProps := APIEnvProps p |}.

(** Modelled from the spec: [notifier.DeployedAPIRevision], the
    acknowledgement of a deployment ("{vhost, environments[], revisionId,
    organizationId, apiId}"); package [notifier] is not among the sources. *)
Record DeployedAPIRevision := {
  revVhost : string;
  revEnvironments : list string;
  revRevisionID : Z;
  revOrganizationID : string;
  revAPIID : string
}.

(** A Go call returns or panics; [r] stands for the value handed to [panic]. *)
Inductive result (A : Type) : Type :=
| Done (a : A)
| Panic (r : string).
Arguments Done {A} a.
Arguments Panic {A} r.

(** The index of package [xds] as this package uses it.  The three lookups
    read a state, the two mutators also give the next one; any of them may
    panic.  A Go pair [(value, error)] is a pair with an [option error]. *)
Class XdsServer (St APIMeta : Type) := {
  xds_IsAPIExist : St → string → string → string → string → string → result bool;
  xds_GetVhostOfAPI : St → string → string → result (string * bool);
  xds_GetAllEnvironments : St → string → string → list string → result (list string);
  xds_UpdateAPI : St → string → ProjectAPI → list string →
                  St * result (option DeployedAPIRevision * option error);
  xds_DeleteAPIsWithUUID : St → string → string → list string → string →
                           St * result (option error);
  xds_ListApis : St → string → string → option Z → result APIMeta
}.

(** [for k, v := range m] over a Go map visits every entry once, in an order
    the language leaves open. *)
Class MapRange := {
  range : gmap string (list string) → list (string * list string);
  range_perm : ∀ m, range m ≡ₚ map_to_list m
}.

(** The files of a project as [processFileInsideProject] consumes them; that
    function is declared in a file that is not among the sources, and the
    pipeline is stated for every such function.  It updates the project in
    place and returns an error. *)
Class ProjectReader := {
  FileContent : Type;
  processFileInsideProject : ProjectAPI → FileContent → string → ProjectAPI * option error
}.

(** A mutation of the index asked for by this package. *)
Inductive Call :=
| CallUpdateAPI (vhost : string) (apiProject : ProjectAPI) (environments : list string)
| CallDeleteAPIsWithUUID (vhost uuid : string) (environments : list string)
    (organizationID : string).

Definition isUpdate (c : Call) : bool :=
  match c with CallUpdateAPI _ _ _ => true | _ => false end.

Definition isDelete (c : Call) : bool :=
  match c with CallDeleteAPIsWithUUID _ _ _ _ => true | _ => false end.

(** The vhost a call addresses. *)
Definition callVhost (c : Call) : string :=
  match c with
  | CallUpdateAPI vhost _ _ => vhost
  | CallDeleteAPIsWithUUID vhost _ _ _ => vhost
  end.

(** What a run acts on: the index, the mutations asked of it so far, each
    with the state it left, oldest first, and the messages logged at error
    level. *)
Record World (St : Type) := {
  index : St;
  trace : list (Call * St);
  errors : list string
}.
Arguments index {St} w.
Arguments trace {St} w.
Arguments errors {St} w.

(** The byte [0x22], which a format string writes as a backslash and a quote. *)
Definition dquote : string := String (Ascii.ascii_of_nat 34) "".

(** [fmt.Errorf] with the format of the panic guards: name, colon, version,
    the words "with UUID" and the id between quotes. *)
Definition canonicalError (apiYaml : APIYamlData) : error :=
  Name apiYaml +:+ ":" +:+ Version apiYaml +:+ " with UUID " +:+ dquote
    +:+ ID apiYaml +:+ dquote.

(** How a loop of [ApplyAPIProjectFromAPIM] ends: it runs to its end with
    its variables, it executes a [return], or a panic unwinds it.  The named
    result [deployedRevisionList] keeps its value through a panic. *)
Inductive loopExit (L : Type) : Type :=
| Completed (locals : L)
| Returned (deployedRevisionList : list DeployedAPIRevision) (err : option error)
| Panicked (deployedRevisionList : list DeployedAPIRevision) (r : string).
Arguments Completed {L} locals.
Arguments Returned {L} deployedRevisionList err.
Arguments Panicked {L} deployedRevisionList r.

(** ** The pipeline, [apis_impl.go] *)

Section Pipeline.

Context {golib : GoLib} {config : AdapterConfig} {reader : ProjectReader}
  {ranging : MapRange}.
Context {St APIMeta : Type} {xds : XdsServer St APIMeta}.

(** A function of the package that reaches the index: from a world to the
    next one and what the call returns. *)
Definition M (A : Type) : Type := World St → World St * result A.

(** [loggers.LoggerAPI.Error] and [Errorf]. *)
Definition logError (msg : string) (w : World St) : World St :=
  {| index := index w; trace := trace w; errors := errors w ++ [msg] |}.

(** [xds.UpdateAPI], recorded in the trace. *)
Definition UpdateAPI (vhost : string) (apiProject : ProjectAPI) (environments : list string)
  : M (option DeployedAPIRevision * option error) := λ w,
  let '(s', r) := xds_UpdateAPI (index w) vhost apiProject environments in
  ({| index := s';
      trace := trace w ++ [(CallUpdateAPI vhost apiProject environments, s')];
      errors := errors w |}, r).

(** [xds.DeleteAPIsWithUUID], recorded in the trace. *)
Definition DeleteAPIsWithUUID (vhost uuid : string) (environments : list string)
    (organizationID : string) : M (option error) := λ w,
  let '(s', r) := xds_DeleteAPIsWithUUID (index w) vhost uuid environments organizationID in
  ({| index := s';
      trace := trace w ++
               [(CallDeleteAPIsWithUUID vhost uuid environments organizationID, s')];
      errors := errors w |}, r).

(** An entry of the archive: its name and what [readZipFile] returns for it. *)
Record zipFile := {
  zipName : string;
  readZipFile : error + FileContent
}.

(** The payload, identified with what [zip.NewReader] makes of its bytes: an
    error or the entries in archive order. *)
Definition Payload : Type := error + list zipFile.

Definition zeroProjectAPI : ProjectAPI :=
  {| apiYamlOf := zeroAPIYaml; Deployments := None; UpstreamCerts := None;
     EndpointCerts := None; Policies := None; APIEnvProps := None |}.

(** The project [extractAPIProject] starts from: its three maps are made. *)
Definition archiveProject : ProjectAPI :=
  {| apiYamlOf := zeroAPIYaml; Deployments := None; UpstreamCerts := Some ∅;
     EndpointCerts := Some ∅; Policies := Some ∅; APIEnvProps := None |}.

(** The project [ProcessMountedAPIProjects] starts from for a directory. *)
Definition directoryProject : ProjectAPI :=
  {| apiYamlOf := zeroAPIYaml; Deployments := None; UpstreamCerts := Some ∅;
     EndpointCerts := Some ∅; Policies := None; APIEnvProps := None |}.

(** The loop of [extractAPIProject] over the entries of the archive. *)
Fixpoint processZipFiles (apiProject : ProjectAPI) (files : list zipFile)
  : ProjectAPI * option error :=
  match files with
  | [] => (apiProject, None)
  | file :: files' =>
      match readZipFile file with
      | inl e => (apiProject, Some e)
      | inr unzippedFileBytes =>
          match processFileInsideProject apiProject unzippedFileBytes (zipName file) with
          | (apiProject', Some e) => (apiProject', Some e)
          | (apiProject', None) => processZipFiles apiProject' files'
          end
      end
  end.

(** [extractAPIProject].  It never reaches the index; the lines it logs are
    not kept. *)
Definition extractAPIProject (payload : Payload) : ProjectAPI * option error :=
  match payload with
  | inl e => (zeroProjectAPI, Some e)
  | inr files =>
      match processZipFiles archiveProject files with
      | (apiProject, Some e) => (apiProject, Some e)
      | (apiProject, None) =>
          match ValidateAPIType (apiYamlOf apiProject) with
          | Some e => (apiProject, Some e)
          | None => (apiProject, None)
          end
      end
  end.

(** The deferred function of both panic guards: a panic becomes the returned
    error and is logged. *)
Definition recoveredMessage (r : string) : string := "Recovered from panic. " +:+ r.

(** The existence loop of [validateAndUpdateXds], with its [break]. *)
Fixpoint existsOnSomeVhost (s : St) (apiYaml : APIYamlData) (deployments : list Deployment)
  : result bool :=
  match deployments with
  | [] => Done false
  | deployment :: deployments' =>
      match xds_IsAPIExist s (DeploymentVhost deployment) (ID apiYaml) (Name apiYaml)
              (Version apiYaml) (OrganizationID apiYaml) with
      | Panic r => Panic r
      | Done true => Done true
      | Done false => existsOnSomeVhost s apiYaml deployments'
      end
  end.

(** [m[k] = append(m[k], v)]; a missing key reads as the nil slice. *)
Definition appendAt (k v : string) (m : gmap string (list string)) : gmap string (list string) :=
  <[k := (m !!! k) ++ [v]]> m.

(** The [vhostToEnvsMap] that [validateAndUpdateXds] builds from the
    deployments. *)
Definition groupByVhost (deployments : list Deployment) : gmap string (list string) :=
  fold_left (λ m d, appendAt (DeploymentVhost d) (DeploymentEnvironment d) m) deployments ∅.

(** The update loop of [validateAndUpdateXds]: the first error is returned. *)
Fixpoint updateEach (apiProject : ProjectAPI) (l : list (string * list string))
  : M (option error) := λ w,
  match l with
  | [] => (w, Done None)
  | (vhost, environments) :: l' =>
      match UpdateAPI vhost apiProject environments w with
      | (w', Panic r) => (w', Panic r)
      | (w', Done (_, Some e)) => (w', Done (Some e))
      | (w', Done (_, None)) => updateEach apiProject l' w'
      end
  end.

(** The start of [validateAndUpdateXds]: a project without deployments gets
    the default one. *)
Definition withDefaultDeployment (apiProject : ProjectAPI) : ProjectAPI :=
  match Deployments apiProject with
  | None =>
      let '(vhost, _, _) := GetDefaultVhost DefaultGatewayName in
      set_Deployments
        (Some [ {| DisplayOnDevportal := true; DeploymentEnvironment := DefaultGatewayName;
                   DeploymentVhost := vhost |} ]) apiProject
  | Some _ => apiProject
  end.

(** Ranging over a slice; the nil slice has no element. *)
Definition deploymentsOf (apiProject : ProjectAPI) : list Deployment :=
  match Deployments apiProject with Some deployments => deployments | None => [] end.

(** The body of [validateAndUpdateXds], what runs under its panic guard. *)
Definition validateAndUpdateXds_body (apiProject : ProjectAPI) (override : option bool)
  : M (option error) := λ w,
  let apiYaml := Data (apiYamlOf apiProject) in
  let overrideValue := match override with None => false | Some b => b end in
  let apiProject := withDefaultDeployment apiProject in
  let exists_ :=
    if negb overrideValue
    then existsOnSomeVhost (index w) apiYaml (deploymentsOf apiProject)
    else Done false in
  match exists_ with
  | Panic r => (w, Panic r)
  | Done true => (w, Done (Some constants.AlreadyExists))
  | Done false =>
      updateEach apiProject (range (groupByVhost (deploymentsOf apiProject))) w
  end.

(** [validateAndUpdateXds]. *)
Definition validateAndUpdateXds (apiProject : ProjectAPI) (override : option bool)
  : M (option error) := λ w,
  match validateAndUpdateXds_body apiProject override w with
  | (w', Panic r) =>
      (logError (recoveredMessage r) w',
       Done (Some (canonicalError (Data (apiYamlOf apiProject)))))
  | (w', Done err) => (w', Done err)
  end.

(** The inner loop: the vhosts the API already has in the requested
    environments are collected for removal when they differ from [vhost]. *)
Fixpoint searchVhosts (s : St) (uuid vhost : string) (environments : list string)
    (vhostsToRemove : gmap string (list string)) : result (gmap string (list string)) :=
  match environments with
  | [] => Done vhostsToRemove
  | env :: environments' =>
      match xds_GetVhostOfAPI s uuid env with
      | Panic r => Panic r
      | Done (existingVhost, exists_) =>
          searchVhosts s uuid vhost environments'
            (if exists_ && negb (String.eqb vhost existingVhost)
             then appendAt existingVhost env vhostsToRemove
             else vhostsToRemove)
      end
  end.

(** The first loop of [ApplyAPIProjectFromAPIM], over the requested vhosts. *)
Fixpoint updateVhosts (apiYaml : APIYamlData) (apiProject : ProjectAPI)
    (l : list (string * list string)) (vhostsToRemove : gmap string (list string))
    (deployedRevisionList : list DeployedAPIRevision) (w : World St)
  : World St * loopExit (gmap string (list string) * list DeployedAPIRevision) :=
  match l with
  | [] => (w, Completed (vhostsToRemove, deployedRevisionList))
  | (vhost, environments) :: l' =>
      match searchVhosts (index w) (ID apiYaml) vhost environments vhostsToRemove with
      | Panic r => (w, Panicked deployedRevisionList r)
      | Done vhostsToRemove' =>
          match xds_GetAllEnvironments (index w) (ID apiYaml) vhost environments with
          | Panic r => (w, Panicked deployedRevisionList r)
          | Done allEnvironments =>
              match UpdateAPI vhost apiProject allEnvironments w with
              | (w', Panic r) => (w', Panicked deployedRevisionList r)
              | (w', Done (_, Some _)) =>
                  (w', Returned deployedRevisionList (Some (canonicalError apiYaml)))
              | (w', Done (deployedRevision, None)) =>
                  updateVhosts apiYaml apiProject l' vhostsToRemove'
                    (match deployedRevision with
                     | Some d => deployedRevisionList ++ [d]
                     | None => deployedRevisionList
                     end) w'
              end
          end
      end
  end.

(** The second loop, over [vhostsToRemove]: the empty vhost is skipped. *)
Fixpoint undeployVhosts (apiYaml : APIYamlData) (l : list (string * list string))
    (deployedRevisionList : list DeployedAPIRevision) (w : World St)
  : World St * loopExit unit :=
  match l with
  | [] => (w, Completed ())
  | (vhost, environments) :: l' =>
      if String.eqb vhost "" then undeployVhosts apiYaml l' deployedRevisionList w
      else
        match DeleteAPIsWithUUID vhost (ID apiYaml) environments (OrganizationID apiYaml) w with
        | (w', Panic r) => (w', Panicked deployedRevisionList r)
        | (w', Done (Some e)) => (w', Returned deployedRevisionList (Some e))
        | (w', Done None) => undeployVhosts apiYaml l' deployedRevisionList w'
        end
  end.

(** What runs under the panic guard of [ApplyAPIProjectFromAPIM]. *)
Definition ApplyAPIProjectFromAPIM_body (apiYaml : APIYamlData) (apiProject : ProjectAPI)
    (vhostToEnvsMap : gmap string (list string)) (w : World St)
  : World St * loopExit unit :=
  match updateVhosts apiYaml apiProject (range vhostToEnvsMap) ∅ [] w with
  | (w1, Completed (vhostsToRemove, deployedRevisionList)) =>
      match undeployVhosts apiYaml (range vhostsToRemove) deployedRevisionList w1 with
      | (w2, Completed _) => (w2, Returned deployedRevisionList None)
      | (w2, Returned revs err) => (w2, Returned revs err)
      | (w2, Panicked revs r) => (w2, Panicked revs r)
      end
  | (w1, Returned revs err) => (w1, Returned revs err)
  | (w1, Panicked revs r) => (w1, Panicked revs r)
  end.

(** [ApplyAPIProjectFromAPIM]. *)
Definition ApplyAPIProjectFromAPIM (payload : Payload)
    (vhostToEnvsMap : gmap string (list string))
    (apiEnvs : gmap string (gmap string string))
  : M (list DeployedAPIRevision * option error) := λ w,
  match extractAPIProject payload with
  | (_, Some e) => (w, Done ([], Some e))
  | (apiProject, None) =>
      let apiYaml := Data (apiYamlOf apiProject) in
      let apiProject :=
        match apiEnvs !! ID apiYaml with
        | Some apiEnvProps => set_APIEnvProps (Some apiEnvProps) apiProject
        | None => apiProject
        end in
      match ApplyAPIProjectFromAPIM_body apiYaml apiProject vhostToEnvsMap w with
      | (w', Panicked revs r) =>
          (logError (recoveredMessage r) w', Done (revs, Some (canonicalError apiYaml)))
      | (w', Returned revs err) => (w', Done (revs, err))
      | (w', Completed _) => (w', Done ([], None))
      end
  end.

(** [ApplyAPIProjectInStandaloneMode]. *)
Definition ApplyAPIProjectInStandaloneMode (payload : Payload) (override : option bool)
  : M (option error) := λ w,
  match extractAPIProject payload with
  | (_, Some e) => (w, Done (Some e))
  | (apiProject, None) => validateAndUpdateXds apiProject override w
  end.

(** [ListApis]; it only reads the index.  Indexing a slice out of range
    panics. *)
Definition ListApis (s : St) (query : option string) (limit : option Z)
    (organizationID : string) : result APIMeta :=
  match query with
  | Some q =>
      let queryPair := Go.Split q ":"%char in
      match queryPair !! 0%nat with
      | None => Panic "runtime error: index out of range [0] with length 0"
      | Some key =>
          if String.eqb key apiTypeFilterKey then
            match queryPair !! 1%nat with
            | None => Panic "runtime error: index out of range [1] with length 1"
            | Some value => xds_ListApis s (ToUpper value) organizationID limit
            end
          else xds_ListApis s "" organizationID limit
      end
  | None => xds_ListApis s "" organizationID limit
  end.

(** A file that [filepath.Walk] visits below a project directory with its
    [os.FileInfo]: its path, whether it is a directory, and what
    [ioutil.ReadFile] returns for it. *)
Record walkedFile := {
  walkPath : string;
  walkIsDir : bool;
  walkRead : error + FileContent
}.

(** A call that [filepath.Walk] makes of its function: for a path whose
    [os.Lstat] succeeded, with the info of the path; for the root or a child
    whose [os.Lstat] failed, with a nil info and the error.  The calls are
    listed in the order of the walk, which is lexical; a directory whose
    names cannot be read is visited and has no entry below it. *)
Inductive walkEntry :=
| WithInfo (file : walkedFile)
| WithoutInfo (path : string) (err : error).

(** A child of the [apis] directory as [ioutil.ReadDir] lists it: a
    directory with the calls of the walk below it, or a file with what
    reading it returns. *)
Inductive artifact :=
| ArtifactDir (name : string) (files : list walkEntry)
| ArtifactFile (name : string) (data : error + Payload).

(** What the runtime hands to [panic] when a method is called on a nil
    interface value. *)
Definition nilInfoPanic : string :=
  "runtime error: invalid memory address or nil pointer dereference".

(** [filepath.Walk] with the function literal of [ProcessMountedAPIProjects]:
    directories are passed over, the first error stops the walk.  The
    literal calls [info.IsDir()] before it looks at anything else, so a call
    with a nil info panics. *)
Fixpoint walkProject (apiProject : ProjectAPI) (files : list walkEntry)
  : result (ProjectAPI * option error) :=
  match files with
  | [] => Done (apiProject, None)
  | WithoutInfo _ _ :: _ => Panic nilInfoPanic
  | WithInfo file :: files' =>
      if walkIsDir file then walkProject apiProject files'
      else
        match walkRead file with
        | inl e => Done (apiProject, Some e)
        | inr fileContent =>
            match processFileInsideProject apiProject fileContent (walkPath file) with
            | (apiProject', Some e) => Done (apiProject', Some e)
            | (apiProject', None) => walkProject apiProject' files'
            end
        end
  end.

Definition processingErrorMessage (name : string) (e : error) : string :=
  "Error while processing api artifact - " +:+ name +:+ " during startup : " +:+ e.

Definition typeErrorMessage (name : string) (e : error) : string :=
  "Error while validating the API type - " +:+ name +:+ " during startup : " +:+ e.

Definition readingErrorMessage (name : string) (e : error) : string :=
  "Error while reading api artifact - " +:+ name +:+ " during startup : " +:+ e.

(** One turn of the loop of [ProcessMountedAPIProjects]: every failure is
    logged and the loop goes on; the walk runs under no panic guard. *)
Definition mountArtifact (a : artifact) : M unit := λ w,
  match a with
  | ArtifactDir name files =>
      match walkProject directoryProject files with
      | Panic r => (w, Panic r)
      | Done (_, Some e) => (logError (processingErrorMessage name e) w, Done ())
      | Done (apiProject, None) =>
          match ValidateAPIType (apiYamlOf apiProject) with
          | Some e => (logError (typeErrorMessage name e) w, Done ())
          | None =>
              match validateAndUpdateXds apiProject (Some false) w with
              | (w', Panic r) => (w', Panic r)
              | (w', Done (Some e)) => (logError (processingErrorMessage name e) w', Done ())
              | (w', Done None) => (w', Done ())
              end
          end
      end
  | ArtifactFile name data =>
      if negb (Go.HasSuffix name zipExt) then (w, Done ())
      else
        match data with
        | inl e => (logError (readingErrorMessage name e) w, Done ())
        | inr payload =>
            match ApplyAPIProjectInStandaloneMode payload (Some false) w with
            | (w', Panic r) => (w', Panic r)
            | (w', Done (Some e)) => (logError (processingErrorMessage name e) w', Done ())
            | (w', Done None) => (w', Done ())
            end
        end
  end.

Fixpoint mountArtifacts (files : list artifact) : M unit := λ w,
  match files with
  | [] => (w, Done ())
  | a :: files' =>
      match mountArtifact a w with
      | (w', Panic r) => (w', Panic r)
      | (w', Done _) => mountArtifacts files' w'
      end
  end.

(** [ProcessMountedAPIProjects]; [readDir] is what [ioutil.ReadDir] returns
    for the [apis] directory.  When it fails the list of files is nil. *)
Definition ProcessMountedAPIProjects (readDir : error + list artifact) : M (option error) :=
  λ w,
  match readDir with
  | inl e =>
      let w := logError ("Error while reading api artifacts during startup. " +:+ e) w in
      if negb ServerEnabled then (w, Done (Some e)) else (w, Done None)
  | inr files =>
      match mountArtifacts files w with
      | (w', Panic r) => (w', Panic r)
      | (w', Done _) => (w', Done None)
      end
  end.

End Pipeline.

(** ** Instances to compute with *)

(** *** The library functions on ASCII text *)

Definition asciiUpperByte (c : ascii) : ascii :=
  let n := nat_of_ascii c in
  if (97 <=? n)%nat && (n <=? 122)%nat then ascii_of_nat (n - 32) else c.

Fixpoint asciiToUpper (s : string) : string :=
  match s with
  | EmptyString => EmptyString
  | String c s' => String (asciiUpperByte c) (asciiToUpper s')
  end.

(** The six ASCII bytes that [strings.TrimSpace] removes. *)
Definition isAsciiSpace (c : ascii) : bool :=
  let n := nat_of_ascii c in
  ((9 <=? n)%nat && (n <=? 13)%nat) || (n =? 32)%nat.

Fixpoint trimLeft (s : string) : string :=
  match s with
  | EmptyString => EmptyString
  | String c s' => if isAsciiSpace c then trimLeft s' else s
  end.

Definition asciiTrimSpace (s : string) : string :=
  String.rev (trimLeft (String.rev (trimLeft s))).

(** A member name matches a field name whatever the case of its letters. *)
Definition foldEq (a b : string) : bool := String.eqb (asciiToUpper a) (asciiToUpper b).

(** Decoding into a string field: every member that matches the field is
    decoded in turn, a value that is not a string leaves the field as it is. *)
Definition decodeString (field : string) (members : list (string * json)) (zero : string)
  : string :=
  fold_left
    (λ acc kv, if foldEq kv.1 field
               then match kv.2 with JString v => v | _ => acc end
               else acc)
    members zero.

Definition decodeConfig (members : list (string * json)) : EndpointInfoConfig :=
  fold_left
    (λ acc kv,
       if foldEq kv.1 "config"
       then match kv.2 with
            | JObject ms =>
                {| ActionDuration := decodeString "actionDuration" ms (ActionDuration acc);
                   RetryTimeOut := decodeString "retryTimeOut" ms (RetryTimeOut acc) |}
            | _ => acc
            end
       else acc)
    members {| ActionDuration := ""; RetryTimeOut := "" |}.

(** An object is decoded member by member, in the order [json.Marshal]
    writes them; any other value leaves the zero [EndpointInfo]. *)
Definition decodeEndpointInfo (v : json) : EndpointInfo :=
  match v with
  | JObject members =>
      {| Endpoint := decodeString "url" members ""; Config := decodeConfig members |}
  | _ => zeroEndpointInfo
  end.

Definition asciiGo : GoLib :=
  {| ToUpper := asciiToUpper; TrimSpace := asciiTrimSpace;
     unmarshalEndpointInfo := decodeEndpointInfo |}.

(** *** A configuration *)

Definition localConfig : AdapterConfig :=
  {| DefaultGatewayName := "Default";
     GetDefaultVhost := λ environment,
       if String.eqb environment "Default" then ("localhost", true, None)
       else ("", false, None);
     GetControlPlaneConnectedTenantDomain := "carbon.super";
     ServerEnabled := true |}.

(** *** Ranging over a map in the order of [map_to_list] *)

Definition listedRange : MapRange :=
  {| range := map_to_list; range_perm := λ m, reflexivity (map_to_list m) |}.

(** Ranging in the opposite order. *)
Definition reversedRange : MapRange :=
  {| range := λ m, reverse (map_to_list m);
     range_perm := λ m, reverse_Permutation (map_to_list m) |}.

(** *** The files of a project *)

(** The bytes of a file of a project, identified with what its decoder
    makes of them. *)
Inductive projectFile :=
| ManifestDoc (m : manifestBytes)
| DeploymentsDoc (d : error + list Deployment)
| OtherDoc (bytes : string).

(** Modelled from the spec: [processFileInsideProject], which is declared
    in a file that is not among the sources.  The dispatch is on the end of
    the path: [api.yaml] or [api.json] goes to the manifest decoder
    [NewAPIYaml], [deployment_environments.yaml] gives the deployment list,
    and the entries that do not bear on the fields modelled here are passed
    over, as unknown entries are. *)
Definition specProcessFile {golib : GoLib} {config : AdapterConfig}
    (apiProject : ProjectAPI) (fileContent : projectFile) (fileName : string)
  : ProjectAPI * option error :=
  if Go.HasSuffix fileName "api.yaml" || Go.HasSuffix fileName "api.json" then
    match NewAPIYaml (match fileContent with
                      | ManifestDoc m => m
                      | _ => NotJSON "cannot unmarshal the api file"
                      end) with
    | (_, Some e) => (apiProject, Some e)
    | (apiYaml, None) => (set_apiYamlOf apiYaml apiProject, None)
    end
  else if Go.HasSuffix fileName "deployment_environments.yaml" then
    match fileContent with
    | DeploymentsDoc (inr deployments) =>
        (set_Deployments (Some deployments) apiProject, None)
    | DeploymentsDoc (inl e) => (apiProject, Some e)
    | _ => (apiProject, Some "cannot unmarshal the deployment environments")
    end
  else (apiProject, None).

Definition specReader {golib : GoLib} {config : AdapterConfig} : ProjectReader :=
  {| FileContent := projectFile; processFileInsideProject := specProcessFile |}.

(** *** A deployment index *)

(** Modelled from the spec: what the index keeps of a revision deployed on
    a vhost. *)
Record IndexEntry := {
  entryName : string;
  entryType : string;
  entryRevision : Z
}.

(** Modelled from the spec: the state of the deployment index of package
    [xds], which is not among the sources.  "Record (orgId, env) → (vhost,
    apiId) for each environment" is read back by API and environment
    ([getVhostOfAPI(apiId, env)]), so the record is keyed by these two;
    "record (vhost, orgId, apiId, version) → revisionId" is kept with the
    name and type that [listApis] reports. *)
Record Index := {
  envToVhost : gmap (string * string) string;
  revisions : gmap (string * string * string * string) IndexEntry
}.

Definition emptyIndex : Index := {| envToVhost := ∅; revisions := ∅ |}.

(** Modelled from the spec: an entry of [APIMeta], the answer of
    [listApis]; package [apiModel] is not among the sources. *)
Record APIMetaItem := {
  metaVhost : string;
  metaID : string;
  metaVersion : string;
  metaName : string;
  metaType : string
}.

(** Modelled from the spec: [isAPIExist(vhost, apiId, name, version, orgId)],
    the presence of the per-vhost record. *)
Definition specIsAPIExist (s : Index) (vhost uuid name version organizationID : string)
  : result bool :=
  Done (bool_decide (is_Some (revisions s !! (vhost, organizationID, uuid, version)))).

(** Modelled from the spec: [getVhostOfAPI(apiId, env) → (vhost, exists)]. *)
Definition specGetVhostOfAPI (s : Index) (uuid environment : string) : result (string * bool) :=
  match envToVhost s !! (uuid, environment) with
  | Some vhost => Done (vhost, true)
  | None => Done ("", false)
  end.

(** Modelled from the spec: the "environments where this apiId is already
    deployed under the same vhost". *)
Definition environmentsOn (s : Index) (uuid vhost : string) : list string :=
  (λ kv : string * string * string, kv.1.2) <$>
  filter (λ kv : string * string * string, kv.1.1 = uuid ∧ kv.2 = vhost)
    (map_to_list (envToVhost s)).

(** Modelled from the spec: [getAllEnvironments], "the union of requested
    environments and any environments where this apiId is already deployed
    under the same vhost". *)
Definition specGetAllEnvironments (s : Index) (uuid vhost : string)
    (newEnvironments : list string) : result (list string) :=
  Done (newEnvironments ++
        filter (λ e, e ∉ newEnvironments) (environmentsOn s uuid vhost)).

(** Modelled from the spec: [updateAPI]: verify I4 and I5, accept the
    revision of the manifest, record the vhost for each environment, record
    the revision for the vhost, emit a [DeployedRevision]. *)
Definition specUpdateAPI {golib : GoLib} (s : Index) (vhost : string) (apiProject : ProjectAPI)
    (environments : list string)
  : Index * result (option DeployedAPIRevision * option error) :=
  let apiYaml := Data (apiYamlOf apiProject) in
  match ValidateAPIType (apiYamlOf apiProject) with
  | Some e => (s, Done (None, Some e))
  | None =>
      match checkEndpoints productionEndpointsError
              (ProductionEndpoints (EndpointConfig apiYaml)),
            checkEndpoints sandboxEndpointsError
              (SandBoxEndpoints (EndpointConfig apiYaml)) with
      | Some e, _ | None, Some e => (s, Done (None, Some e))
      | None, None =>
          ({| envToVhost :=
                foldr (λ env m, <[(ID apiYaml, env) := vhost]> m) (envToVhost s)
                  environments;
              revisions :=
                <[(vhost, OrganizationID apiYaml, ID apiYaml, Version apiYaml) :=
                    {| entryName := Name apiYaml; entryType := APIType apiYaml;
                       entryRevision := RevisionID apiYaml |}]> (revisions s) |},
           Done (Some {| revVhost := vhost; revEnvironments := environments;
                         revRevisionID := RevisionID apiYaml;
                         revOrganizationID := OrganizationID apiYaml;
                         revAPIID := ID apiYaml |}, None))
      end
  end.

(** Modelled from the spec: [deleteAPIsWithUUID]: nothing for the empty
    vhost; otherwise the API leaves the stated vhost in the stated
    environments, and the record of the vhost goes with its last
    environment. *)
Definition specDeleteAPIsWithUUID (s : Index) (vhost uuid : string)
    (environments : list string) (organizationID : string)
  : Index * result (option error) :=
  if String.eqb vhost "" then (s, Done None)
  else
    let kept :=
      filter (λ kv : string * string * string,
                ¬ (kv.1.1 = uuid ∧ kv.1.2 ∈ environments ∧ kv.2 = vhost))
        (envToVhost s) in
    let s1 := {| envToVhost := kept; revisions := revisions s |} in
    ({| envToVhost := kept;
        revisions :=
          match environmentsOn s1 uuid vhost with
          | [] =>
              filter (λ kv : string * string * string * string * IndexEntry,
                        ¬ (kv.1.1.1.1 = vhost ∧ kv.1.1.1.2 = organizationID
                           ∧ kv.1.1.2 = uuid))
                (revisions s)
          | _ :: _ => revisions s
          end |},
     Done None).

(** Modelled from the spec: [listApis(typeFilter, orgId, limit)]: the APIs
    of the organization, of the given type when the filter is not empty, at
    most [limit] of them. *)
Definition specListApis (s : Index) (apiType organizationID : string) (limit : option Z)
  : result (list APIMetaItem) :=
  let items :=
    (λ kv : string * string * string * string * IndexEntry,
       {| metaVhost := kv.1.1.1.1; metaID := kv.1.1.2; metaVersion := kv.1.2;
          metaName := entryName kv.2; metaType := entryType kv.2 |}) <$>
    filter (λ kv : string * string * string * string * IndexEntry,
              kv.1.1.1.2 = organizationID ∧ (apiType = "" ∨ entryType kv.2 = apiType))
      (map_to_list (revisions s)) in
  Done (match limit with Some n => take (Z.to_nat n) items | None => items end).

Definition specIndex {golib : GoLib} : XdsServer Index (list APIMetaItem) :=
  {| xds_IsAPIExist := specIsAPIExist;
     xds_GetVhostOfAPI := specGetVhostOfAPI;
     xds_GetAllEnvironments := specGetAllEnvironments;
     xds_UpdateAPI := specUpdateAPI;
     xds_DeleteAPIsWithUUID := specDeleteAPIsWithUUID;
     xds_ListApis := specListApis |}.

Definition emptyWorld : World Index := {| index := emptyIndex; trace := []; errors := [] |}.

(** ** What the pipeline expects of the index

    The contract of the index as the specification words it, stated of an
    arbitrary [XdsServer]. *)

Section Contract.

Context {St APIMeta : Type} {xds : XdsServer St APIMeta}.

Definition uuidOf (apiProject : ProjectAPI) : string := ID (Data (apiYamlOf apiProject)).

(** Modelled from the spec: where an API is placed.  An accepted update
    records the vhost for each of its environments and for no other
    ("record (orgId, env) → (vhost, apiId) for each environment");
    [GetAllEnvironments] is "the union of requested environments and any
    environments where this apiId is already deployed under the same vhost";
    an undeploy removes the API "from the stated (vhost, environments)
    tuple" and touches nothing else. *)
Record PlacementContract : Prop := {
  update_records : ∀ s vhost apiProject envs s' rev env,
    xds_UpdateAPI s vhost apiProject envs = (s', Done (rev, None)) →
    env ∈ envs →
    xds_GetVhostOfAPI s' (uuidOf apiProject) env = Done (vhost, true);
  update_frame : ∀ s vhost apiProject envs s' rev env,
    xds_UpdateAPI s vhost apiProject envs = (s', Done (rev, None)) →
    env ∉ envs →
    xds_GetVhostOfAPI s' (uuidOf apiProject) env = xds_GetVhostOfAPI s (uuidOf apiProject) env;
  all_environments : ∀ s uuid vhost envs allEnvironments env,
    xds_GetAllEnvironments s uuid vhost envs = Done allEnvironments →
    env ∈ allEnvironments ↔ env ∈ envs ∨ xds_GetVhostOfAPI s uuid env = Done (vhost, true);
  delete_frame : ∀ s vhost uuid envs organizationID s' env,
    xds_DeleteAPIsWithUUID s vhost uuid envs organizationID = (s', Done None) →
    env ∉ envs ∨ xds_GetVhostOfAPI s uuid env ≠ Done (vhost, true) →
    xds_GetVhostOfAPI s' uuid env = xds_GetVhostOfAPI s uuid env
}.

(** Modelled from the spec: whether an API exists on a vhost.  An accepted
    update makes the API exist on its vhost ("record (vhost, orgId, apiId,
    version) → revisionId"), no update makes an API cease to exist, and
    whether an update is accepted depends on the project only ("verify
    I4–I5"), not on the state of the index. *)
Record ExistenceContract : Prop := {
  update_exists : ∀ s vhost apiProject envs s' rev,
    xds_UpdateAPI s vhost apiProject envs = (s', Done (rev, None)) →
    xds_IsAPIExist s' vhost (uuidOf apiProject) (Name (Data (apiYamlOf apiProject)))
      (Version (Data (apiYamlOf apiProject)))
      (OrganizationID (Data (apiYamlOf apiProject))) = Done true;
  update_keeps : ∀ s vhost apiProject envs s' rev vhost0 uuid name version organizationID,
    xds_UpdateAPI s vhost apiProject envs = (s', Done (rev, None)) →
    xds_IsAPIExist s vhost0 uuid name version organizationID = Done true →
    xds_IsAPIExist s' vhost0 uuid name version organizationID = Done true;
  update_repeatable : ∀ s vhost apiProject envs s' rev s2,
    xds_UpdateAPI s vhost apiProject envs = (s', Done (rev, None)) →
    ∃ s2' rev2, xds_UpdateAPI s2 vhost apiProject envs = (s2', Done (rev2, None))
}.

End Contract.

Arguments PlacementContract {St APIMeta} _.
Arguments ExistenceContract {St APIMeta} _.

(** *** An index that panics

    Every call of this index panics; its state carries nothing. *)
Definition panickingIndex : XdsServer unit unit :=
  {| xds_IsAPIExist := λ _ _ _ _ _ _, Panic "nil map";
     xds_GetVhostOfAPI := λ _ _ _, Panic "nil map";
     xds_GetAllEnvironments := λ _ _ _ _, Panic "nil map";
     xds_UpdateAPI := λ s _ _ _, (s, Panic "nil map");
     xds_DeleteAPIsWithUUID := λ s _ _ _ _, (s, Panic "nil map");
     xds_ListApis := λ _ _ _ _, Panic "nil map" |}.

(** ** Sample projects and worlds *)

Section Samples.

#[local] Existing Instance asciiGo.
#[local] Existing Instance localConfig.
#[local] Existing Instance specReader.
#[local] Existing Instance listedRange.
#[local] Existing Instance specIndex.

Definition sampleEndpoint (url : string) : json := JObject [("url", JString url)].

(** A manifest as decoded from [api.yaml]: the normalized endpoint lists
    are still empty. *)
Definition sampleManifest (uuid name apiType : string) (production : json) : APIYaml :=
  {| ManifestType := "api"; ManifestVersion := "v4.0.0";
     Data :=
       {| ID := uuid; Name := name; Context := "/" +:+ name; Version := "1.0.0";
          RevisionID := 1; APIType := apiType; LifeCycleStatus := "published";
          EndpointImplementationType := "ENDPOINT"; AuthorizationHeader := "";
          SecurityScheme := []; OrganizationID := "";
          EndpointConfig :=
            {| EndpointType := "http"; RawProdEndpoints := production;
               ProductionEndpoints := []; ProductionFailoverEndpoints := [];
               RawSandboxEndpoints := JNull; SandBoxEndpoints := [];
               SandboxFailoverEndpoints := []; ImplementationStatus := "" |};
          Operations := [ {| Target := "/pets"; Verb := "GET" |} ] |} |}.

Definition manifestEntry (apiYaml : APIYaml) : zipFile :=
  {| zipName := "project/api.yaml"; readZipFile := inr (ManifestDoc (Manifest apiYaml)) |}.

Definition deploymentsEntry (deployments : list Deployment) : zipFile :=
  {| zipName := "project/deployment_environments.yaml";
     readZipFile := inr (DeploymentsDoc (inr deployments)) |}.

(** The project of scenario 1: id A, type HTTP, one production endpoint. *)
Definition petstore : Payload :=
  inr [manifestEntry (sampleManifest "A" "PetStore" "http" (sampleEndpoint "https://h/1"))].

(** The same API with a type that is not supported. *)
Definition petstoreSoap : Payload :=
  inr [manifestEntry (sampleManifest "A" "PetStore" "soap" (sampleEndpoint "https://h/1"))].

(** The same API with a deployment list that is present and empty. *)
Definition petstoreNowhere : Payload :=
  inr [manifestEntry (sampleManifest "A" "PetStore" "http" (sampleEndpoint "https://h/1"));
       deploymentsEntry []].

(** A second API, of type WS. *)
Definition chat : Payload :=
  inr [manifestEntry (sampleManifest "B" "Chat" "ws" (sampleEndpoint "wss://h/2"))].

(** The world of scenario 1: [petstore] created on the empty index. *)
Definition petstoreDeployed : World Index :=
  (ApplyAPIProjectInStandaloneMode petstore (Some false) emptyWorld).1.

(** Both sample APIs created. *)
Definition bothDeployed : World Index :=
  (ApplyAPIProjectInStandaloneMode chat (Some false) petstoreDeployed).1.

(** The request of scenario 3: to the vhost v2 in the default environment. *)
Definition toV2 : gmap string (list string) := {[ "v2" := ["Default"] ]}.

(** A request for the empty vhost, and the world it leaves. *)
Definition toEmptyVhost : gmap string (list string) := {[ "" := ["Default"] ]}.

Definition petstoreOnEmptyVhost : World Index :=
  (ApplyAPIProjectFromAPIM petstore toEmptyVhost ∅ emptyWorld).1.

(** A request that names the default environment under two vhosts. *)
Definition toV2AndV3 : gmap string (list string) :=
  {[ "v2" := ["Default"]; "v3" := ["Default"] ]}.

(** The revision that the relocation of scenario 3 acknowledges. *)
Definition petstoreOnV2 : DeployedAPIRevision :=
  {| revVhost := "v2"; revEnvironments := ["Default"]; revRevisionID := 1;
     revOrganizationID := "carbon.super"; revAPIID := "A" |}.

(** The manifest of scenario 5 once normalized: its production endpoint is
    relative. *)
Definition relativeManifest : APIYaml :=
  (PopulateEndpointsInfo
     (FormatAndUpdateInfo
        (sampleManifest "A" "PetStore" "http" (sampleEndpoint "/internal/x")))).1.

(** The same without a name. *)
Definition namelessManifest : APIYaml :=
  (PopulateEndpointsInfo
     (FormatAndUpdateInfo (sampleManifest "A" "" "http" (sampleEndpoint "/internal/x")))).1.

(** A manifest whose file has a string under [production_endpoints] and,
    besides, a member named [ProductionEndpoints]: the normalized field
    bears no tag, so the decoder files the member in it. *)
Definition prefilledManifest : APIYaml :=
  let m := sampleManifest "A" "PetStore" "http" (JString "https://h/1") in
  set_Data
    (set_EndpointConfig
       (set_ProductionEndpoints
          [ {| Endpoint := "https://h/2";
               Config := {| ActionDuration := ""; RetryTimeOut := "" |} |} ]
          (EndpointConfig (Data m)))
       (Data m)) m.

(** The world in which the control plane sent [petstore] to the vhost v2. *)
Definition petstoreSentToV2 : World Index :=
  (ApplyAPIProjectFromAPIM petstore toV2 ∅ emptyWorld).1.

Definition petstoreItem : APIMetaItem :=
  {| metaVhost := "localhost"; metaID := "A"; metaVersion := "1.0.0";
     metaName := "PetStore"; metaType := "HTTP" |}.

Definition chatItem : APIMetaItem :=
  {| metaVhost := "localhost"; metaID := "B"; metaVersion := "1.0.0";
     metaName := "Chat"; metaType := "WS" |}.

End Samples.

(** ** Notions used in the statements *)

(** The policies of [pl] that bear [name]. *)
Definition named (name : string) (pl : list Policy) : list Policy :=
  filter (λ p, PolicyName p = name) pl.

(** The number of policies before the first one that bears [name]. *)
Fixpoint beforeNamed (name : string) (pl : list Policy) : nat :=
  match pl with
  | [] => 0
  | p :: pl' => if decide (PolicyName p = name) then 0 else S (beforeNamed name pl')
  end.

(** A file of a walk as the entry of an archive: same name, same bytes. *)
Definition asZipFile {reader : ProjectReader} (file : walkedFile) : zipFile :=
  {| zipName := walkPath file; readZipFile := walkRead file |}.

(** Every call of the walk below a directory came with the info of its
    path: no [os.Lstat] failed. *)
Definition walksWithInfo {reader : ProjectReader} (a : artifact) : Prop :=
  match a with
  | ArtifactDir _ files => Forall (λ entry, ∃ file, entry = WithInfo file) files
  | ArtifactFile _ _ => True
  end.

(** The children of the [apis] directory that the bootstrap looks into: the
    directories and the files whose name ends in [zipExt]. *)
Definition isArtifact {reader : ProjectReader} (a : artifact) : bool :=
  match a with
  | ArtifactDir _ _ => true
  | ArtifactFile name _ => Go.HasSuffix name zipExt
  end.

(** The call of the index that updates the API on [x.1] in [x.2]. *)
Definition updateCall (apiProject : ProjectAPI) (x : string * list string) : Call :=
  CallUpdateAPI x.1 apiProject x.2.

(** The call of the index that undeploys the API from [x.1] in [x.2]. *)
Definition deleteCall (apiYaml : APIYamlData) (x : string * list string) : Call :=
  CallDeleteAPIsWithUUID x.1 (ID apiYaml) x.2 (OrganizationID apiYaml).

(** The revisions a loop exits with. *)
Definition exitRevisions (exit : loopExit (gmap string (list string) * list DeployedAPIRevision))
  : list DeployedAPIRevision :=
  match exit with
  | Completed (_, revs) => revs
  | Returned revs _ => revs
  | Panicked revs _ => revs
  end.

(** The project that [ApplyAPIProjectFromAPIM] hands to the index: the
    extracted one, with the properties that [apiEnvs] has for its id. *)
Definition withEnvProps (apiEnvs : gmap string (gmap string string))
    (extracted : ProjectAPI) : ProjectAPI :=
  match apiEnvs !! ID (Data (apiYamlOf extracted)) with
  | Some apiEnvProps => set_APIEnvProps (Some apiEnvProps) extracted
  | None => extracted
  end.

(** Where an environment [e] filed for removal under the vhost [k] comes
    from: it was requested under a vhost of [all], and the index had the API
    in it under [k], another one. *)
Definition relocated {St APIMeta : Type} {xds : XdsServer St APIMeta}
    (apiYaml : APIYamlData) (all : list (string * list string)) (k e : string) : Prop :=
  ∃ v es s, (v, es) ∈ all ∧ e ∈ es ∧ v ≠ k
            ∧ xds_GetVhostOfAPI s (ID apiYaml) e = Done (k, true).

(** * Properties *)

(** ** The manifest validators *)

Section ManifestFacts.

Context {golib : GoLib} {config : AdapterConfig}.

Lemma checkEndpoints_existsb (msg : error) (eps : list EndpointInfo) :
  checkEndpoints msg eps = if existsb relativeOrEmpty eps then Some msg else None.
Proof.
  induction eps as [|ep eps IH]; simpl; [done|].
  destruct (relativeOrEmpty ep); simpl; auto.
Qed.

Lemma existsb_elem_of {A} (f : A → bool) (l : list A) :
  existsb f l = true ↔ ∃ x, x ∈ l ∧ f x = true.
Proof.
  rewrite existsb_exists. split; intros (x & Hx & Hf); exists x; split; auto;
    by apply list_elem_of_In.
Qed.

(** The mandatory fields are present: the endpoint loops are reached. *)
Lemma ValidateMandatoryFields_present (apiYaml : APIYaml) :
  Name (Data apiYaml) ≠ "" → Version (Data apiYaml) ≠ "" → Context (Data apiYaml) ≠ "" →
  ProductionEndpoints (EndpointConfig (Data apiYaml)) ++
    SandBoxEndpoints (EndpointConfig (Data apiYaml)) ≠ [] →
  ValidateMandatoryFields apiYaml =
    if existsb relativeOrEmpty (ProductionEndpoints (EndpointConfig (Data apiYaml)))
    then Some productionEndpointsError
    else if existsb relativeOrEmpty (SandBoxEndpoints (EndpointConfig (Data apiYaml)))
         then Some sandboxEndpointsError
         else None.
Proof.
  intros Hn Hv Hc He. unfold ValidateMandatoryFields.
  apply String.eqb_neq in Hn, Hv, Hc. rewrite Hn, Hv, Hc.
  assert ((length (ProductionEndpoints (EndpointConfig (Data apiYaml))) <? 1)%nat
          && (length (SandBoxEndpoints (EndpointConfig (Data apiYaml))) <? 1)%nat = false)
    as ->.
  { destruct (ProductionEndpoints _), (SandBoxEndpoints _); simpl in *; done. }
  simpl. rewrite !checkEndpoints_existsb.
  by repeat case_match.
Qed.

(** A mandatory field is missing: the answer is the message on fields. *)
Lemma ValidateMandatoryFields_missing (apiYaml : APIYaml) :
  Name (Data apiYaml) = "" ∨ Version (Data apiYaml) = "" ∨ Context (Data apiYaml) = "" →
  ∃ fields name version,
    ValidateMandatoryFields apiYaml =
      Some (fields +:+ "fields cannot be empty for " +:+ name +:+ " " +:+ version).
Proof.
  intros Hmiss. unfold ValidateMandatoryFields.
  destruct (String.eqb (Name (Data apiYaml)) "") eqn:Hn;
    destruct (String.eqb (Version (Data apiYaml)) "") eqn:Hv;
    destruct (String.eqb (Context (Data apiYaml)) "") eqn:Hc;
    destruct ((length (ProductionEndpoints (EndpointConfig (Data apiYaml))) <? 1)%nat
              && (length (SandBoxEndpoints (EndpointConfig (Data apiYaml))) <? 1)%nat);
    simpl; try (by eexists _, _, _).
  all: apply String.eqb_neq in Hn, Hv, Hc; intuition congruence.
Qed.

(** C5, as amended: [PopulateEndpointsInfo] resolves each raw field by its
    shape: one object gives the list of that one endpoint, an array gives
    the endpoints of its elements in the same order, and a value that is
    present but is neither leaves the normalized list as the decoder left
    it, so empty when it was empty, and logs a warning.  A raw field that is
    nil is passed over. *)
Theorem PopulateEndpointsInfo_resolves_shapes (apiYaml : APIYaml) :
  let c := EndpointConfig (Data apiYaml) in
  let c' := EndpointConfig (Data (PopulateEndpointsInfo apiYaml).1) in
  let warnings := (PopulateEndpointsInfo apiYaml).2 in
  match RawProdEndpoints c with
  | JObject members =>
      ProductionEndpoints c' = [unmarshalEndpointInfo (JObject members)]
  | JArray elements =>
      ProductionEndpoints c' = unmarshalEndpointInfo <$> elements
      ∧ ∀ i, ProductionEndpoints c' !! i = unmarshalEndpointInfo <$> elements !! i
  | JNull => ProductionEndpoints c' = ProductionEndpoints c
  | _ =>
      ProductionEndpoints c' = ProductionEndpoints c
      ∧ (ProductionEndpoints c = [] → ProductionEndpoints c' = [])
      ∧ noProductionEndpointsWarning ∈ warnings
  end
  ∧ match RawSandboxEndpoints c with
    | JObject members =>
        SandBoxEndpoints c' = [unmarshalEndpointInfo (JObject members)]
    | JArray elements =>
        SandBoxEndpoints c' = unmarshalEndpointInfo <$> elements
        ∧ ∀ i, SandBoxEndpoints c' !! i = unmarshalEndpointInfo <$> elements !! i
    | JNull => SandBoxEndpoints c' = SandBoxEndpoints c
    | _ =>
        SandBoxEndpoints c' = SandBoxEndpoints c
        ∧ (SandBoxEndpoints c = [] → SandBoxEndpoints c' = [])
        ∧ noSandboxEndpointsWarning ∈ warnings
    end.
Proof.
  destruct apiYaml as [ty ver [id name ctx version rev aty lcs eit ah ss org c ops]].
  destruct c as [et rawProd prod prodF rawSand sand sandF ist].
  unfold PopulateEndpointsInfo; simpl.
  split.
  - destruct rawProd, rawSand; simpl; repeat split;
      auto using list_lookup_fmap; try intros ->; try done; set_solver.
  - destruct rawProd, rawSand; simpl; repeat split;
      auto using list_lookup_fmap; try intros ->; try done; set_solver.
Qed.

End ManifestFacts.

(** ** The pipeline *)

Section PipelineFacts.

Context {golib : GoLib} {config : AdapterConfig} {reader : ProjectReader}
  {ranging : MapRange}.
Context {St APIMeta : Type} {xds : XdsServer St APIMeta}.

Implicit Types (w : World St) (apiYaml : APIYamlData) (apiProject : ProjectAPI).

(** *** What the calls leave in the trace *)

Lemma UpdateAPI_spec vhost apiProject envs w w' r :
  UpdateAPI vhost apiProject envs w = (w', r) →
  xds_UpdateAPI (index w) vhost apiProject envs = (index w', r)
  ∧ trace w' = trace w ++ [(CallUpdateAPI vhost apiProject envs, index w')]
  ∧ errors w' = errors w.
Proof.
  unfold UpdateAPI. destruct (xds_UpdateAPI _ _ _ _) as [s' r'].
  intros [= <- <-]. done.
Qed.

Lemma DeleteAPIsWithUUID_spec vhost uuid envs org w w' r :
  DeleteAPIsWithUUID vhost uuid envs org w = (w', r) →
  xds_DeleteAPIsWithUUID (index w) vhost uuid envs org = (index w', r)
  ∧ trace w' = trace w ++ [(CallDeleteAPIsWithUUID vhost uuid envs org, index w')]
  ∧ errors w' = errors w.
Proof.
  unfold DeleteAPIsWithUUID. destruct (xds_DeleteAPIsWithUUID _ _ _ _ _) as [s' r'].
  intros [= <- <-]. done.
Qed.

Lemma updateVhosts_trace apiYaml apiProject l :
  ∀ vhostsToRemove revs w w' exit,
    updateVhosts apiYaml apiProject l vhostsToRemove revs w = (w', exit) →
    ∃ updates, trace w' = trace w ++ updates
               ∧ Forall (λ c, isUpdate c.1 = true) updates
               ∧ errors w' = errors w.
Proof.
  induction l as [|[vhost envs] l IH]; intros rm revs w w' exit; simpl.
  { intros [= <- <-]. exists []. by rewrite app_nil_r. }
  destruct (searchVhosts _ _ _ _ _) as [rm'|r].
  2: { intros [= <- <-]. exists []. by rewrite app_nil_r. }
  destruct (xds_GetAllEnvironments _ _ _ _) as [allEnvs|r].
  2: { intros [= <- <-]. exists []. by rewrite app_nil_r. }
  destruct (UpdateAPI _ _ _ _) as [w1 r1] eqn:Hu.
  apply UpdateAPI_spec in Hu as (_ & Ht & He).
  assert (∃ updates, trace w1 = trace w ++ updates
                     ∧ Forall (λ c : Call * St, isUpdate c.1 = true) updates
                     ∧ errors w1 = errors w) as Hone.
  { eexists; split; [exact Ht|]. split; [|done]. by constructor. }
  destruct r1 as [[rev [e|]]|r]; try (intros [= <- <-]; exact Hone).
  intros Hrest. apply IH in Hrest as (us & Ht' & Hus & He').
  exists ([(CallUpdateAPI vhost apiProject allEnvs, index w1)] ++ us).
  rewrite Ht', Ht, He', He, <- app_assoc. split; [done|]. split; [|done].
  apply Forall_app; split; [by constructor | done].
Qed.

Lemma undeployVhosts_trace apiYaml l :
  ∀ revs w w' exit,
    undeployVhosts apiYaml l revs w = (w', exit) →
    ∃ deletes, trace w' = trace w ++ deletes
               ∧ Forall (λ c, isDelete c.1 = true ∧ String.eqb (callVhost c.1) "" = false)
                   deletes
               ∧ errors w' = errors w.
Proof.
  induction l as [|[vhost envs] l IH]; intros revs w w' exit; simpl.
  { intros [= <- <-]. exists []. by rewrite app_nil_r. }
  destruct (String.eqb vhost "") eqn:Hv; [by apply IH|].
  destruct (DeleteAPIsWithUUID _ _ _ _ _) as [w1 r1] eqn:Hd.
  apply DeleteAPIsWithUUID_spec in Hd as (_ & Ht & He).
  assert (∃ deletes, trace w1 = trace w ++ deletes
            ∧ Forall (λ c : Call * St,
                        isDelete c.1 = true ∧ String.eqb (callVhost c.1) "" = false) deletes
            ∧ errors w1 = errors w) as Hone.
  { eexists; split; [exact Ht|]. split; [|done]. by repeat constructor. }
  destruct r1 as [[e|]|r]; try (intros [= <- <-]; exact Hone).
  intros Hrest. apply IH in Hrest as (ds & Ht' & Hds & He').
  eexists (_ :: ds).
  rewrite Ht', Ht, He', He, <- app_assoc. split; [done|]. split; [|done].
  constructor; [by split | done].
Qed.

(** The body of [ApplyAPIProjectFromAPIM] asks for updates, then for
    undeploys of vhosts that are not empty, and logs nothing. *)
Lemma ApplyAPIProjectFromAPIM_body_trace apiYaml apiProject vhostToEnvsMap w w' exit :
  ApplyAPIProjectFromAPIM_body apiYaml apiProject vhostToEnvsMap w = (w', exit) →
  ∃ updates deletes,
    trace w' = trace w ++ updates ++ deletes
    ∧ Forall (λ c, isUpdate c.1 = true) updates
    ∧ Forall (λ c, isDelete c.1 = true ∧ String.eqb (callVhost c.1) "" = false) deletes
    ∧ errors w' = errors w.
Proof.
  unfold ApplyAPIProjectFromAPIM_body.
  destruct (updateVhosts _ _ _ _ _ _) as [w1 ex1] eqn:Hup.
  apply updateVhosts_trace in Hup as (us & Ht & Hus & He).
  destruct ex1 as [[rm revs]|revs err|revs r].
  - destruct (undeployVhosts _ _ _ _) as [w2 ex2] eqn:Hun.
    apply undeployVhosts_trace in Hun as (ds & Ht2 & Hds & He2).
    intros Heq. assert (w' = w2) as -> by (destruct ex2; by simplify_eq).
    exists us, ds. rewrite Ht2, Ht, He2, He, app_assoc. done.
  - intros [= <- <-]. exists us, []. by rewrite app_nil_r.
  - intros [= <- <-]. exists us, []. by rewrite app_nil_r.
Qed.

(** The same of the whole function: the guard and the parser add no call. *)
Lemma ApplyAPIProjectFromAPIM_trace payload vhostToEnvsMap apiEnvs w :
  ∃ updates deletes,
    trace (ApplyAPIProjectFromAPIM payload vhostToEnvsMap apiEnvs w).1 =
      trace w ++ updates ++ deletes
    ∧ Forall (λ c, isUpdate c.1 = true) updates
    ∧ Forall (λ c, isDelete c.1 = true ∧ String.eqb (callVhost c.1) "" = false) deletes.
Proof.
  unfold ApplyAPIProjectFromAPIM.
  destruct (extractAPIProject payload) as [apiProject [e|]]; simpl.
  { exists [], []. by rewrite app_nil_r. }
  destruct (ApplyAPIProjectFromAPIM_body _ _ _ _) as [w' ex] eqn:Hb.
  apply ApplyAPIProjectFromAPIM_body_trace in Hb as (us & ds & Ht & Hus & Hds & _).
  exists us, ds. by destruct ex.
Qed.

(** C7: [ApplyAPIProjectFromAPIM] never asks the index to undeploy the empty
    vhost: no [DeleteAPIsWithUUID] that the run adds to the trace has the
    empty string as its vhost, whatever the remove set holds. *)
Theorem empty_vhost_is_never_undeployed (payload : Payload)
    (vhostToEnvsMap : gmap string (list string))
    (apiEnvs : gmap string (gmap string string)) (w : World St) :
  ∃ calls,
    trace (ApplyAPIProjectFromAPIM payload vhostToEnvsMap apiEnvs w).1 = trace w ++ calls
    ∧ Forall (λ c, isDelete c.1 = true → callVhost c.1 ≠ "") calls.
Proof.
  destruct (ApplyAPIProjectFromAPIM_trace payload vhostToEnvsMap apiEnvs w)
    as (us & ds & Ht & Hus & Hds).
  exists (us ++ ds). split; [done|].
  apply Forall_app; split.
  - eapply Forall_impl; [exact Hus|]. intros [c s] Hc Hd; simpl in *.
    destruct c; simpl in *; congruence.
  - eapply Forall_impl; [exact Hds|]. intros c [_ Hne] _.
    by apply String.eqb_neq.
Qed.

(** *** Errors of the parser *)

(** An error of [extractAPIProject] ends both entry points before they reach
    the index. *)
Lemma extract_error_untouched payload apiProject e :
  extractAPIProject payload = (apiProject, Some e) →
  ∀ vhostToEnvsMap apiEnvs override w,
    ApplyAPIProjectFromAPIM payload vhostToEnvsMap apiEnvs w = (w, Done ([], Some e))
    ∧ ApplyAPIProjectInStandaloneMode payload override w = (w, Done (Some e)).
Proof.
  intros He m apiEnvs o w.
  unfold ApplyAPIProjectFromAPIM, ApplyAPIProjectInStandaloneMode. by rewrite He.
Qed.

Lemma ValidateAPIType_unsupported (y : APIYaml) :
  APIType (Data y) ∉ [constants.HTTP; constants.WS; constants.WEBHOOK] →
  ValidateAPIType y =
    Some (if String.eqb (APIType (Data y)) "" then noManifestError else unsupportedTypeError).
Proof.
  intros Hty. unfold ValidateAPIType.
  destruct (String.eqb (APIType (Data y)) "") eqn:He; [done|].
  destruct (String.eqb (APIType (Data y)) constants.HTTP) eqn:Hhttp;
    destruct (String.eqb (APIType (Data y)) constants.WS) eqn:Hws;
    destruct (String.eqb (APIType (Data y)) constants.WEBHOOK) eqn:Hhook;
    simpl; try done;
    exfalso; apply Hty;
    first [apply String.eqb_eq in Hhttp | apply String.eqb_eq in Hws
          | apply String.eqb_eq in Hhook];
    set_solver.
Qed.

(** C3: a project whose type, as parsed, is none of HTTP, WS and WEBHOOK
    (the empty type of a project without manifest included) is refused by
    [ValidateAPIType]; [ApplyAPIProjectFromAPIM] and
    [ApplyAPIProjectInStandaloneMode] return that error and leave the world
    as it was, and a turn of [ProcessMountedAPIProjects] on the archive or
    on the directory logs it and leaves index and trace as they were. *)
Theorem unsupported_type_never_reaches_index (apiProject : ProjectAPI)
    (Htype : APIType (Data (apiYamlOf apiProject))
             ∉ [constants.HTTP; constants.WS; constants.WEBHOOK]) :
  ∃ e, ValidateAPIType (apiYamlOf apiProject) = Some e
  ∧ (∀ files vhostToEnvsMap apiEnvs override name w,
       processZipFiles archiveProject files = (apiProject, None) →
       ApplyAPIProjectFromAPIM (inr files) vhostToEnvsMap apiEnvs w = (w, Done ([], Some e))
       ∧ ApplyAPIProjectInStandaloneMode (inr files) override w = (w, Done (Some e))
       ∧ (Go.HasSuffix name zipExt = true →
          mountArtifact (ArtifactFile name (inr (inr files))) w =
            (logError (processingErrorMessage name e) w, Done ())))
  ∧ (∀ files name w,
       walkProject directoryProject files = Done (apiProject, None) →
       mountArtifact (ArtifactDir name files) w =
         (logError (typeErrorMessage name e) w, Done ())).
Proof.
  eexists. split; [by apply ValidateAPIType_unsupported|].
  split.
  - intros files m apiEnvs o name w Hfiles.
    assert (extractAPIProject (inr files) = (apiProject, Some
              (if String.eqb (APIType (Data (apiYamlOf apiProject))) ""
               then noManifestError else unsupportedTypeError))) as Hex.
    { unfold extractAPIProject. rewrite Hfiles.
      by rewrite ValidateAPIType_unsupported. }
    destruct (extract_error_untouched _ _ _ Hex m apiEnvs o w) as [Ha Hs].
    split; [done|]. split; [done|].
    intros Hzip. unfold mountArtifact. rewrite Hzip. simpl.
    destruct (extract_error_untouched _ _ _ Hex m apiEnvs (Some false) w) as [_ ->].
    done.
  - intros files name w Hwalk. unfold mountArtifact. rewrite Hwalk.
    by rewrite ValidateAPIType_unsupported.
Qed.

(** *** The panic guards *)

Lemma validateAndUpdateXds_returns apiProject override w :
  ∃ w' err, validateAndUpdateXds apiProject override w = (w', Done err).
Proof.
  unfold validateAndUpdateXds.
  destruct (validateAndUpdateXds_body _ _ _) as [w' [err|r]]; eauto.
Qed.

Lemma ApplyAPIProjectInStandaloneMode_returns payload override w :
  ∃ w' err, ApplyAPIProjectInStandaloneMode payload override w = (w', Done err).
Proof.
  unfold ApplyAPIProjectInStandaloneMode.
  destruct (extractAPIProject payload) as [apiProject [e|]]; eauto.
  apply validateAndUpdateXds_returns.
Qed.

(** A walk panics on a call without info only. *)
Lemma walkProject_panics (files : list walkEntry) :
  ∀ apiProject r,
    walkProject apiProject files = Panic r →
    r = nilInfoPanic ∧ ∃ path e, WithoutInfo path e ∈ files.
Proof.
  induction files as [|[file|path e] files IH]; intros p r; simpl; [done| |].
  - destruct (walkIsDir file).
    { intros (-> & path & e & Hin)%IH. split; [done|]. exists path, e. by right. }
    destruct (walkRead file) as [e|c]; [done|].
    destruct (processFileInsideProject p c (walkPath file)) as [p' [e|]]; [done|].
    intros (-> & path & e & Hin)%IH. split; [done|]. exists path, e. by right.
  - intros [= <-]. split; [done|]. exists path, e. by left.
Qed.

(** A turn of the loop returns, or the walk of its directory panicked on a
    call without info, before the index was reached. *)
Lemma mountArtifact_returns a w :
  (∃ w', mountArtifact a w = (w', Done ()))
  ∨ (mountArtifact a w = (w, Panic nilInfoPanic)
     ∧ ∃ name files path e, a = ArtifactDir name files ∧ WithoutInfo path e ∈ files).
Proof.
  unfold mountArtifact. destruct a as [name files|name data].
  - destruct (walkProject _ _) as [[apiProject [e|]]|r] eqn:Hwalk; [by eauto| |].
    + left. destruct (ValidateAPIType _); eauto.
      destruct (validateAndUpdateXds_returns apiProject (Some false) w) as (w' & err & ->).
      destruct err; eauto.
    + right. apply walkProject_panics in Hwalk as (-> & path & e & Hin).
      split; [done|]. by exists name, files, path, e.
  - left. destruct (negb _); eauto. destruct data as [e|payload]; eauto.
    destruct (ApplyAPIProjectInStandaloneMode_returns payload (Some false) w)
      as (w' & err & ->).
    destruct err; eauto.
Qed.

Lemma mountArtifacts_returns files :
  ∀ w, ∃ w',
    mountArtifacts files w = (w', Done ())
    ∨ (mountArtifacts files w = (w', Panic nilInfoPanic)
       ∧ ∃ name entries path e,
           ArtifactDir name entries ∈ files ∧ WithoutInfo path e ∈ entries).
Proof.
  induction files as [|a files IH]; intros w; simpl; [by eauto|].
  destruct (mountArtifact_returns a w)
    as [(w1 & ->)|(-> & name & entries & path & e & -> & Hin)].
  - destruct (IH w1) as (w' & [Hdone|(Hpanic & name & entries & path & e & Ha & Hin)]).
    + exists w'. by left.
    + exists w'. right. split; [done|]. exists name, entries, path, e.
      split; [by right|done].
  - exists w. right. split; [done|]. exists name, entries, path, e.
    split; [by left|done].
Qed.

(** A walk whose calls all came with their info returns. *)
Lemma walkProject_returns (files : list walkEntry) :
  Forall (λ entry, ∃ file, entry = WithInfo file) files →
  ∀ apiProject, ∃ res, walkProject apiProject files = Done res.
Proof.
  induction 1 as [|entry files [file ->] _ IH]; intros p; simpl; [by eauto|].
  destruct (walkIsDir file); [apply IH|].
  destruct (walkRead file) as [e|c]; [by eauto|].
  destruct (processFileInsideProject p c (walkPath file)) as [p' [e|]]; [by eauto|].
  apply IH.
Qed.

(** C8, as amended: the guards of [validateAndUpdateXds] and of
    [ApplyAPIProjectFromAPIM] turn a panic of whatever runs under them (the
    calls of the index) into the returned error made of name, version and
    id, so these two, [ApplyAPIProjectInStandaloneMode] and
    [ProcessMountedAPIProjects] return whatever the index does.  No panic of
    the index leaves [ProcessMountedAPIProjects]: it returns whenever every
    call of its walks came with the info of the path, and the one panic that
    leaves it is that of the walk called without info, which is raised
    before the index is reached and under no guard. *)
Theorem guarded_entry_points_return (apiProject : ProjectAPI) (override : option bool)
    (payload : Payload) (vhostToEnvsMap : gmap string (list string))
    (apiEnvs : gmap string (gmap string string)) (readDir : error + list artifact)
    (w : World St) :
  (∃ w' err, validateAndUpdateXds apiProject override w = (w', Done err))
  ∧ (∃ w' res, ApplyAPIProjectFromAPIM payload vhostToEnvsMap apiEnvs w = (w', Done res))
  ∧ (∃ w' err, ApplyAPIProjectInStandaloneMode payload override w = (w', Done err))
  ∧ ((match readDir with
       | inl _ => True
       | inr files => Forall walksWithInfo files
       end →
       ∃ w' err, ProcessMountedAPIProjects readDir w = (w', Done err))
     ∧ ∃ w',
         (∃ err, ProcessMountedAPIProjects readDir w = (w', Done err))
         ∨ (ProcessMountedAPIProjects readDir w = (w', Panic nilInfoPanic)
            ∧ ∃ files name entries path e,
                readDir = inr files ∧ ArtifactDir name entries ∈ files
                ∧ WithoutInfo path e ∈ entries))
  ∧ (∀ w1 r, validateAndUpdateXds_body apiProject override w = (w1, Panic r) →
       validateAndUpdateXds apiProject override w =
         (logError (recoveredMessage r) w1,
          Done (Some (canonicalError (Data (apiYamlOf apiProject))))))
  ∧ (∀ extracted w1 revs r,
       extractAPIProject payload = (extracted, None) →
       ApplyAPIProjectFromAPIM_body (Data (apiYamlOf extracted))
         (match apiEnvs !! ID (Data (apiYamlOf extracted)) with
          | Some apiEnvProps => set_APIEnvProps (Some apiEnvProps) extracted
          | None => extracted
          end) vhostToEnvsMap w = (w1, Panicked revs r) →
       ApplyAPIProjectFromAPIM payload vhostToEnvsMap apiEnvs w =
         (logError (recoveredMessage r) w1,
          Done (revs, Some (canonicalError (Data (apiYamlOf extracted)))))).
Proof.
  split; [apply validateAndUpdateXds_returns|].
  split.
  { unfold ApplyAPIProjectFromAPIM.
    destruct (extractAPIProject payload) as [p [e|]]; eauto.
    destruct (ApplyAPIProjectFromAPIM_body _ _ _ _) as [w' [?|??|??]]; eauto. }
  split; [apply ApplyAPIProjectInStandaloneMode_returns|].
  split.
  { assert (∃ w',
              (∃ err, ProcessMountedAPIProjects readDir w = (w', Done err))
              ∨ (ProcessMountedAPIProjects readDir w = (w', Panic nilInfoPanic)
                 ∧ ∃ files name entries path e,
                     readDir = inr files ∧ ArtifactDir name entries ∈ files
                     ∧ WithoutInfo path e ∈ entries)) as Hrun.
    { unfold ProcessMountedAPIProjects. destruct readDir as [e|files].
      - destruct (negb ServerEnabled); eauto.
      - destruct (mountArtifacts_returns files w)
          as (w' & [->|(-> & name & entries & path & e & Ha & Hin)]); [by eauto|].
        exists w'. right. split; [done|]. by exists files, name, entries, path, e. }
    split; [|exact Hrun].
    intros Hinfo.
    destruct Hrun as (w' & [[err Hdone]|(_ & files & name & entries & path & e & -> & Ha
                                         & Hin)]); [by eauto|].
    rewrite Forall_forall in Hinfo. specialize (Hinfo _ Ha). simpl in Hinfo.
    rewrite Forall_forall in Hinfo. destruct (Hinfo _ Hin) as [file Hfile]. done. }
  split.
  - intros w1 r Hb. unfold validateAndUpdateXds. by rewrite Hb.
  - intros p w1 revs r Hex Hb. unfold ApplyAPIProjectFromAPIM. rewrite Hex.
    simpl. by rewrite Hb.
Qed.

(** *** The query of [ListApis] *)

Lemma Split_without_separator (s : string) (sep : ascii) :
  Go.Contains s sep = false → Go.Split s sep = [s].
Proof.
  induction s as [|c s IH]; simpl; [done|].
  intros [Hc Hs]%orb_false_elim. rewrite Hc, (IH Hs). done.
Qed.

Lemma Split_at_separator (a b : string) (sep : ascii) :
  Go.Contains a sep = false →
  Go.Split (a +:+ String sep b) sep = a :: Go.Split b sep.
Proof.
  induction a as [|c a IH]; simpl.
  - intros _. by rewrite Ascii.eqb_refl.
  - intros [Hc Ha]%orb_false_elim. rewrite Hc, (IH Ha). done.
Qed.

(** C9, as amended: without a query, and for a query whose text before the
    first colon is not the key [type], [ListApis] returns the unfiltered
    list; for a query [type:value], whether or not a further colon and more
    text follow [value], it returns the list filtered by the upper-cased
    [value].  The query that is the key alone is left out. *)
Theorem ListApis_reads_type_filter (s : St) (limit : option Z) (organizationID : string) :
  ListApis s None limit organizationID = xds_ListApis s "" organizationID limit
  ∧ (∀ value rest, Go.Contains value ":" = false →
       ListApis s (Some (apiTypeFilterKey +:+ ":" +:+ value)) limit organizationID
         = xds_ListApis s (ToUpper value) organizationID limit
       ∧ ListApis s (Some (apiTypeFilterKey +:+ ":" +:+ value +:+ ":" +:+ rest)) limit
           organizationID
         = xds_ListApis s (ToUpper value) organizationID limit)
  ∧ (∀ key rest, Go.Contains key ":" = false → key ≠ apiTypeFilterKey →
       ListApis s (Some key) limit organizationID = xds_ListApis s "" organizationID limit
       ∧ ListApis s (Some (key +:+ ":" +:+ rest)) limit organizationID
         = xds_ListApis s "" organizationID limit).
Proof.
  split; [done|]. split.
  - intros value rest Hv. unfold ListApis. split.
    + change (apiTypeFilterKey +:+ ":" +:+ value)
        with (apiTypeFilterKey +:+ String ":" value).
      rewrite Split_at_separator by done.
      by rewrite (Split_without_separator value) by done.
    + change (apiTypeFilterKey +:+ ":" +:+ value +:+ ":" +:+ rest)
        with (apiTypeFilterKey +:+ String ":" (value +:+ String ":" rest)).
      rewrite Split_at_separator by done.
      by rewrite (Split_at_separator value) by done.
  - intros key rest Hk Hne. apply String.eqb_neq in Hne. unfold ListApis. split.
    + rewrite Split_without_separator by done. simpl. by rewrite Hne.
    + change (key +:+ ":" +:+ rest) with (key +:+ String ":" rest).
      rewrite Split_at_separator by done. simpl. by rewrite Hne.
Qed.

(** *** The override flag *)

(** The existence loop stops at the first vhost for which the index does
    not answer [false]. *)
Lemma existsOnSomeVhost_first (s : St) apiYaml (before after : list Deployment)
    (d : Deployment) :
  (∀ d', d' ∈ before →
     xds_IsAPIExist s (DeploymentVhost d') (ID apiYaml) (Name apiYaml) (Version apiYaml)
       (OrganizationID apiYaml) = Done false) →
  existsOnSomeVhost s apiYaml (before ++ d :: after) =
    match xds_IsAPIExist s (DeploymentVhost d) (ID apiYaml) (Name apiYaml)
            (Version apiYaml) (OrganizationID apiYaml) with
    | Panic r => Panic r
    | Done true => Done true
    | Done false => existsOnSomeVhost s apiYaml after
    end.
Proof.
  induction before as [|d0 before IH]; intros Hbefore; simpl; [done|].
  rewrite (Hbefore d0) by (by left). apply IH. intros d' Hd'. apply Hbefore. by right.
Qed.

Lemma existsOnSomeVhost_nowhere (s : St) apiYaml (deployments : list Deployment) :
  (∀ d, d ∈ deployments →
     xds_IsAPIExist s (DeploymentVhost d) (ID apiYaml) (Name apiYaml) (Version apiYaml)
       (OrganizationID apiYaml) = Done false) →
  existsOnSomeVhost s apiYaml deployments = Done false.
Proof.
  induction deployments as [|d ds IH]; intros Hall; simpl; [done|].
  rewrite (Hall d) by (by left). apply IH. intros d' Hd'. apply Hall. by right.
Qed.

(** C10: a nil override is the override [false]: both entry points behave
    the same for the two, and with a nil override the existence check of
    the index is made, for the vhosts of the deployments in their order:
    when [xds.IsAPIExist] answers [true] for a deployment, having answered
    [false] for those before it, the call returns [AlreadyExists] and leaves
    the world as it was; when it panics there, the call returns the error of
    the guard; and when it answers [false] for every deployment the call
    goes on to the updates, as the call with override does. *)
Theorem nil_override_is_create (payload : Payload) (apiProject : ProjectAPI)
    (w : World St) :
  ApplyAPIProjectInStandaloneMode payload None w
    = ApplyAPIProjectInStandaloneMode payload (Some false) w
  ∧ validateAndUpdateXds apiProject None w = validateAndUpdateXds apiProject (Some false) w
  ∧ (extractAPIProject payload = (apiProject, None) →
     ApplyAPIProjectInStandaloneMode payload None w = validateAndUpdateXds apiProject None w)
  ∧ (∀ before d after,
       deploymentsOf (withDefaultDeployment apiProject) = before ++ d :: after →
       (∀ d', d' ∈ before →
          xds_IsAPIExist (index w) (DeploymentVhost d') (uuidOf apiProject)
            (Name (Data (apiYamlOf apiProject))) (Version (Data (apiYamlOf apiProject)))
            (OrganizationID (Data (apiYamlOf apiProject))) = Done false) →
       (xds_IsAPIExist (index w) (DeploymentVhost d) (uuidOf apiProject)
          (Name (Data (apiYamlOf apiProject))) (Version (Data (apiYamlOf apiProject)))
          (OrganizationID (Data (apiYamlOf apiProject))) = Done true →
        validateAndUpdateXds apiProject None w
          = (w, Done (Some constants.AlreadyExists)))
       ∧ (∀ r,
            xds_IsAPIExist (index w) (DeploymentVhost d) (uuidOf apiProject)
              (Name (Data (apiYamlOf apiProject))) (Version (Data (apiYamlOf apiProject)))
              (OrganizationID (Data (apiYamlOf apiProject))) = Panic r →
            validateAndUpdateXds apiProject None w
              = (logError (recoveredMessage r) w,
                 Done (Some (canonicalError (Data (apiYamlOf apiProject)))))))
  ∧ ((∀ d, d ∈ deploymentsOf (withDefaultDeployment apiProject) →
        xds_IsAPIExist (index w) (DeploymentVhost d) (uuidOf apiProject)
          (Name (Data (apiYamlOf apiProject))) (Version (Data (apiYamlOf apiProject)))
          (OrganizationID (Data (apiYamlOf apiProject))) = Done false) →
     validateAndUpdateXds apiProject None w = validateAndUpdateXds apiProject (Some true) w).
Proof.
  split; [done|]. split; [done|]. split.
  { intros Hex. unfold ApplyAPIProjectInStandaloneMode. by rewrite Hex. }
  unfold uuidOf. split.
  - intros before d after Hds Hbefore.
    pose proof (existsOnSomeVhost_first (index w) (Data (apiYamlOf apiProject))
                  before after d Hbefore) as Hfirst.
    rewrite <- Hds in Hfirst.
    split.
    + intros Htrue. rewrite Htrue in Hfirst.
      unfold validateAndUpdateXds, validateAndUpdateXds_body. simpl. by rewrite Hfirst.
    + intros r Hpanic. rewrite Hpanic in Hfirst.
      unfold validateAndUpdateXds, validateAndUpdateXds_body. simpl. by rewrite Hfirst.
  - intros Hnone.
    unfold validateAndUpdateXds, validateAndUpdateXds_body. simpl.
    by rewrite (existsOnSomeVhost_nowhere _ _ _ Hnone).
Qed.

(** *** Endpoints that are relative or blank *)

(** C4, as amended: a manifest with a production or sandbox endpoint whose
    URL begins with a slash or is blank is refused by
    [ValidateMandatoryFields], hence by [NewAPIYaml]; when name, version and
    context are present the error is the one on relative urls and names the
    production endpoints if one of them offends and the sandbox endpoints
    otherwise; and an entry point whose parser returns this error returns
    it with the world as it was. *)
Theorem relative_or_blank_endpoint_rejected (apiYaml : APIYaml)
    (Hbad : ∃ ep, ep ∈ ProductionEndpoints (EndpointConfig (Data apiYaml)) ++
                       SandBoxEndpoints (EndpointConfig (Data apiYaml))
                  ∧ relativeOrEmpty ep = true) :
  ∃ e, ValidateMandatoryFields apiYaml = Some e
  ∧ (Name (Data apiYaml) ≠ "" → Version (Data apiYaml) ≠ "" →
     Context (Data apiYaml) ≠ "" →
     e = if existsb relativeOrEmpty (ProductionEndpoints (EndpointConfig (Data apiYaml)))
         then productionEndpointsError else sandboxEndpointsError)
  ∧ (∀ decoded, (PopulateEndpointsInfo (FormatAndUpdateInfo decoded)).1 = apiYaml →
       NewAPIYaml (Manifest decoded) = (apiYaml, Some e))
  ∧ (∀ payload apiProject vhostToEnvsMap apiEnvs override w,
       extractAPIProject payload = (apiProject, Some e) →
       ApplyAPIProjectFromAPIM payload vhostToEnvsMap apiEnvs w = (w, Done ([], Some e))
       ∧ ApplyAPIProjectInStandaloneMode payload override w = (w, Done (Some e))).
Proof.
  destruct Hbad as (ep & Hin & Hep).
  assert (ProductionEndpoints (EndpointConfig (Data apiYaml)) ++
          SandBoxEndpoints (EndpointConfig (Data apiYaml)) ≠ []) as Hne.
  { intros Heq. rewrite Heq in Hin. by apply not_elem_of_nil in Hin. }
  assert (existsb relativeOrEmpty (ProductionEndpoints (EndpointConfig (Data apiYaml)))
          || existsb relativeOrEmpty (SandBoxEndpoints (EndpointConfig (Data apiYaml)))
          = true) as Hex.
  { apply elem_of_app in Hin as [Hin|Hin]; apply orb_true_iff; [left|right];
      apply existsb_elem_of; eauto. }
  assert (∃ e, ValidateMandatoryFields apiYaml = Some e
          ∧ (Name (Data apiYaml) ≠ "" → Version (Data apiYaml) ≠ "" →
             Context (Data apiYaml) ≠ "" →
             e = if existsb relativeOrEmpty
                      (ProductionEndpoints (EndpointConfig (Data apiYaml)))
                 then productionEndpointsError else sandboxEndpointsError))
    as (e & Hv & Hmsg).
  { destruct (decide (Name (Data apiYaml) = "")) as [Hn|Hn];
      [|destruct (decide (Version (Data apiYaml) = "")) as [Hver|Hver];
        [|destruct (decide (Context (Data apiYaml) = "")) as [Hc|Hc]]].
    1-3: destruct (ValidateMandatoryFields_missing apiYaml) as (f & n & v & ->);
      [by auto|eexists; split; [done|]; intros; done].
    rewrite ValidateMandatoryFields_present by done.
    destruct (existsb relativeOrEmpty (ProductionEndpoints _)); simpl in Hex.
    - eexists; split; [done|]. done.
    - rewrite Hex. eexists; split; [done|]. done. }
  exists e. split; [done|]. split; [done|]. split.
  - intros decoded Hd. unfold NewAPIYaml. rewrite Hd, Hv. done.
  - intros payload p m apiEnvs o w Hext.
    by apply (extract_error_untouched _ _ _ Hext).
Qed.

(** *** Relocation to another vhost *)

Lemma elem_of_appendAt (k v : string) (m : gmap string (list string)) (k' e : string) :
  e ∈ appendAt k v m !!! k' ↔ e ∈ m !!! k' ∨ (k' = k ∧ e = v).
Proof.
  unfold appendAt. destruct (decide (k = k')) as [->|Hne].
  - rewrite lookup_total_insert_eq, elem_of_app. set_solver.
  - rewrite lookup_total_insert_ne by done. naive_solver.
Qed.

(** What the inner loop adds to the remove set: the requested environments
    in which the API has another vhost, under that vhost. *)
Lemma searchVhosts_spec (s : St) (uuid vhost : string) (envs : list string) :
  ∀ rm rm',
    searchVhosts s uuid vhost envs rm = Done rm' →
    ∀ k e, e ∈ rm' !!! k ↔
           e ∈ rm !!! k
           ∨ (e ∈ envs ∧ xds_GetVhostOfAPI s uuid e = Done (k, true) ∧ k ≠ vhost).
Proof.
  induction envs as [|env envs IH]; intros rm rm'; simpl.
  { intros [= <-] k e. set_solver. }
  destruct (xds_GetVhostOfAPI s uuid env) as [[ev ex]|r] eqn:Hg; [|done].
  intros Hs k e. rewrite (IH _ _ Hs). clear IH Hs.
  destruct ex; simpl.
  - destruct (String.eqb vhost ev) eqn:Hv; simpl.
    + apply String.eqb_eq in Hv as ->.
      split; [set_solver|].
      intros [?|(He & Hk & Hne)]; [by left|].
      apply elem_of_cons in He as [->|He]; [congruence|]. right. done.
    + apply String.eqb_neq in Hv. rewrite elem_of_appendAt.
      split.
      * intros [[?|[-> ->]]|(He & Hk & Hne)]; [by left| |set_solver].
        right. split; [set_solver|]. split; [done|congruence].
      * intros [?|(He & Hk & Hne)]; [by left; left|].
        apply elem_of_cons in He as [->|He]; [|by right].
        left; right. split; [congruence|done].
  - split; [set_solver|].
    intros [?|(He & Hk & Hne)]; [by left|].
    apply elem_of_cons in He as [->|He]; [congruence|]. right. done.
Qed.

Lemma updateVhosts_app apiYaml apiProject l1 l2 :
  ∀ rm revs w,
    updateVhosts apiYaml apiProject (l1 ++ l2) rm revs w =
      match updateVhosts apiYaml apiProject l1 rm revs w with
      | (w1, Completed (rm1, revs1)) => updateVhosts apiYaml apiProject l2 rm1 revs1 w1
      | other => other
      end.
Proof.
  induction l1 as [|[vhost envs] l1 IH]; intros rm revs w; simpl; [done|].
  destruct (searchVhosts _ _ _ _ _); [|done].
  destruct (xds_GetAllEnvironments _ _ _ _); [|done].
  destruct (UpdateAPI _ _ _ _) as [w1 [[rev [e|]]|r]]; auto.
Qed.

Lemma updateVhosts_returned apiYaml apiProject l :
  ∀ rm revs w w' revs' err,
    updateVhosts apiYaml apiProject l rm revs w = (w', Returned revs' err) →
    is_Some err.
Proof.
  induction l as [|[vhost envs] l IH]; intros rm revs w w' revs' err; simpl; [done|].
  destruct (searchVhosts _ _ _ _ _); [|done].
  destruct (xds_GetAllEnvironments _ _ _ _); [|done].
  destruct (UpdateAPI _ _ _ _) as [w1 [[rev [e|]]|r]]; [|by eauto|done].
  intros [= <- <- <-]. eauto.
Qed.

Lemma undeployVhosts_returned apiYaml l :
  ∀ revs w w' revs' err,
    undeployVhosts apiYaml l revs w = (w', Returned revs' err) → is_Some err.
Proof.
  induction l as [|[vhost envs] l IH]; intros revs w w' revs' err; simpl; [done|].
  destruct (String.eqb vhost ""); [by eauto|].
  destruct (DeleteAPIsWithUUID _ _ _ _ _) as [w1 [[e|]|r]]; [|by eauto|done].
  intros [= <- <- <-]. eauto.
Qed.

Lemma elem_of_range (m : gmap string (list string)) (k : string) (es : list string) :
  (k, es) ∈ range m ↔ m !! k = Some es.
Proof. rewrite (range_perm m). apply elem_of_map_to_list. Qed.

Lemma NoDup_range (m : gmap string (list string)) : NoDup (range m).*1.
Proof. rewrite (range_perm m). apply NoDup_fst_map_to_list. Qed.

Lemma elem_of_lookup_total (m : gmap string (list string)) (k e : string) :
  e ∈ m !!! k → ∃ es, m !! k = Some es ∧ e ∈ es.
Proof.
  rewrite lookup_total_alt. destruct (m !! k) as [es|]; simpl; [by eauto|].
  by intros ?%not_elem_of_nil.
Qed.

Section Relocation.

Hypothesis contract : PlacementContract xds.

Variables (apiYaml : APIYamlData) (apiProject : ProjectAPI).
Hypothesis same_id : uuidOf apiProject = ID apiYaml.

(** The environment that moves. *)
Variable env : string.

(** An update loop in which [env] is not requested leaves the vhost of the
    API in [env] as it is, in every state it goes through, and the entries
    of [env] in the remove set as they are. *)
Lemma updateVhosts_frame (cur : string) (l : list (string * list string)) :
  (∀ v envs, (v, envs) ∈ l → env ∉ envs) →
  ∀ rm revs w w' rm' revs',
    xds_GetVhostOfAPI (index w) (ID apiYaml) env = Done (cur, true) →
    updateVhosts apiYaml apiProject l rm revs w = (w', Completed (rm', revs')) →
    xds_GetVhostOfAPI (index w') (ID apiYaml) env = Done (cur, true)
    ∧ (∀ k, env ∈ rm' !!! k ↔ env ∈ rm !!! k)
    ∧ ∃ updates, trace w' = trace w ++ updates
        ∧ Forall (λ c, xds_GetVhostOfAPI c.2 (ID apiYaml) env = Done (cur, true)) updates.
Proof.
  induction l as [|[v envs] l IH]; intros Hl rm revs w w' rm' revs' Hcur; simpl.
  { intros [= <- <- <-]. split; [done|]. split; [done|].
    exists []. by rewrite app_nil_r. }
  destruct (searchVhosts _ _ _ _ _) as [rm1|r] eqn:Hs; [|done].
  destruct (xds_GetAllEnvironments _ _ _ _) as [allEnvs|r] eqn:Ha; [|done].
  destruct (UpdateAPI _ _ _ _) as [w1 [[rev [e|]]|r]] eqn:Hu; [done| |done].
  apply UpdateAPI_spec in Hu as (Hx & Ht & _).
  assert (env ∉ envs) as Hnot by (eapply Hl; left).
  assert (xds_GetVhostOfAPI (index w1) (ID apiYaml) env = Done (cur, true)) as Hcur1.
  { rewrite <- same_id in *.
    destruct (decide (env ∈ allEnvs)) as [Hin|Hout].
    - rewrite (update_records contract _ _ _ _ _ _ _ Hx Hin).
      apply (all_environments contract _ _ _ _ _ env Ha) in Hin as [?|Hv]; [done|].
      congruence.
    - by rewrite (update_frame contract _ _ _ _ _ _ _ Hx Hout). }
  intros Hrest. apply IH in Hrest as (Hfin & Hrm & us & Hus & Hall); [|set_solver|done].
  split; [done|]. split.
  - intros k. rewrite Hrm, (searchVhosts_spec _ _ _ _ _ _ Hs). naive_solver.
  - eexists (_ :: us). rewrite Hus, Ht, <- app_assoc. split; [done|].
    constructor; done.
Qed.

(** An undeploy loop that removes [env] only from other vhosts leaves the
    vhost of the API in [env] as it is, and asks for one undeploy for every
    vhost of the list that is not empty. *)
Lemma undeployVhosts_frame (cur : string) (l : list (string * list string)) :
  (∀ k es, (k, es) ∈ l → env ∈ es → k ≠ cur) →
  ∀ revs w w',
    xds_GetVhostOfAPI (index w) (ID apiYaml) env = Done (cur, true) →
    undeployVhosts apiYaml l revs w = (w', Completed ()) →
    xds_GetVhostOfAPI (index w') (ID apiYaml) env = Done (cur, true)
    ∧ ∃ deletes, trace w' = trace w ++ deletes
        ∧ Forall (λ c, xds_GetVhostOfAPI c.2 (ID apiYaml) env = Done (cur, true)) deletes
        ∧ ∀ k es, (k, es) ∈ l → k ≠ "" →
            CallDeleteAPIsWithUUID k (ID apiYaml) es (OrganizationID apiYaml) ∈ deletes.*1.
Proof.
  induction l as [|[k es] l IH]; intros Hl revs w w' Hcur; simpl.
  { intros [= <-]. split; [done|]. exists []. rewrite app_nil_r.
    split; [done|]. split; [done|]. by intros k es ?%not_elem_of_nil. }
  destruct (String.eqb k "") eqn:Hk.
  { apply String.eqb_eq in Hk as ->. intros Hrest.
    apply IH in Hrest as (Hfin & ds & Hds & Hall & Hcalls); [|set_solver|done].
    split; [done|]. exists ds. split; [done|]. split; [done|].
    intros k' es' [[= -> ->]|Hin]%elem_of_cons Hne; [done|by eapply Hcalls]. }
  destruct (DeleteAPIsWithUUID _ _ _ _ _) as [w1 [[e|]|r]] eqn:Hd; [done| |done].
  apply DeleteAPIsWithUUID_spec in Hd as (Hx & Ht & _).
  assert (xds_GetVhostOfAPI (index w1) (ID apiYaml) env = Done (cur, true)) as Hcur1.
  { rewrite (delete_frame contract _ _ _ _ _ _ env Hx); [done|].
    destruct (decide (env ∈ es)) as [Hin|Hout]; [right|by left].
    rewrite Hcur. intros [= <-]. eapply Hl; [by left|done..]. }
  intros Hrest. apply IH in Hrest as (Hfin & ds & Hds & Hall & Hcalls); [|set_solver|done].
  split; [done|]. eexists (_ :: ds). rewrite Hds, Ht, <- app_assoc.
  split; [done|]. split; [by constructor|].
  intros k' es' [[= -> ->]|Hin]%elem_of_cons Hne; simpl; [by left|].
  right. by eapply Hcalls.
Qed.

(** A run of the body that returns no error, for a request that moves the
    API in [env] from [old] to [vhost]. *)
Lemma relocation_run (m : gmap string (list string)) (vhost old : string)
    (envs : list string) (w w' : World St) (revs : list DeployedAPIRevision) :
  m !! vhost = Some envs → env ∈ envs →
  (∀ v' envs', m !! v' = Some envs' → env ∈ envs' → v' = vhost) →
  xds_GetVhostOfAPI (index w) (ID apiYaml) env = Done (old, true) →
  old ≠ vhost →
  ApplyAPIProjectFromAPIM_body apiYaml apiProject m w = (w', Returned revs None) →
  xds_GetVhostOfAPI (index w') (ID apiYaml) env = Done (vhost, true)
  ∧ ∃ updates deletes,
      trace w' = trace w ++ updates ++ deletes
      ∧ Forall (λ c, isUpdate c.1 = true) updates
      ∧ Forall (λ c, isDelete c.1 = true) deletes
      ∧ Forall (λ c, xds_GetVhostOfAPI c.2 (ID apiYaml) env = Done (old, true)
                     ∨ xds_GetVhostOfAPI c.2 (ID apiYaml) env = Done (vhost, true))
          (updates ++ deletes)
      ∧ (old ≠ "" →
         ∃ removed,
           CallDeleteAPIsWithUUID old (ID apiYaml) removed (OrganizationID apiYaml)
             ∈ deletes.*1
           ∧ env ∈ removed).
Proof.
  intros Hm Henv Honly Hold Hne. unfold ApplyAPIProjectFromAPIM_body.
  pose proof (NoDup_range m) as Hnd.
  assert ((vhost, envs) ∈ range m) as Hin by by apply elem_of_range.
  assert (∀ v' envs', (v', envs') ∈ range m → v' ≠ vhost → env ∉ envs') as Hother.
  { intros v' envs' Hv'%elem_of_range Hv Hc. by apply Hv, (Honly _ envs'). }
  apply list_elem_of_split in Hin as (l1 & l2 & Hl). rewrite Hl in *.
  rewrite fmap_app, fmap_cons in Hnd. simpl in Hnd.
  apply NoDup_app in Hnd as (_ & Hl1 & [Hl2 _]%NoDup_cons).
  assert (∀ v' envs', (v', envs') ∈ l1 → env ∉ envs') as Hfree1.
  { intros v' envs' Hv'. apply (Hother v'); [set_solver|].
    intros ->. apply (Hl1 vhost); [|by left].
    apply list_elem_of_fmap. by exists (vhost, envs'). }
  assert (∀ v' envs', (v', envs') ∈ l2 → env ∉ envs') as Hfree2.
  { intros v' envs' Hv'. apply (Hother v'); [set_solver|].
    intros ->. apply Hl2, list_elem_of_fmap. by exists (vhost, envs'). }
  rewrite updateVhosts_app.
  destruct (updateVhosts apiYaml apiProject l1 ∅ [] w) as [w1 ex1] eqn:Hrun1.
  pose proof (updateVhosts_trace _ _ _ _ _ _ _ _ Hrun1) as (us1 & Hus1 & Hup1 & _).
  destruct ex1 as [[rm1 revs1]|revs1 err1|revs1 r1].
  2: { apply updateVhosts_returned in Hrun1 as [e ->]. done. }
  2: done.
  apply (updateVhosts_frame old) in Hrun1 as (Hcur1 & Hrm1 & us1' & Hus1' & Hst1);
    [|done..].
  rewrite Hus1 in Hus1'. apply app_inv_head in Hus1' as <-.
  simpl.
  destruct (searchVhosts _ _ _ _ _) as [rm2|r] eqn:Hs; [|done].
  destruct (xds_GetAllEnvironments _ _ _ _) as [allEnvs|r] eqn:Ha; [|done].
  destruct (UpdateAPI _ _ _ _) as [w2 [[rev [e|]]|r]] eqn:Hu; [done| |done].
  apply UpdateAPI_spec in Hu as (Hx & Ht2 & _).
  assert (xds_GetVhostOfAPI (index w2) (ID apiYaml) env = Done (vhost, true)) as Hcur2.
  { rewrite <- same_id in *. apply (update_records contract _ _ _ _ _ _ _ Hx).
    apply (all_environments contract _ _ _ _ _ env Ha). by left. }
  assert (∀ k, env ∈ rm2 !!! k ↔ k = old) as Hrm2.
  { intros k. rewrite (searchVhosts_spec _ _ _ _ _ _ Hs), Hrm1, lookup_total_empty.
    split.
    - intros [?%not_elem_of_nil|(_ & Hk & _)]; [done|]. congruence.
    - intros ->. right. done. }
  match goal with
  | |- context [updateVhosts apiYaml apiProject l2 rm2 ?revs2 w2] =>
      destruct (updateVhosts apiYaml apiProject l2 rm2 revs2 w2) as [w3 ex3] eqn:Hrun3
  end.
  pose proof (updateVhosts_trace _ _ _ _ _ _ _ _ Hrun3) as (us3 & Hus3 & Hup3 & _).
  destruct ex3 as [[rm3 revs3]|revs3 err3|revs3 r3].
  2: { apply updateVhosts_returned in Hrun3 as [e ->]. done. }
  2: done.
  apply (updateVhosts_frame vhost) in Hrun3 as (Hcur3 & Hrm3 & us3' & Hus3' & Hst3);
    [|done..].
  rewrite Hus3 in Hus3'. apply app_inv_head in Hus3' as <-.
  destruct (undeployVhosts apiYaml (range rm3) revs3 w3) as [w4 ex4] eqn:Hrun4.
  destruct ex4 as [[]|revs4 err4|revs4 r4].
  2: { apply undeployVhosts_returned in Hrun4 as [e ->]. done. }
  2: done.
  intros [= <- <-].
  pose proof (undeployVhosts_trace _ _ _ _ _ _ Hrun4) as (ds & Hds & Hdel & _).
  apply (undeployVhosts_frame vhost) in Hrun4 as (Hcur4 & ds' & Hds' & Hst4 & Hcalls);
    [| |done].
  2: { intros k es Hk%elem_of_range Hes.
       assert (env ∈ rm3 !!! k) as Hk3.
       { rewrite lookup_total_alt, Hk. done. }
       apply Hrm3, Hrm2 in Hk3 as ->. done. }
  rewrite Hds in Hds'. apply app_inv_head in Hds' as <-.
  split; [done|].
  exists (us1 ++ (CallUpdateAPI vhost apiProject allEnvs, index w2) :: us3), ds.
  split.
  { rewrite Hds, Hus3, Ht2, Hus1, <- !app_assoc. done. }
  split.
  { apply Forall_app; split; [done|]. by constructor. }
  split.
  { eapply Forall_impl; [exact Hdel|]. by intros c [? _]. }
  split.
  { rewrite <- app_assoc. apply Forall_app; split.
    - eapply Forall_impl; [exact Hst1|]. by left.
    - constructor; [by right|]. apply Forall_app; split.
      + eapply Forall_impl; [exact Hst3|]. by right.
      + eapply Forall_impl; [exact Hst4|]. by right. }
  intros Hne0.
  assert (env ∈ rm3 !!! old) as (removed & Hrem & Hin)%elem_of_lookup_total
    by by apply Hrm3, Hrm2.
  exists removed. split; [|done].
  apply Hcalls; [|done]. by apply elem_of_range.
Qed.

End Relocation.

Section Transit.

Hypothesis contract : PlacementContract xds.

Variables (apiYaml : APIYamlData) (apiProject : ProjectAPI).
Hypothesis same_id : uuidOf apiProject = ID apiYaml.

Variable env : string.

(** However an update loop in which [env] is not requested ends, every state
    it goes through has the API in [env] where it was, but for the state
    that a call which ends the loop leaves. *)
Lemma updateVhosts_states (cur : string) (l : list (string * list string)) :
  (∀ v envs, (v, envs) ∈ l → env ∉ envs) →
  ∀ rm revs w w' exit,
    xds_GetVhostOfAPI (index w) (ID apiYaml) env = Done (cur, true) →
    updateVhosts apiYaml apiProject l rm revs w = (w', exit) →
    ∃ updates failed,
      trace w' = trace w ++ updates ++ failed
      ∧ Forall (λ c, xds_GetVhostOfAPI c.2 (ID apiYaml) env = Done (cur, true)) updates
      ∧ length failed ≤ 1.
Proof.
  induction l as [|[v envs] l IH]; intros Hl rm revs w w' exit Hcur; simpl.
  { intros [= <- <-]. exists [], []. rewrite !app_nil_r.
    split; [done|]. split; [by constructor|simpl; lia]. }
  destruct (searchVhosts _ _ _ _ _) as [rm1|r] eqn:Hs.
  2: { intros [= <- <-]. exists [], []. rewrite !app_nil_r.
    split; [done|]. split; [by constructor|simpl; lia]. }
  destruct (xds_GetAllEnvironments _ _ _ _) as [allEnvs|r] eqn:Ha.
  2: { intros [= <- <-]. exists [], []. rewrite !app_nil_r.
    split; [done|]. split; [by constructor|simpl; lia]. }
  destruct (UpdateAPI _ _ _ _) as [w1 r1] eqn:Hu.
  apply UpdateAPI_spec in Hu as (Hx & Ht & _).
  assert (env ∉ envs) as Hnot by (eapply Hl; left).
  destruct r1 as [[rev [e|]]|r].
  - intros [= <- <-]. eexists [], [_]. split; [exact Ht|]. split; [done|]. simpl. lia.
  - assert (xds_GetVhostOfAPI (index w1) (ID apiYaml) env = Done (cur, true)) as Hcur1.
    { rewrite <- same_id in *.
      destruct (decide (env ∈ allEnvs)) as [Hin|Hout].
      - rewrite (update_records contract _ _ _ _ _ _ _ Hx Hin).
        apply (all_environments contract _ _ _ _ _ env Ha) in Hin as [?|Hv]; [done|].
        congruence.
      - by rewrite (update_frame contract _ _ _ _ _ _ _ Hx Hout). }
    intros Hrest. apply IH in Hrest as (us & fl & Hus & Hall & Hlen); [|set_solver|done].
    eexists (_ :: us), fl. rewrite Hus, Ht, <- !app_assoc. split; [done|].
    split; [by constructor|done].
  - intros [= <- <-]. eexists [], [_]. split; [exact Ht|]. split; [done|]. simpl. lia.
Qed.

(** The same of an undeploy loop that removes [env] only from other vhosts. *)
Lemma undeployVhosts_states (cur : string) (l : list (string * list string)) :
  (∀ k es, (k, es) ∈ l → env ∈ es → k ≠ cur) →
  ∀ revs w w' exit,
    xds_GetVhostOfAPI (index w) (ID apiYaml) env = Done (cur, true) →
    undeployVhosts apiYaml l revs w = (w', exit) →
    ∃ deletes failed,
      trace w' = trace w ++ deletes ++ failed
      ∧ Forall (λ c, xds_GetVhostOfAPI c.2 (ID apiYaml) env = Done (cur, true)) deletes
      ∧ length failed ≤ 1.
Proof.
  induction l as [|[k es] l IH]; intros Hl revs w w' exit Hcur; simpl.
  { intros [= <- <-]. exists [], []. rewrite !app_nil_r.
    split; [done|]. split; [by constructor|simpl; lia]. }
  destruct (String.eqb k "") eqn:Hk.
  { intros Hrest. apply IH in Hrest; [done|set_solver|done]. }
  destruct (DeleteAPIsWithUUID _ _ _ _ _) as [w1 r1] eqn:Hd.
  apply DeleteAPIsWithUUID_spec in Hd as (Hx & Ht & _).
  destruct r1 as [[e|]|r].
  - intros [= <- <-]. eexists [], [_]. split; [exact Ht|]. split; [done|]. simpl. lia.
  - assert (xds_GetVhostOfAPI (index w1) (ID apiYaml) env = Done (cur, true)) as Hcur1.
    { rewrite (delete_frame contract _ _ _ _ _ _ env Hx); [done|].
      destruct (decide (env ∈ es)) as [Hin|Hout]; [right|by left].
      rewrite Hcur. intros [= <-]. eapply Hl; [by left|done..]. }
    intros Hrest. apply IH in Hrest as (ds & fl & Hds & Hall & Hlen); [|set_solver|done].
    eexists (_ :: ds), fl. rewrite Hds, Ht, <- !app_assoc. split; [done|].
    split; [by constructor|done].
  - intros [= <- <-]. eexists [], [_]. split; [exact Ht|]. split; [done|]. simpl. lia.
Qed.

(** A run of the body that ends with an error or a panic, for a request that
    moves the API in [env] from [old] to [vhost]: every state it goes
    through has the API in [env] under one of the two, but for the state
    that the call which ends the run leaves. *)
Lemma relocation_failed_run (m : gmap string (list string)) (vhost old : string)
    (envs : list string) (w w' : World St) (exit : loopExit unit) :
  m !! vhost = Some envs → env ∈ envs →
  (∀ v' envs', m !! v' = Some envs' → env ∈ envs' → v' = vhost) →
  xds_GetVhostOfAPI (index w) (ID apiYaml) env = Done (old, true) →
  old ≠ vhost →
  ApplyAPIProjectFromAPIM_body apiYaml apiProject m w = (w', exit) →
  (∀ revs, exit ≠ Returned revs None) →
  ∃ calls failed,
    trace w' = trace w ++ calls ++ failed
    ∧ Forall (λ c, xds_GetVhostOfAPI c.2 (ID apiYaml) env = Done (old, true)
                   ∨ xds_GetVhostOfAPI c.2 (ID apiYaml) env = Done (vhost, true)) calls
    ∧ length failed ≤ 1.
Proof.
  intros Hm Henv Honly Hold Hne. unfold ApplyAPIProjectFromAPIM_body.
  pose proof (NoDup_range m) as Hnd.
  assert ((vhost, envs) ∈ range m) as Hin by by apply elem_of_range.
  assert (∀ v' envs', (v', envs') ∈ range m → v' ≠ vhost → env ∉ envs') as Hother.
  { intros v' envs' Hv'%elem_of_range Hv Hc. by apply Hv, (Honly _ envs'). }
  apply list_elem_of_split in Hin as (l1 & l2 & Hl). rewrite Hl in *.
  rewrite fmap_app, fmap_cons in Hnd. simpl in Hnd.
  apply NoDup_app in Hnd as (_ & Hl1 & [Hl2 _]%NoDup_cons).
  assert (∀ v' envs', (v', envs') ∈ l1 → env ∉ envs') as Hfree1.
  { intros v' envs' Hv'. apply (Hother v'); [set_solver|].
    intros ->. apply (Hl1 vhost); [|by left].
    apply list_elem_of_fmap. by exists (vhost, envs'). }
  assert (∀ v' envs', (v', envs') ∈ l2 → env ∉ envs') as Hfree2.
  { intros v' envs' Hv'. apply (Hother v'); [set_solver|].
    intros ->. apply Hl2, list_elem_of_fmap. by exists (vhost, envs'). }
  assert (∀ (us fl : list (Call * St)) w0,
            trace w0 = trace w ++ us ++ fl →
            Forall (λ c, xds_GetVhostOfAPI c.2 (ID apiYaml) env = Done (old, true)) us →
            length fl ≤ 1 →
            ∃ calls failed,
              trace w0 = trace w ++ calls ++ failed
              ∧ Forall (λ c, xds_GetVhostOfAPI c.2 (ID apiYaml) env = Done (old, true)
                             ∨ xds_GetVhostOfAPI c.2 (ID apiYaml) env = Done (vhost, true))
                  calls
              ∧ length failed ≤ 1) as Hearly.
  { intros us fl w0 Ht Hst Hlen. exists us, fl. split; [done|]. split; [|done].
    eapply Forall_impl; [exact Hst|]. by left. }
  rewrite updateVhosts_app.
  destruct (updateVhosts apiYaml apiProject l1 ∅ [] w) as [w1 ex1] eqn:Hrun1.
  destruct ex1 as [[rm1 revs1]|revs1 err1|revs1 r1].
  2: { apply (updateVhosts_states old) in Hrun1 as (us & fl & Ht & Hst & Hlen); [|done..].
       intros [= <- <-] _. by eapply Hearly. }
  2: { apply (updateVhosts_states old) in Hrun1 as (us & fl & Ht & Hst & Hlen); [|done..].
       intros [= <- <-] _. by eapply Hearly. }
  apply (updateVhosts_frame contract apiYaml apiProject same_id env old) in Hrun1
    as (Hcur1 & Hrm1 & us1 & Hus1 & Hst1); [|done..].
  simpl.
  destruct (searchVhosts _ _ _ _ _) as [rm2|r] eqn:Hs.
  2: { intros [= <- <-] _. apply (Hearly us1 []); [by rewrite app_nil_r|done|simpl; lia]. }
  destruct (xds_GetAllEnvironments _ _ _ _) as [allEnvs|r] eqn:Ha.
  2: { intros [= <- <-] _. apply (Hearly us1 []); [by rewrite app_nil_r|done|simpl; lia]. }
  destruct (UpdateAPI _ _ _ _) as [w2 r2] eqn:Hu.
  apply UpdateAPI_spec in Hu as (Hx & Ht2 & _).
  destruct r2 as [[rev [e|]]|r].
  1: { intros [= <- <-] _.
       eapply (Hearly us1 [_]); [by rewrite Ht2, Hus1, <- app_assoc|done|simpl; lia]. }
  2: { intros [= <- <-] _.
       eapply (Hearly us1 [_]); [by rewrite Ht2, Hus1, <- app_assoc|done|simpl; lia]. }
  assert (xds_GetVhostOfAPI (index w2) (ID apiYaml) env = Done (vhost, true)) as Hcur2.
  { rewrite <- same_id in *. apply (update_records contract _ _ _ _ _ _ _ Hx).
    apply (all_environments contract _ _ _ _ _ env Ha). by left. }
  assert (∀ k, env ∈ rm2 !!! k ↔ k = old) as Hrm2.
  { intros k. rewrite (searchVhosts_spec _ _ _ _ _ _ Hs), Hrm1, lookup_total_empty.
    split.
    - intros [?%not_elem_of_nil|(_ & Hk & _)]; [done|]. congruence.
    - intros ->. right. done. }
  assert (Forall (λ c : Call * St,
                    xds_GetVhostOfAPI c.2 (ID apiYaml) env = Done (old, true)
                    ∨ xds_GetVhostOfAPI c.2 (ID apiYaml) env = Done (vhost, true))
            (us1 ++ [(CallUpdateAPI vhost apiProject allEnvs, index w2)])) as Hst2.
  { apply Forall_app. split.
    - eapply Forall_impl; [exact Hst1|]. by left.
    - constructor; [by right|constructor]. }
  match goal with
  | |- context [updateVhosts apiYaml apiProject l2 rm2 ?revs2 w2] =>
      destruct (updateVhosts apiYaml apiProject l2 rm2 revs2 w2) as [w3 ex3] eqn:Hrun3
  end.
  assert (∀ (us fl : list (Call * St)) w0,
            trace w0 = trace w2 ++ us ++ fl →
            Forall (λ c, xds_GetVhostOfAPI c.2 (ID apiYaml) env = Done (vhost, true)) us →
            length fl ≤ 1 →
            ∃ calls failed,
              trace w0 = trace w ++ calls ++ failed
              ∧ Forall (λ c, xds_GetVhostOfAPI c.2 (ID apiYaml) env = Done (old, true)
                             ∨ xds_GetVhostOfAPI c.2 (ID apiYaml) env = Done (vhost, true))
                  calls
              ∧ length failed ≤ 1) as Hlate.
  { intros us fl w0 Ht Hst Hlen.
    exists ((us1 ++ [(CallUpdateAPI vhost apiProject allEnvs, index w2)]) ++ us), fl.
    split; [by rewrite Ht, Ht2, Hus1, <- !app_assoc|]. split; [|done].
    apply Forall_app. split; [done|].
    eapply Forall_impl; [exact Hst|]. by right. }
  destruct ex3 as [[rm3 revs3]|revs3 err3|revs3 r3].
  2: { apply (updateVhosts_states vhost) in Hrun3 as (us & fl & Ht & Hst & Hlen); [|done..].
       intros [= <- <-] _. by eapply Hlate. }
  2: { apply (updateVhosts_states vhost) in Hrun3 as (us & fl & Ht & Hst & Hlen); [|done..].
       intros [= <- <-] _. by eapply Hlate. }
  apply (updateVhosts_frame contract apiYaml apiProject same_id env vhost) in Hrun3
    as (Hcur3 & Hrm3 & us3 & Hus3 & Hst3); [|done..].
  destruct (undeployVhosts apiYaml (range rm3) revs3 w3) as [w4 ex4] eqn:Hrun4.
  apply (undeployVhosts_states vhost) in Hrun4 as (ds & fl & Hds & Hst4 & Hlen);
    [| |done].
  2: { intros k es Hk%elem_of_range Hes.
       assert (env ∈ rm3 !!! k) as Hk3.
       { rewrite lookup_total_alt, Hk. done. }
       apply Hrm3, Hrm2 in Hk3 as ->. done. }
  assert (∃ calls failed,
            trace w4 = trace w ++ calls ++ failed
            ∧ Forall (λ c, xds_GetVhostOfAPI c.2 (ID apiYaml) env = Done (old, true)
                           ∨ xds_GetVhostOfAPI c.2 (ID apiYaml) env = Done (vhost, true))
                calls
            ∧ length failed ≤ 1) as Hend.
  { apply (Hlate (us3 ++ ds) fl); [by rewrite Hds, Hus3, <- !app_assoc| |done].
    by apply Forall_app. }
  destruct ex4 as [[]|revs4 err4|revs4 r4].
  - intros [= <- <-] Hfailed. by destruct (Hfailed revs3).
  - by intros [= <- <-] _.
  - by intros [= <- <-] _.
Qed.

End Transit.

Lemma ApplyAPIProjectFromAPIM_body_exits apiYaml apiProject vhostToEnvsMap w w' locals :
  ApplyAPIProjectFromAPIM_body apiYaml apiProject vhostToEnvsMap w ≠ (w', Completed locals).
Proof.
  unfold ApplyAPIProjectFromAPIM_body.
  destruct (updateVhosts _ _ _ _ _ _) as [w1 [[rm revs]|revs err|revs r]]; [|done..].
  by destruct (undeployVhosts _ _ _ _) as [w2 [[]|revs' err|revs' r]].
Qed.

(** A call of [ApplyAPIProjectFromAPIM] that returns no error ran its body
    to the end. *)
Lemma ApplyAPIProjectFromAPIM_success payload extracted vhostToEnvsMap apiEnvs w w' revs :
  extractAPIProject payload = (extracted, None) →
  ApplyAPIProjectFromAPIM payload vhostToEnvsMap apiEnvs w = (w', Done (revs, None)) →
  ∃ apiProject,
    uuidOf apiProject = uuidOf extracted
    ∧ ApplyAPIProjectFromAPIM_body (Data (apiYamlOf extracted)) apiProject
        vhostToEnvsMap w = (w', Returned revs None).
Proof.
  intros Hex. unfold ApplyAPIProjectFromAPIM. rewrite Hex. simpl.
  destruct (ApplyAPIProjectFromAPIM_body _ _ _ _) as [w1 ex] eqn:Hb.
  destruct ex as [locals|revs1 err1|revs1 r1].
  - by apply ApplyAPIProjectFromAPIM_body_exits in Hb.
  - intros [= <- <- ->]. eexists; split; [|exact Hb]. by destruct (apiEnvs !! _).
  - done.
Qed.

(** C1, as amended: when a call of [ApplyAPIProjectFromAPIM] returns no
    error, and a requested environment, requested under one vhost only, had
    the API under another vhost that is not the empty one, the call asks the
    index to undeploy the API from the old vhost in a list of environments
    that holds this one, after all its updates; and, the index keeping its
    contract on placements, the API is under the requested vhost in that
    environment afterwards. *)
Theorem relocation_undeploys_old_vhost (contract : PlacementContract xds)
    (payload : Payload) (extracted : ProjectAPI)
    (vhostToEnvsMap : gmap string (list string))
    (apiEnvs : gmap string (gmap string string))
    (vhost old env : string) (envs : list string) (w w' : World St)
    (revs : list DeployedAPIRevision)
    (Hextract : extractAPIProject payload = (extracted, None))
    (Hrequested : vhostToEnvsMap !! vhost = Some envs) (Henv : env ∈ envs)
    (Honly : ∀ v' envs', vhostToEnvsMap !! v' = Some envs' → env ∈ envs' → v' = vhost)
    (Hold : xds_GetVhostOfAPI (index w) (uuidOf extracted) env = Done (old, true))
    (Hmoves : old ≠ vhost) (Hnonempty : old ≠ "")
    (Hok : ApplyAPIProjectFromAPIM payload vhostToEnvsMap apiEnvs w
           = (w', Done (revs, None))) :
  (∃ updates deletes removed,
     trace w' = trace w ++ updates ++ deletes
     ∧ Forall (λ c, isUpdate c.1 = true) updates
     ∧ Forall (λ c, isDelete c.1 = true) deletes
     ∧ CallDeleteAPIsWithUUID old (uuidOf extracted) removed
         (OrganizationID (Data (apiYamlOf extracted))) ∈ deletes.*1
     ∧ env ∈ removed)
  ∧ xds_GetVhostOfAPI (index w') (uuidOf extracted) env = Done (vhost, true).
Proof.
  destruct (ApplyAPIProjectFromAPIM_success _ _ _ _ _ _ _ Hextract Hok)
    as (apiProject & Hid & Hbody).
  destruct (relocation_run contract _ apiProject Hid env _ vhost old envs _ _ _
              Hrequested Henv Honly Hold Hmoves Hbody)
    as (Hnew & us & ds & Ht & Hus & Hds & _ & Hcall).
  destruct (Hcall Hnonempty) as (removed & Hin & Hrem).
  split; [|done]. by exists us, ds, removed.
Qed.

(** C6, as amended: within one call of [ApplyAPIProjectFromAPIM] every
    [UpdateAPI] is asked of the index before any [DeleteAPIsWithUUID]: the
    calls the run adds to the trace are updates followed by undeploys,
    whatever the index answers and in whatever order the maps are ranged
    over.  So, the index keeping its contract on placements, when a call
    moves the API in an environment, requested under one vhost only, from an
    old vhost to the requested one, every state the index goes through has
    the API in that environment under the old vhost or under the new one,
    but for the state left by a call that the index refuses or that panics,
    which is the last one of the run; a call that returns no error has no
    such state. *)
Theorem applies_precede_removes (payload : Payload)
    (vhostToEnvsMap : gmap string (list string))
    (apiEnvs : gmap string (gmap string string)) (w : World St) :
  (∃ updates deletes,
     trace (ApplyAPIProjectFromAPIM payload vhostToEnvsMap apiEnvs w).1 =
       trace w ++ updates ++ deletes
     ∧ Forall (λ c, isUpdate c.1 = true) updates
     ∧ Forall (λ c, isDelete c.1 = true) deletes)
  ∧ (PlacementContract xds →
     ∀ extracted vhost old env envs w' revs err,
       extractAPIProject payload = (extracted, None) →
       vhostToEnvsMap !! vhost = Some envs → env ∈ envs →
       (∀ v' envs', vhostToEnvsMap !! v' = Some envs' → env ∈ envs' → v' = vhost) →
       xds_GetVhostOfAPI (index w) (uuidOf extracted) env = Done (old, true) →
       old ≠ vhost →
       ApplyAPIProjectFromAPIM payload vhostToEnvsMap apiEnvs w = (w', Done (revs, err)) →
       ∃ calls failed,
         trace w' = trace w ++ calls ++ failed
         ∧ Forall (λ c, xds_GetVhostOfAPI c.2 (uuidOf extracted) env = Done (old, true)
                        ∨ xds_GetVhostOfAPI c.2 (uuidOf extracted) env = Done (vhost, true))
             calls
         ∧ length failed ≤ 1
         ∧ (err = None → failed = [])).
Proof.
  split.
  - destruct (ApplyAPIProjectFromAPIM_trace payload vhostToEnvsMap apiEnvs w)
      as (us & ds & Ht & Hus & Hds).
    exists us, ds. split; [done|]. split; [done|].
    eapply Forall_impl; [exact Hds|]. by intros c [? _].
  - intros contract extracted vhost old env envs w' revs err Hextract Hreq Henv Honly Hold
      Hmoves Hrun.
    destruct err as [e|].
    2: { destruct (ApplyAPIProjectFromAPIM_success _ _ _ _ _ _ _ Hextract Hrun)
           as (apiProject & Hid & Hbody).
         destruct (relocation_run contract _ apiProject Hid env _ vhost old envs _ _ _
                     Hreq Henv Honly Hold Hmoves Hbody)
           as (_ & us & ds & Ht & _ & _ & Hstates & _).
         exists (us ++ ds), []. rewrite app_nil_r.
         split; [done|]. split; [done|]. split; [simpl; lia|done]. }
    unfold ApplyAPIProjectFromAPIM in Hrun. rewrite Hextract in Hrun. simpl in Hrun.
    match type of Hrun with
    | context [ApplyAPIProjectFromAPIM_body _ ?p0 _ _] => set (p := p0) in Hrun
    end.
    assert (uuidOf p = uuidOf extracted) as Hid
      by (unfold p; by destruct (apiEnvs !! _)).
    destruct (ApplyAPIProjectFromAPIM_body _ p vhostToEnvsMap w) as [w1 ex] eqn:Hb.
    assert (∀ revs0, ex ≠ Returned revs0 None) as Hfail.
    { intros revs0 ->. done. }
    destruct (relocation_failed_run contract _ p Hid env vhostToEnvsMap vhost old envs
                w w1 ex Hreq Henv Honly Hold Hmoves Hb Hfail)
      as (calls & failed & Ht & Hst & Hlen).
    exists calls, failed.
    assert (trace w' = trace w1) as -> by (destruct ex; by simplify_eq).
    done.
Qed.

(** *** Creating twice *)

Lemma apiYamlOf_withDefaultDeployment apiProject :
  apiYamlOf (withDefaultDeployment apiProject) = apiYamlOf apiProject.
Proof.
  unfold withDefaultDeployment. destruct (Deployments apiProject); [done|].
  by destruct (GetDefaultVhost DefaultGatewayName) as [[??]?].
Qed.

Lemma groupByVhost_covers (deployments : list Deployment) (d : Deployment) :
  d ∈ deployments → is_Some (groupByVhost deployments !! DeploymentVhost d).
Proof.
  unfold groupByVhost. generalize (∅ : gmap string (list string)).
  assert (∀ ds (m : gmap string (list string)) v,
            is_Some (m !! v) →
            is_Some (fold_left (λ m d, appendAt (DeploymentVhost d)
                                         (DeploymentEnvironment d) m) ds m !! v)) as Hkeep.
  { induction ds as [|d' ds IH]; intros m v Hm; simpl; [done|].
    apply IH. unfold appendAt. rewrite lookup_insert_is_Some. 
    destruct (decide (DeploymentVhost d' = v)); auto. }
  induction deployments as [|d' ds IH]; intros m Hin; [by apply not_elem_of_nil in Hin|].
  apply elem_of_cons in Hin as [->|Hin]; simpl; [|by apply IH].
  apply Hkeep. unfold appendAt. by rewrite lookup_insert_eq.
Qed.

Section Creation.

Hypothesis contract : ExistenceContract xds.

Lemma updateEach_keeps apiProject l :
  ∀ w w', updateEach apiProject l w = (w', Done None) →
  ∀ vhost0 uuid name version organizationID,
    xds_IsAPIExist (index w) vhost0 uuid name version organizationID = Done true →
    xds_IsAPIExist (index w') vhost0 uuid name version organizationID = Done true.
Proof.
  induction l as [|[vhost envs] l IH]; intros w w'; simpl.
  { by intros [= <-]. }
  destruct (UpdateAPI _ _ _ _) as [w1 [[rev [e|]]|r]] eqn:Hu; [done| |done].
  apply UpdateAPI_spec in Hu as (Hx & _).
  intros Hrest v0 uuid name version org Hex.
  eapply IH; [done|]. by eapply (update_keeps contract).
Qed.

(** Every vhost of an update loop that returns no error accepted its
    update, and the API exists on it afterwards. *)
Lemma updateEach_accepted apiProject l :
  ∀ w w', updateEach apiProject l w = (w', Done None) →
  ∀ vhost envs, (vhost, envs) ∈ l →
    (∃ s s' rev, xds_UpdateAPI s vhost apiProject envs = (s', Done (rev, None)))
    ∧ xds_IsAPIExist (index w') vhost (uuidOf apiProject)
        (Name (Data (apiYamlOf apiProject))) (Version (Data (apiYamlOf apiProject)))
        (OrganizationID (Data (apiYamlOf apiProject))) = Done true.
Proof.
  induction l as [|[v es] l IH]; intros w w'; simpl.
  { by intros _ vhost envs ?%not_elem_of_nil. }
  destruct (UpdateAPI _ _ _ _) as [w1 [[rev [e|]]|r]] eqn:Hu; [done| |done].
  apply UpdateAPI_spec in Hu as (Hx & _).
  intros Hrest vhost envs [[= -> ->]|Hin]%elem_of_cons.
  - split; [by eauto|].
    eapply updateEach_keeps; [done|]. by eapply (update_exists contract).
  - by eapply IH.
Qed.

Lemma updateEach_again apiProject l :
  (∀ vhost envs, (vhost, envs) ∈ l →
     ∃ s s' rev, xds_UpdateAPI s vhost apiProject envs = (s', Done (rev, None))) →
  ∀ w, ∃ w', updateEach apiProject l w = (w', Done None).
Proof.
  induction l as [|[v es] l IH]; intros Hl w; simpl; [by eauto|].
  destruct (Hl v es) as (s & s' & rev & Hx); [by left|].
  destruct (update_repeatable contract _ _ _ _ _ _ (index w) Hx) as (s2 & rev2 & Hx2).
  unfold UpdateAPI at 1. rewrite Hx2. apply IH.
  intros vhost envs Hin. apply Hl. by right.
Qed.

End Creation.

(** C2, as amended: for a project with at least one deployment (the default
    one when it lists none), the index keeping its contract on existence:
    after a first [ApplyAPIProjectInStandaloneMode] without override that
    returned no error, a second one without override returns [AlreadyExists]
    and leaves the world as it was, and one with override returns no error;
    each call may range over its map in an order of its own. *)
Theorem second_create_is_refused (contract : ExistenceContract xds)
    (first second third : MapRange)
    (payload : Payload) (extracted : ProjectAPI) (w0 w1 : World St)
    (Hextract : extractAPIProject payload = (extracted, None))
    (Hdeployed : deploymentsOf (withDefaultDeployment extracted) ≠ [])
    (Hfirst : ApplyAPIProjectInStandaloneMode (ranging := first) payload (Some false) w0
              = (w1, Done None)) :
  ApplyAPIProjectInStandaloneMode (ranging := second) payload (Some false) w1
    = (w1, Done (Some constants.AlreadyExists))
  ∧ ∃ w2, ApplyAPIProjectInStandaloneMode (ranging := third) payload (Some true) w1
          = (w2, Done None).
Proof.
  unfold ApplyAPIProjectInStandaloneMode, validateAndUpdateXds in *.
  rewrite Hextract in *.
  destruct (validateAndUpdateXds_body (ranging := first) extracted (Some false) w0)
    as [w1' [err|r]] eqn:Hb; [|done].
  injection Hfirst as -> ->.
  unfold validateAndUpdateXds_body in *. simpl in *.
  set (p' := withDefaultDeployment extracted) in *.
  destruct (existsOnSomeVhost (index w0) _ _) as [[|]|r]; [done| |done].
  destruct (deploymentsOf p') as [|d ds] eqn:Hds; [done|].
  destruct (groupByVhost_covers (d :: ds) d) as [es Hes]; [by left|].
  pose proof (updateEach_accepted contract p' _ _ _ Hb) as Hacc.
  assert (∀ vhost envs, groupByVhost (d :: ds) !! vhost = Some envs →
            (∃ s s' rev, xds_UpdateAPI s vhost p' envs = (s', Done (rev, None)))
            ∧ xds_IsAPIExist (index w1) vhost (ID (Data (apiYamlOf extracted)))
                (Name (Data (apiYamlOf extracted))) (Version (Data (apiYamlOf extracted)))
                (OrganizationID (Data (apiYamlOf extracted))) = Done true) as Hall.
  { intros vhost envs Hv. specialize (Hacc vhost envs).
    unfold uuidOf, p' in Hacc. rewrite apiYamlOf_withDefaultDeployment in Hacc.
    apply Hacc. rewrite (range_perm (MapRange := first)). by apply elem_of_map_to_list. }
  split.
  - simpl. by destruct (Hall _ _ Hes) as [_ ->].
  - destruct (updateEach_again contract p'
                (range (MapRange := third) (groupByVhost (d :: ds)))) with w1
      as [w2 Hw2].
    + intros vhost envs Hin. rewrite (range_perm (MapRange := third)) in Hin.
      apply elem_of_map_to_list in Hin. by apply Hall.
    + exists w2. by rewrite Hw2.
Qed.

End PipelineFacts.

(** ** The modelled index keeps the contract *)

Section SpecIndexFacts.

Context {golib : GoLib}.

Lemma specGetVhostOfAPI_true (s : Index) (uuid env vhost : string) :
  specGetVhostOfAPI s uuid env = Done (vhost, true) ↔ envToVhost s !! (uuid, env) = Some vhost.
Proof.
  unfold specGetVhostOfAPI. destruct (envToVhost s !! (uuid, env)); naive_solver.
Qed.

Lemma elem_of_environmentsOn (s : Index) (uuid vhost env : string) :
  env ∈ environmentsOn s uuid vhost ↔ envToVhost s !! (uuid, env) = Some vhost.
Proof.
  unfold environmentsOn. rewrite list_elem_of_fmap. split.
  - intros ([[u e] v] & -> & [[Hu Hv] Hin%elem_of_map_to_list]%list_elem_of_filter).
    simpl in *. by subst.
  - intros Hl. exists (uuid, env, vhost). split; [done|].
    apply list_elem_of_filter. split; [done|]. by apply elem_of_map_to_list.
Qed.

Lemma lookup_record_vhost (uuid vhost : string) (envs : list string)
    (m : gmap (string * string) string) (u e : string) :
  foldr (λ env m, <[(uuid, env) := vhost]> m) m envs !! (u, e) =
    if decide (u = uuid ∧ e ∈ envs) then Some vhost else m !! (u, e).
Proof.
  induction envs as [|env envs IH]; simpl.
  { case_decide as Hd; [|done]. destruct Hd as [_ Hd]. by apply not_elem_of_nil in Hd. }
  rewrite lookup_insert. rewrite IH. repeat case_decide; set_solver.
Qed.

Lemma specUpdateAPI_accepted (s : Index) (vhost : string) (apiProject : ProjectAPI)
    (envs : list string) (s' : Index) (rev : option DeployedAPIRevision) :
  specUpdateAPI s vhost apiProject envs = (s', Done (rev, None)) →
  envToVhost s' = foldr (λ env m, <[(uuidOf apiProject, env) := vhost]> m) (envToVhost s) envs
  ∧ revisions s' =
      <[(vhost, OrganizationID (Data (apiYamlOf apiProject)), uuidOf apiProject,
         Version (Data (apiYamlOf apiProject))) :=
          {| entryName := Name (Data (apiYamlOf apiProject));
             entryType := APIType (Data (apiYamlOf apiProject));
             entryRevision := RevisionID (Data (apiYamlOf apiProject)) |}]> (revisions s)
  ∧ ∀ s2, ∃ s2' rev2, specUpdateAPI s2 vhost apiProject envs = (s2', Done (rev2, None)).
Proof.
  unfold specUpdateAPI.
  destruct (ValidateAPIType _); [done|].
  destruct (checkEndpoints productionEndpointsError _); [done|].
  destruct (checkEndpoints sandboxEndpointsError _); [done|].
  intros [= <- <-]. simpl. split; [done|]. split; [done|]. eauto.
Qed.

Lemma specIndex_placement : PlacementContract specIndex.
Proof.
  split; simpl.
  - intros s vhost p envs s' rev env (He & _ & _)%specUpdateAPI_accepted Hin.
    apply specGetVhostOfAPI_true. rewrite He, lookup_record_vhost.
    by rewrite decide_True.
  - intros s vhost p envs s' rev env (He & _ & _)%specUpdateAPI_accepted Hout.
    unfold specGetVhostOfAPI. rewrite He, lookup_record_vhost.
    rewrite decide_False; [done|]. by intros [_ ?].
  - intros s uuid vhost envs allEnvs env [= <-].
    rewrite elem_of_app, list_elem_of_filter, elem_of_environmentsOn,
      specGetVhostOfAPI_true.
    destruct (decide (env ∈ envs)); naive_solver.
  - intros s vhost uuid envs org s' env. unfold specDeleteAPIsWithUUID.
    destruct (String.eqb vhost ""); intros [= <-]; [done|]. intros Hside. simpl.
    unfold specGetVhostOfAPI at 1; simpl.
    destruct (envToVhost s !! (uuid, env)) as [v|] eqn:Hl.
    + erewrite map_lookup_filter_Some_2; [by unfold specGetVhostOfAPI; rewrite Hl|done|].
      simpl. intros (_ & Hin & ->). destruct Hside as [Hout|Hne]; [done|].
      apply Hne. by apply specGetVhostOfAPI_true.
    + rewrite map_lookup_filter_None_2; [by unfold specGetVhostOfAPI; rewrite Hl|].
      by left.
Qed.

Lemma specIndex_existence : ExistenceContract specIndex.
Proof.
  split; simpl.
  - intros s vhost p envs s' rev (_ & Hr & _)%specUpdateAPI_accepted.
    unfold specIsAPIExist. rewrite Hr, lookup_insert_eq.
    by rewrite bool_decide_eq_true_2.
  - intros s vhost p envs s' rev v0 uuid name version org
      (_ & Hr & _)%specUpdateAPI_accepted.
    unfold specIsAPIExist. intros [= Hex%bool_decide_eq_true].
    rewrite Hr, bool_decide_eq_true_2; [done|].
    rewrite lookup_insert_is_Some. destruct (decide ((vhost, OrganizationID
      (Data (apiYamlOf p)), uuidOf p, Version (Data (apiYamlOf p))) = (v0, org, uuid, version)));
      auto.
  - intros s vhost p envs s' rev s2 (_ & _ & Hagain)%specUpdateAPI_accepted.
    apply Hagain.
Qed.

End SpecIndexFacts.

(** ** Runs on the sample projects *)

Section SampleRuns.

#[local] Existing Instance asciiGo.
#[local] Existing Instance localConfig.
#[local] Existing Instance specReader.
#[local] Existing Instance listedRange.
#[local] Existing Instance specIndex.

Example scenario_create_new :
  (ApplyAPIProjectInStandaloneMode petstore (Some false) emptyWorld).2 = Done None
  ∧ xds_IsAPIExist (index petstoreDeployed) "localhost" "A" "PetStore" "1.0.0" "carbon.super"
    = Done true.
Proof. split; vm_compute; reflexivity. Qed.

Example scenario_relocation :
  let w := (ApplyAPIProjectFromAPIM petstore toV2 ∅ petstoreDeployed).1 in
  xds_GetVhostOfAPI (index petstoreDeployed) "A" "Default" = Done ("localhost", true)
  ∧ xds_GetVhostOfAPI (index w) "A" "Default" = Done ("v2", true)
  ∧ xds_IsAPIExist (index w) "localhost" "A" "PetStore" "1.0.0" "carbon.super" = Done false
  ∧ (trace w).*1 =
      [CallUpdateAPI "localhost" (withDefaultDeployment (extractAPIProject petstore).1)
         ["Default"];
       CallUpdateAPI "v2" (extractAPIProject petstore).1 ["Default"];
       CallDeleteAPIsWithUUID "localhost" "A" ["Default"] "carbon.super"].
Proof. repeat split; vm_compute; reflexivity. Qed.

(** A pair is its first component and what its second evaluates to. *)
Lemma pair_of_snd {A B : Type} (x : A * B) (b : B) : x.2 = b → x = (x.1, b).
Proof. destruct x; simpl; congruence. Qed.

(** The amended C1 on scenario 3. *)
Lemma relocation_undeploys_old_vhost_witness :
  let w' := (ApplyAPIProjectFromAPIM petstore toV2 ∅ petstoreDeployed).1 in
  (∃ updates deletes removed,
     trace w' = trace petstoreDeployed ++ updates ++ deletes
     ∧ Forall (λ c, isUpdate c.1 = true) updates
     ∧ Forall (λ c, isDelete c.1 = true) deletes
     ∧ CallDeleteAPIsWithUUID "localhost" "A" removed "carbon.super" ∈ deletes.*1
     ∧ "Default" ∈ removed)
  ∧ xds_GetVhostOfAPI (index w') "A" "Default" = Done ("v2", true).
Proof.
  apply (relocation_undeploys_old_vhost specIndex_placement petstore
           (extractAPIProject petstore).1 toV2 ∅ "v2" "localhost" "Default" ["Default"]
           petstoreDeployed _ [petstoreOnV2]).
  - apply pair_of_snd. vm_compute. reflexivity.
  - reflexivity.
  - by left.
  - unfold toV2. intros v' envs' [<- _]%lookup_singleton_Some _. reflexivity.
  - vm_compute. reflexivity.
  - discriminate.
  - discriminate.
  - apply pair_of_snd. vm_compute. reflexivity.
Defined.

(** C1 as stated fails on a call that the parser refuses: the API is in the
    default environment under [localhost], the call asks for [v2] there with
    a manifest of a type that is not supported, returns the error and leaves
    the world as it was. *)
Lemma refused_call_undeploys_nothing :
  uuidOf (extractAPIProject petstoreSoap).1 = "A"
  ∧ xds_GetVhostOfAPI (index petstoreDeployed) "A" "Default" = Done ("localhost", true)
  ∧ toV2 !! "v2" = Some ["Default"]
  ∧ ApplyAPIProjectFromAPIM petstoreSoap toV2 ∅ petstoreDeployed
    = (petstoreDeployed, Done ([], Some unsupportedTypeError)).
Proof.
  split; [vm_compute; reflexivity|]. split; [vm_compute; reflexivity|].
  split; [reflexivity|].
  apply (extract_error_untouched petstoreSoap (extractAPIProject petstoreSoap).1
           unsupportedTypeError); [|exact None].
  apply pair_of_snd. vm_compute. reflexivity.
Qed.

(** The other two exclusions of the amended C1.  An old vhost that is the
    empty string is not undeployed: the run asks for updates only, and the
    API still exists on the empty vhost afterwards. *)
Example empty_old_vhost_is_not_undeployed :
  let run := ApplyAPIProjectFromAPIM petstore toV2 ∅ petstoreOnEmptyVhost in
  xds_GetVhostOfAPI (index petstoreOnEmptyVhost) "A" "Default" = Done ("", true)
  ∧ run.2 = Done ([petstoreOnV2], None)
  ∧ (λ c : Call * Index, (callVhost c.1, isUpdate c.1)) <$> trace run.1
    = [("", true); ("v2", true)]
  ∧ xds_IsAPIExist (index run.1) "" "A" "PetStore" "1.0.0" "carbon.super" = Done true.
Proof. repeat split; vm_compute; reflexivity. Qed.

(** An environment requested under two vhosts ends under the one that is
    ranged over last. *)
Example environment_requested_twice :
  let run := ApplyAPIProjectFromAPIM petstore toV2AndV3 ∅ petstoreDeployed in
  toV2AndV3 !! "v3" = Some ["Default"]
  ∧ (λ c : Call * Index, (callVhost c.1, isUpdate c.1)) <$> trace run.1
    = [("localhost", true); ("v3", true); ("v2", true); ("v3", false); ("localhost", false)]
  ∧ xds_GetVhostOfAPI (index run.1) "A" "Default" = Done ("v2", true).
Proof. repeat split; vm_compute; reflexivity. Qed.

(** Scenario 6: a directory with a valid project, an archive that cannot
    be opened and a file of another kind.  The bootstrap returns no error,
    the project is deployed, and one error is logged, for the archive. *)
Example scenario_bootstrap_partial_failure :
  let files :=
    [ ArtifactDir "a"
        [ WithInfo {| walkPath := "apis/a"; walkIsDir := true;
                      walkRead := inl "is a directory" |};
          WithInfo {| walkPath := "apis/a/api.yaml"; walkIsDir := false;
                      walkRead := inr (ManifestDoc (Manifest
                        (sampleManifest "A" "PetStore" "http"
                           (sampleEndpoint "https://h/1")))) |} ];
      ArtifactFile "b.zip" (inr (inl "zip: not a valid zip file"));
      ArtifactFile "readme.txt" (inr (inl "zip: not a valid zip file")) ] in
  let run := ProcessMountedAPIProjects (inr files) emptyWorld in
  run.2 = Done None
  ∧ xds_IsAPIExist (index run.1) "localhost" "A" "PetStore" "1.0.0" "carbon.super"
    = Done true
  ∧ errors run.1
    = ["Error while processing api artifact - b.zip during startup : zip: not a valid zip file"].
Proof. repeat split; vm_compute; reflexivity. Qed.

(** The amended C2 on scenario 2, the second and third call ranging in
    other orders than the first. *)
Lemma second_create_is_refused_witness :
  ApplyAPIProjectInStandaloneMode (ranging := reversedRange) petstore (Some false)
      petstoreDeployed
    = (petstoreDeployed, Done (Some constants.AlreadyExists))
  ∧ ∃ w2, ApplyAPIProjectInStandaloneMode (ranging := reversedRange) petstore (Some true)
            petstoreDeployed = (w2, Done None).
Proof.
  apply (second_create_is_refused specIndex_existence listedRange reversedRange
           reversedRange petstore (extractAPIProject petstore).1 emptyWorld
           petstoreDeployed).
  - apply pair_of_snd. vm_compute. reflexivity.
  - vm_compute. discriminate.
  - apply pair_of_snd. vm_compute. reflexivity.
Defined.

(** C2 as stated fails on a project whose deployment list is present and
    empty: the first call without override returns no error and deploys
    nothing, and so does the second. *)
Lemma create_twice_nowhere :
  Deployments (extractAPIProject petstoreNowhere).1 = Some []
  ∧ ApplyAPIProjectInStandaloneMode petstoreNowhere (Some false) emptyWorld
    = (emptyWorld, Done None)
  ∧ ApplyAPIProjectInStandaloneMode petstoreNowhere (Some false)
      (ApplyAPIProjectInStandaloneMode petstoreNowhere (Some false) emptyWorld).1
    = (emptyWorld, Done None).
Proof. repeat split; vm_compute; reflexivity. Qed.

(** C3 on the sample API with the type SOAP: the three entry points. *)
Lemma unsupported_type_never_reaches_index_witness :
  (APIType (Data (apiYamlOf (extractAPIProject petstoreSoap).1))
     ∉ [constants.HTTP; constants.WS; constants.WEBHOOK])
  ∧ ∃ e,
      ApplyAPIProjectFromAPIM petstoreSoap toV2 ∅ petstoreDeployed
        = (petstoreDeployed, Done ([], Some e))
      ∧ ApplyAPIProjectInStandaloneMode petstoreSoap None petstoreDeployed
        = (petstoreDeployed, Done (Some e))
      ∧ mountArtifact (ArtifactFile "petstore.zip" (inr petstoreSoap)) petstoreDeployed
        = (logError (processingErrorMessage "petstore.zip" e) petstoreDeployed, Done ()).
Proof.
  assert (APIType (Data (apiYamlOf (extractAPIProject petstoreSoap).1))
            ∉ [constants.HTTP; constants.WS; constants.WEBHOOK]) as Htype.
  { apply (bool_decide_unpack _). vm_compute. exact I. }
  split; [exact Htype|].
  destruct (unsupported_type_never_reaches_index _ Htype) as (e & _ & Hzip & _).
  exists e.
  destruct (Hzip [manifestEntry (sampleManifest "A" "PetStore" "soap"
                                   (sampleEndpoint "https://h/1"))]
              toV2 ∅ None "petstore.zip" petstoreDeployed) as (Ha & Hs & Hm).
  { vm_compute. reflexivity. }
  split; [exact Ha|]. split; [exact Hs|]. apply Hm. reflexivity.
Defined.

(** The amended C4 on scenario 5. *)
Lemma relative_or_blank_endpoint_rejected_witness :
  ValidateMandatoryFields relativeManifest = Some productionEndpointsError
  ∧ NewAPIYaml (Manifest (sampleManifest "A" "PetStore" "http"
                            (sampleEndpoint "/internal/x")))
    = (relativeManifest, Some productionEndpointsError).
Proof.
  destruct (relative_or_blank_endpoint_rejected (St := Index) relativeManifest)
    as (e & Hv & Hmsg & Hnew & _).
  { exists {| Endpoint := "/internal/x";
              Config := {| ActionDuration := ""; RetryTimeOut := "" |} |}.
    split; [vm_compute; left | vm_compute; reflexivity]. }
  assert (e = productionEndpointsError) as -> by (apply Hmsg; vm_compute; discriminate).
  split; [exact Hv|]. apply Hnew. reflexivity.
Defined.

(** C4 as stated fails on a manifest that also lacks its name: the endpoint
    is relative, and the error is the one on missing fields, which names no
    kind of endpoint. *)
Lemma nameless_manifest_error :
  ProductionEndpoints (EndpointConfig (Data namelessManifest))
    = [ {| Endpoint := "/internal/x";
           Config := {| ActionDuration := ""; RetryTimeOut := "" |} |} ]
  ∧ relativeOrEmpty {| Endpoint := "/internal/x";
                       Config := {| ActionDuration := ""; RetryTimeOut := "" |} |} = true
  ∧ ValidateMandatoryFields namelessManifest
    = Some "API Name fields cannot be empty for unknownAPIName 1.0.0"
  ∧ (NewAPIYaml (Manifest (sampleManifest "A" "" "http" (sampleEndpoint "/internal/x")))).2
    = Some "API Name fields cannot be empty for unknownAPIName 1.0.0".
Proof. repeat split; vm_compute; reflexivity. Qed.

(** C5 on a manifest whose raw production endpoints are a string. *)
Lemma PopulateEndpointsInfo_resolves_shapes_witness :
  let apiYaml := sampleManifest "A" "PetStore" "http" (JString "https://h/1") in
  ProductionEndpoints (EndpointConfig (Data (PopulateEndpointsInfo apiYaml).1)) = []
  ∧ noProductionEndpointsWarning ∈ (PopulateEndpointsInfo apiYaml).2.
Proof.
  destruct (PopulateEndpointsInfo_resolves_shapes
              (sampleManifest "A" "PetStore" "http" (JString "https://h/1")))
    as [(_ & Hempty & Hwarn) _].
  split; [apply Hempty; reflexivity | exact Hwarn].
Defined.

(** C5 as stated fails on a manifest whose file fills the normalized list
    itself: the raw field is a string, so neither an object nor an array,
    and the list is not left empty but as the decoder filled it; the warning
    is logged, and [NewAPIYaml] returns the manifest without error. *)
Lemma prefilled_endpoints_are_not_left_empty :
  RawProdEndpoints (EndpointConfig (Data prefilledManifest)) = JString "https://h/1"
  ∧ ProductionEndpoints (EndpointConfig (Data (PopulateEndpointsInfo prefilledManifest).1))
    = [ {| Endpoint := "https://h/2";
           Config := {| ActionDuration := ""; RetryTimeOut := "" |} |} ]
  ∧ (PopulateEndpointsInfo prefilledManifest).2 = [noProductionEndpointsWarning]
  ∧ (NewAPIYaml (Manifest prefilledManifest)).2 = None.
Proof. repeat split; vm_compute; reflexivity. Qed.

(** The amended C6 on scenario 3: the call returns no error, so every state
    it goes through has the API under the old vhost or under the new one. *)
Lemma applies_precede_removes_witness :
  ∃ calls,
    trace (ApplyAPIProjectFromAPIM petstore toV2 ∅ petstoreDeployed).1
      = trace petstoreDeployed ++ calls
    ∧ Forall (λ c, xds_GetVhostOfAPI c.2 "A" "Default" = Done ("localhost", true)
                   ∨ xds_GetVhostOfAPI c.2 "A" "Default" = Done ("v2", true)) calls.
Proof.
  destruct (proj2 (applies_precede_removes petstore toV2 ∅ petstoreDeployed)
              specIndex_placement (extractAPIProject petstore).1 "v2" "localhost" "Default"
              ["Default"] (ApplyAPIProjectFromAPIM petstore toV2 ∅ petstoreDeployed).1
              [petstoreOnV2] None)
    as (calls & failed & Ht & Hst & _ & Hnone).
  - apply pair_of_snd. vm_compute. reflexivity.
  - reflexivity.
  - by left.
  - unfold toV2. intros v' envs' [<- _]%lookup_singleton_Some _. reflexivity.
  - vm_compute. reflexivity.
  - discriminate.
  - apply pair_of_snd. vm_compute. reflexivity.
  - exists calls. rewrite (Hnone eq_refl), app_nil_r in Ht. split; [exact Ht|exact Hst].
Defined.

(** C6 as stated fails on an environment that the request names under two
    vhosts.  The API is in the default environment under v2, and the request
    names that environment under v2 and under v3: the call returns no
    error, its updates come before its undeploys, the undeploy of v2 comes
    last, and from then on the API is in the environment under no vhost. *)
Lemma environment_under_two_vhosts_is_left_nowhere :
  xds_GetVhostOfAPI (index petstoreSentToV2) "A" "Default" = Done ("v2", true)
  ∧ toV2AndV3 !! "v2" = Some ["Default"]
  ∧ toV2AndV3 !! "v3" = Some ["Default"]
  ∧ ((ApplyAPIProjectFromAPIM petstore toV2AndV3 ∅ petstoreSentToV2).2
     = Done ([ {| revVhost := "v3"; revEnvironments := ["Default"]; revRevisionID := 1;
                  revOrganizationID := "carbon.super"; revAPIID := "A" |};
               petstoreOnV2 ], None))
  ∧ (λ c : Call * Index, (callVhost c.1, isUpdate c.1, xds_GetVhostOfAPI c.2 "A" "Default"))
      <$> drop (length (trace petstoreSentToV2))
            (trace (ApplyAPIProjectFromAPIM petstore toV2AndV3 ∅ petstoreSentToV2).1)
    = [ ("v3", true, Done ("v3", true)); ("v2", true, Done ("v2", true));
        ("v3", false, Done ("v2", true)); ("v2", false, Done ("", false)) ]
  ∧ xds_GetVhostOfAPI
      (index (ApplyAPIProjectFromAPIM petstore toV2AndV3 ∅ petstoreSentToV2).1)
      "A" "Default"
    = Done ("", false).
Proof. repeat split; vm_compute; reflexivity. Qed.

(** The amended C8 on the index that panics: the first update panics, and
    [validateAndUpdateXds] returns the error made of name, version and id. *)
Lemma guarded_entry_points_return_witness :
  let apiProject := (extractAPIProject petstore).1 in
  let w := {| index := (); trace := []; errors := [] |} in
  validateAndUpdateXds (xds := panickingIndex) apiProject (Some true) w
  = ({| index := ();
        trace := [(CallUpdateAPI "localhost" (withDefaultDeployment apiProject)
                     ["Default"], ())];
        errors := ["Recovered from panic. nil map"] |},
     Done (Some ("PetStore:1.0.0 with UUID " +:+ dquote +:+ "A" +:+ dquote))).
Proof.
  etransitivity.
  - apply (proj1 (proj2 (proj2 (proj2 (proj2
             (guarded_entry_points_return (xds := panickingIndex)
                (extractAPIProject petstore).1 (Some true) petstore toV2 ∅ (inr [])
                {| index := (); trace := []; errors := [] |})))))).
    vm_compute. reflexivity.
  - vm_compute. reflexivity.
Defined.

(** C8 as stated fails on [ListApis]: it has no guard, and the query that is
    the key alone makes it index a slice of one element at 1. *)
Lemma ListApis_panics_on_the_key_alone :
  Go.Split "type" ":" = ["type"]
  ∧ ListApis emptyIndex (Some "type") None "carbon.super"
    = Panic "runtime error: index out of range [1] with length 1".
Proof. split; reflexivity. Qed.

(** The amended C9 on the index with both sample APIs. *)
Lemma ListApis_reads_type_filter_witness :
  ListApis (index bothDeployed) (Some "type:http") None "carbon.super"
    = xds_ListApis (index bothDeployed) "HTTP" "carbon.super" None
  ∧ ListApis (index bothDeployed) (Some "kind:http") None "carbon.super"
    = xds_ListApis (index bothDeployed) "" "carbon.super" None.
Proof.
  destruct (ListApis_reads_type_filter (index bothDeployed) None "carbon.super")
    as (_ & Hfilter & Hother).
  split.
  - apply (Hfilter "http" ""). reflexivity.
  - apply (Hother "kind" "http"); [reflexivity|discriminate].
Defined.

(** C9 as stated fails on two queries.  A query [type:http:x] is answered
    with the list filtered by HTTP, which is neither the list filtered by
    the upper-cased text after the key nor the unfiltered list; and the
    query that is the key alone, which has no colon, is not ignored. *)
Lemma ListApis_on_other_queries :
  ListApis (index bothDeployed) (Some "type:http:x") None "carbon.super"
    = Done [petstoreItem]
  ∧ xds_ListApis (index bothDeployed) (ToUpper "http:x") "carbon.super" None = Done []
  ∧ Permutation
      (match xds_ListApis (index bothDeployed) "" "carbon.super" None with
       | Done items => items
       | Panic _ => []
       end) [petstoreItem; chatItem]
  ∧ ListApis (index bothDeployed) (Some "type") None "carbon.super"
    = Panic "runtime error: index out of range [1] with length 1".
Proof.
  split; [vm_compute; reflexivity|]. split; [vm_compute; reflexivity|].
  split; [|reflexivity].
  vm_compute. first [reflexivity | apply Permutation_swap].
Qed.

(** C10 on scenario 2 with a nil override: the index answers that the API
    exists on the default vhost, and the creation is refused. *)
Lemma nil_override_is_create_witness :
  ApplyAPIProjectInStandaloneMode petstore None petstoreDeployed
  = (petstoreDeployed, Done (Some constants.AlreadyExists)).
Proof.
  destruct (nil_override_is_create petstore (extractAPIProject petstore).1 petstoreDeployed)
    as (_ & _ & Hextracted & Hcheck & _).
  rewrite Hextracted by (apply pair_of_snd; vm_compute; reflexivity).
  apply (Hcheck [] {| DisplayOnDevportal := true; DeploymentEnvironment := "Default";
                      DeploymentVhost := "localhost" |} []).
  - vm_compute. reflexivity.
  - intros d' Hd'. destruct (not_elem_of_nil _ Hd').
  - vm_compute. reflexivity.
Defined.

(** A walk that is called without info panics, and the panic leaves the
    bootstrap: the directory of the second project could not be stat'ed.
    The first project is deployed before. *)
Example bootstrap_walk_without_info :
  let files :=
    [ ArtifactFile "a.zip" (inr petstore);
      ArtifactDir "b" [ WithoutInfo "apis/b" "lstat apis/b: permission denied" ];
      ArtifactFile "c.zip" (inr chat) ] in
  let run := ProcessMountedAPIProjects (inr files) emptyWorld in
  run.2 = Panic nilInfoPanic
  ∧ index run.1 = index petstoreDeployed
  ∧ errors run.1 = [].
Proof. repeat split; vm_compute; reflexivity. Qed.

End SampleRuns.

(** * Further properties of the code *)

(** ** Statistics of a policy list *)

Section PolicyFacts.

Implicit Types (pl : list Policy) (name : string).

Lemma getStatsFrom_snoc pl (policy : Policy) :
  ∀ i stats,
    getStatsFrom i (pl ++ [policy]) stats =
      countPolicy (i + Z.of_nat (length pl)) policy (getStatsFrom i pl stats).
Proof.
  induction pl as [|p pl IH]; intros i stats.
  - simpl. by rewrite Z.add_0_r.
  - change ((p :: pl) ++ [policy]) with (p :: (pl ++ [policy])).
    cbn [getStatsFrom]. rewrite IH, length_cons.
    by replace (i + 1 + Z.of_nat (length pl))%Z with (i + Z.of_nat (S (length pl)))%Z by lia.
Qed.

Lemma beforeNamed_snoc name pl (policy : Policy) :
  beforeNamed name (pl ++ [policy]) =
    match named name pl with
    | [] => (length pl + beforeNamed name [policy])%nat
    | _ :: _ => beforeNamed name pl
    end.
Proof.
  unfold named. induction pl as [|p pl IH]; [done|].
  cbn [app beforeNamed]. rewrite filter_cons.
  destruct (decide (PolicyName p = name)); [done|].
  rewrite IH. by destruct (filter _ pl).
Qed.

Lemma beforeNamed_lookup name pl :
  named name pl ≠ [] →
  (∃ p, pl !! beforeNamed name pl = Some p ∧ PolicyName p = name)
  ∧ ∀ j p, (j < beforeNamed name pl)%nat → pl !! j = Some p → PolicyName p ≠ name.
Proof.
  unfold named. induction pl as [|q pl IH]; [done|].
  rewrite filter_cons. cbn [beforeNamed].
  destruct (decide (PolicyName q = name)) as [Heq|Hne].
  - intros _. split; [by exists q|]. intros j p Hj. lia.
  - intros Hf. destruct (IH Hf) as [Hex Hbefore]. split; [done|].
    intros [|j] p Hj; simpl; [by intros [= <-]|].
    apply Hbefore. lia.
Qed.

(** What [getStats] holds for a name, in terms of the list. *)
Lemma getStats_lookup pl name :
  getStats pl !! name =
    match named name pl with
    | [] => None
    | _ :: _ =>
        Some {| firstIndex := Z.of_nat (beforeNamed name pl);
                count := Z.of_nat (length (named name pl)) |}
    end.
Proof.
  unfold getStats.
  induction pl as [|policy pl IH] using rev_ind; [done|].
  rewrite getStatsFrom_snoc, Z.add_0_l, beforeNamed_snoc.
  unfold named in *. rewrite filter_app. unfold countPolicy.
  destruct (decide (PolicyName policy = name)) as [<-|Hne].
  - rewrite (filter_cons _ policy), decide_True by done. rewrite IH.
    cbn [beforeNamed]. rewrite decide_True by done.
    destruct (filter _ pl) as [|q qs] eqn:Hf.
    + rewrite lookup_insert_eq, Nat.add_0_r. done.
    + rewrite lookup_insert_eq. simpl firstIndex. simpl count.
      rewrite length_app. simpl length. do 2 f_equal. lia.
  - rewrite (filter_cons _ policy), decide_False by done.
    rewrite filter_nil, app_nil_r.
    destruct (getStatsFrom 0 pl ∅ !! PolicyName policy);
      rewrite lookup_insert_ne by done; rewrite IH; by destruct (filter _ pl).
Qed.

(** X1: [getStats] has an entry for a name exactly when a policy of the
    list bears it; the entry counts the policies that bear the name, and its
    first index is the place of the first of them. *)
Theorem getStats_counts_and_first_index pl name :
  match getStats pl !! name with
  | None => Forall (λ p, PolicyName p ≠ name) pl
  | Some stat =>
      count stat = Z.of_nat (length (filter (λ p, PolicyName p = name) pl))
      ∧ (1 ≤ count stat)%Z
      ∧ (0 ≤ firstIndex stat < Z.of_nat (length pl))%Z
      ∧ (∃ p, pl !! Z.to_nat (firstIndex stat) = Some p ∧ PolicyName p = name)
      ∧ ∀ j p, (j < Z.to_nat (firstIndex stat))%nat → pl !! j = Some p →
               PolicyName p ≠ name
  end.
Proof.
  rewrite getStats_lookup. destruct (named name pl) as [|q qs] eqn:Hn.
  - apply Forall_forall. intros p Hin Hp.
    assert (p ∈ named name pl) as Hc by (by apply list_elem_of_filter).
    rewrite Hn in Hc. by apply not_elem_of_nil in Hc.
  - assert (named name pl ≠ []) as Hne by (by rewrite Hn).
    destruct (beforeNamed_lookup name pl Hne) as [(p & Hp & Hname) Hbefore].
    cbn [count firstIndex]. rewrite Nat2Z.id.
    split; [by rewrite <- Hn|]. split; [simpl; lia|]. split.
    + apply lookup_lt_Some in Hp. lia.
    + split; [by exists p|done].
Qed.

(** X2: the counts of [getStats] add up to the length of the list. *)
Theorem getStats_counts_add_up pl :
  map_fold (λ _ stat total, count stat + total)%Z 0%Z (getStats pl) = Z.of_nat (length pl).
Proof.
  unfold getStats.
  induction pl as [|policy pl IH] using rev_ind; [done|].
  rewrite getStatsFrom_snoc, length_app. unfold countPolicy.
  destruct (getStatsFrom 0 pl ∅ !! PolicyName policy) as [stat|] eqn:Hl.
  - rewrite <- (insert_delete_eq (getStatsFrom 0 pl ∅)) at 1.
    rewrite <- (insert_delete_id _ _ _ Hl) in IH.
    rewrite map_fold_insert_L in IH |- *;
      [|intros; lia|by rewrite lookup_delete_eq|intros; lia|by rewrite lookup_delete_eq].
    simpl in *. lia.
  - rewrite map_fold_insert_L; [|intros; lia|done]. simpl. lia.
Qed.

End PolicyFacts.

(** ** The manifest: what is accepted *)

Section ManifestAcceptance.

Context {golib : GoLib} {config : AdapterConfig}.

Implicit Types (apiYaml decoded : APIYaml).

(** What a manifest that passes [ValidateMandatoryFields] has. *)
Lemma ValidateMandatoryFields_passed apiYaml :
  ValidateMandatoryFields apiYaml = None →
  Name (Data apiYaml) ≠ "" ∧ Version (Data apiYaml) ≠ "" ∧ Context (Data apiYaml) ≠ ""
  ∧ ProductionEndpoints (EndpointConfig (Data apiYaml)) ++
      SandBoxEndpoints (EndpointConfig (Data apiYaml)) ≠ []
  ∧ ∀ ep, ep ∈ ProductionEndpoints (EndpointConfig (Data apiYaml)) ++
                 SandBoxEndpoints (EndpointConfig (Data apiYaml)) →
          relativeOrEmpty ep = false.
Proof.
  intros Hnone.
  destruct (decide (Name (Data apiYaml) = "")) as [Hn|Hn].
  { destruct (ValidateMandatoryFields_missing apiYaml) as (f & n & v & Hsome); [by auto|].
    congruence. }
  destruct (decide (Version (Data apiYaml) = "")) as [Hv|Hv].
  { destruct (ValidateMandatoryFields_missing apiYaml) as (f & n & v & Hsome); [by auto|].
    congruence. }
  destruct (decide (Context (Data apiYaml) = "")) as [Hc|Hc].
  { destruct (ValidateMandatoryFields_missing apiYaml) as (f & n & v & Hsome); [by auto|].
    congruence. }
  destruct (decide (ProductionEndpoints (EndpointConfig (Data apiYaml)) ++
                    SandBoxEndpoints (EndpointConfig (Data apiYaml)) = [])) as [He|He].
  { apply app_eq_nil in He as [Hp Hs]. unfold ValidateMandatoryFields in Hnone.
    apply String.eqb_neq in Hn, Hv, Hc. by rewrite Hn, Hv, Hc, Hp, Hs in Hnone. }
  rewrite ValidateMandatoryFields_present in Hnone by done.
  destruct (existsb relativeOrEmpty (ProductionEndpoints _)) eqn:Hp; [done|].
  destruct (existsb relativeOrEmpty (SandBoxEndpoints _)) eqn:Hs; [done|].
  do 4 (split; [done|]).
  intros ep [Hin|Hin]%elem_of_app; apply not_true_is_false; intros Hep.
  - assert (existsb relativeOrEmpty
              (ProductionEndpoints (EndpointConfig (Data apiYaml))) = true) as Hex
      by (apply existsb_elem_of; eauto).
    congruence.
  - assert (existsb relativeOrEmpty
              (SandBoxEndpoints (EndpointConfig (Data apiYaml))) = true) as Hex
      by (apply existsb_elem_of; eauto).
    congruence.
Qed.

(** X3: [ValidateMandatoryFields] returns no error exactly for a manifest
    with a name, a version and a context, with at least one production or
    sandbox endpoint, and none of them relative or blank. *)
Theorem ValidateMandatoryFields_accepts_iff apiYaml :
  ValidateMandatoryFields apiYaml = None ↔
    Name (Data apiYaml) ≠ "" ∧ Version (Data apiYaml) ≠ "" ∧ Context (Data apiYaml) ≠ ""
    ∧ ProductionEndpoints (EndpointConfig (Data apiYaml)) ++
        SandBoxEndpoints (EndpointConfig (Data apiYaml)) ≠ []
    ∧ ∀ ep, ep ∈ ProductionEndpoints (EndpointConfig (Data apiYaml)) ++
                   SandBoxEndpoints (EndpointConfig (Data apiYaml)) →
            relativeOrEmpty ep = false.
Proof.
  split; [apply ValidateMandatoryFields_passed|].
  intros (Hn & Hv & Hc & He & Hall).
  rewrite ValidateMandatoryFields_present by done.
  destruct (existsb relativeOrEmpty (ProductionEndpoints _)) eqn:Hp.
  { apply existsb_elem_of in Hp as (ep & Hin & Hep).
    rewrite Hall in Hep; [done|]. apply elem_of_app. by left. }
  destruct (existsb relativeOrEmpty (SandBoxEndpoints _)) eqn:Hs; [|done].
  apply existsb_elem_of in Hs as (ep & Hin & Hep).
  rewrite Hall in Hep; [done|]. apply elem_of_app. by right.
Qed.

(** X4: [ValidateAPIType] returns no error exactly for the three types HTTP,
    WS and WEBHOOK, written in upper case, and it returns the error on the
    missing manifest for the empty type only; so the manifest that
    [NewAPIYaml] makes of a file passes exactly when the type of the file,
    put in upper case by [strings.ToUpper], is one of the three. *)
Theorem ValidateAPIType_accepts_iff apiYaml :
  (ValidateAPIType apiYaml = None ↔
     APIType (Data apiYaml) ∈ [constants.HTTP; constants.WS; constants.WEBHOOK])
  ∧ (ValidateAPIType apiYaml = Some noManifestError ↔ APIType (Data apiYaml) = "")
  ∧ (ValidateAPIType (NewAPIYaml (Manifest apiYaml)).1 = None ↔
       ToUpper (APIType (Data apiYaml))
         ∈ [constants.HTTP; constants.WS; constants.WEBHOOK]).
Proof.
  assert (∀ y, ValidateAPIType y = None ↔
               APIType (Data y) ∈ [constants.HTTP; constants.WS; constants.WEBHOOK])
    as Hiff.
  { intros y. split.
    + intros Hnone.
      destruct (decide (APIType (Data y)
                          ∈ [constants.HTTP; constants.WS; constants.WEBHOOK]))
        as [|Hout]; [done|].
      by rewrite ValidateAPIType_unsupported in Hnone.
    + unfold ValidateAPIType. rewrite !elem_of_cons, elem_of_nil.
      intros [->|[->|[->|[]]]]; reflexivity. }
  split; [apply Hiff|]. split; [|].
  2: { rewrite Hiff.
       assert (APIType (Data (NewAPIYaml (Manifest apiYaml)).1)
               = ToUpper (APIType (Data apiYaml))) as ->; [|done].
       unfold NewAPIYaml.
       assert (APIType (Data (PopulateEndpointsInfo (FormatAndUpdateInfo apiYaml)).1)
               = ToUpper (APIType (Data apiYaml))) as Hty.
       { destruct apiYaml as [ty ver [id name ctx version rev aty lcs eit ah ss org c ops]].
         destruct c as [et rawProd prod prodF rawSand sand sandF ist].
         unfold PopulateEndpointsInfo, FormatAndUpdateInfo; simpl.
         destruct rawProd, rawSand; simpl; destruct (String.eqb org ""); reflexivity. }
       destruct (ValidateMandatoryFields _); [done|].
       by destruct (String.eqb _ constants.InlineEndpointType). }
  split.
  - unfold ValidateAPIType.
    destruct (String.eqb (APIType (Data apiYaml)) "") eqn:He;
      [by apply String.eqb_eq in He|].
    by destruct (_ && _).
  - unfold ValidateAPIType. by intros ->.
Qed.

(** X5: [FormatAndUpdateInfo] applied twice is [FormatAndUpdateInfo] applied
    once, for a type and a life-cycle status that [strings.ToUpper] maps to
    a fixed point of its own. *)
Theorem FormatAndUpdateInfo_idempotent apiYaml
    (Htype : ToUpper (ToUpper (APIType (Data apiYaml))) = ToUpper (APIType (Data apiYaml)))
    (Hstatus : ToUpper (ToUpper (LifeCycleStatus (Data apiYaml)))
               = ToUpper (LifeCycleStatus (Data apiYaml))) :
  FormatAndUpdateInfo (FormatAndUpdateInfo apiYaml) = FormatAndUpdateInfo apiYaml.
Proof.
  destruct apiYaml as [ty ver [id name ctx version rev aty lcs eit ah ss org c ops]].
  unfold FormatAndUpdateInfo; simpl in *.
  destruct (String.eqb org "") eqn:Horg; simpl.
  - destruct (String.eqb GetControlPlaneConnectedTenantDomain "") eqn:Hdom; simpl;
      rewrite Htype, Hstatus; [|done].
    apply String.eqb_eq in Hdom. by rewrite Hdom.
  - rewrite Horg. simpl. by rewrite Htype, Hstatus.
Qed.

(** X6: [PopulateEndpointsInfo] keeps the raw fields it reads, so a second
    pass changes nothing and logs the same warnings; and it commutes with
    [FormatAndUpdateInfo], the two writing other fields than the other
    reads. *)
Theorem PopulateEndpointsInfo_idempotent_and_commutes apiYaml :
  PopulateEndpointsInfo (PopulateEndpointsInfo apiYaml).1 = PopulateEndpointsInfo apiYaml
  ∧ PopulateEndpointsInfo (FormatAndUpdateInfo apiYaml)
    = (FormatAndUpdateInfo (PopulateEndpointsInfo apiYaml).1,
       (PopulateEndpointsInfo apiYaml).2).
Proof.
  destruct apiYaml as [ty ver [id name ctx version rev aty lcs eit ah ss org c ops]].
  destruct c as [et rawProd prod prodF rawSand sand sandF ist].
  unfold PopulateEndpointsInfo, FormatAndUpdateInfo; simpl.
  split.
  - destruct rawProd, rawSand; reflexivity.
  - destruct rawProd, rawSand; simpl; destruct (String.eqb org ""); reflexivity.
Qed.

(** X7: a manifest that [NewAPIYaml] returns without error was decoded from
    its bytes; it has a name, a version and a context, at least one endpoint
    and no relative or blank one, and an implementation type other than
    INLINE; its type and life-cycle status are those of the file in upper
    case, its id is that of the file, and its organization is that of the
    file or, when the file has none, the tenant domain of the
    configuration. *)
Theorem NewAPIYaml_accepted_manifest (fileContent : manifestBytes) apiYaml
    (Hok : NewAPIYaml fileContent = (apiYaml, None)) :
  ∃ decoded,
    fileContent = Manifest decoded
    ∧ ValidateMandatoryFields apiYaml = None
    ∧ Name (Data apiYaml) ≠ "" ∧ Version (Data apiYaml) ≠ "" ∧ Context (Data apiYaml) ≠ ""
    ∧ ProductionEndpoints (EndpointConfig (Data apiYaml)) ++
        SandBoxEndpoints (EndpointConfig (Data apiYaml)) ≠ []
    ∧ (∀ ep, ep ∈ ProductionEndpoints (EndpointConfig (Data apiYaml)) ++
                    SandBoxEndpoints (EndpointConfig (Data apiYaml)) →
             relativeOrEmpty ep = false)
    ∧ EndpointImplementationType (Data apiYaml) ≠ constants.InlineEndpointType
    ∧ APIType (Data apiYaml) = ToUpper (APIType (Data decoded))
    ∧ LifeCycleStatus (Data apiYaml) = ToUpper (LifeCycleStatus (Data decoded))
    ∧ ID (Data apiYaml) = ID (Data decoded)
    ∧ OrganizationID (Data apiYaml) =
        (if String.eqb (OrganizationID (Data decoded)) ""
         then GetControlPlaneConnectedTenantDomain else OrganizationID (Data decoded)).
Proof.
  destruct fileContent as [e|partial e|decoded]; [done|done|].
  exists decoded. split; [done|].
  unfold NewAPIYaml in Hok.
  destruct (ValidateMandatoryFields _) as [e|] eqn:Hv; [done|].
  destruct (String.eqb _ constants.InlineEndpointType) eqn:Hinline; [done|].
  injection Hok as <-. split; [done|].
  pose proof (ValidateMandatoryFields_passed _ Hv) as (Hn & Hver & Hc & He & Hall).
  do 5 (split; [done|]).
  split; [by apply String.eqb_neq|].
  clear. destruct decoded as [ty ver [id name ctx version rev aty lcs eit ah ss org c ops]].
  destruct c as [et rawProd prod prodF rawSand sand sandF ist].
  unfold PopulateEndpointsInfo, FormatAndUpdateInfo; simpl.
  destruct rawProd, rawSand; simpl; destruct (String.eqb org ""); repeat split; reflexivity.
Qed.

End ManifestAcceptance.

(** ** The parser of projects *)

Section ParserFacts.

Context {golib : GoLib} {config : AdapterConfig} {reader : ProjectReader}.

Implicit Types (apiProject : ProjectAPI) (files rest : list zipFile).

Lemma processZipFiles_app apiProject files rest :
  processZipFiles apiProject (files ++ rest) =
    match processZipFiles apiProject files with
    | (apiProject', None) => processZipFiles apiProject' rest
    | (apiProject', Some e) => (apiProject', Some e)
    end.
Proof.
  revert apiProject. induction files as [|f files IH]; intros p; simpl; [done|].
  destruct (readZipFile f) as [e|c]; [done|].
  destruct (processFileInsideProject p c (zipName f)) as [p' [e|]]; [done|]. apply IH.
Qed.

Lemma processZipFiles_readable files :
  ∀ apiProject apiProject',
    processZipFiles apiProject files = (apiProject', None) →
    Forall (λ file, ∃ content, readZipFile file = inr content) files.
Proof.
  induction files as [|f files IH]; intros p p'; simpl; [by constructor|].
  destruct (readZipFile f) as [e|c] eqn:Hr; [done|].
  destruct (processFileInsideProject p c (zipName f)) as [p1 [e|]]; [done|].
  intros Hrest. constructor; [by eauto|by eapply IH].
Qed.

(** X8: a project that [extractAPIProject] returns without error was read
    from a payload that is an archive, every entry of which could be read
    and was processed without error, and its type is one of HTTP, WS and
    WEBHOOK. *)
Theorem extractAPIProject_accepted_project (payload : Payload) apiProject
    (Hok : extractAPIProject payload = (apiProject, None)) :
  ∃ files,
    payload = inr files
    ∧ processZipFiles archiveProject files = (apiProject, None)
    ∧ Forall (λ file, ∃ content, readZipFile file = inr content) files
    ∧ ValidateAPIType (apiYamlOf apiProject) = None
    ∧ APIType (Data (apiYamlOf apiProject))
        ∈ [constants.HTTP; constants.WS; constants.WEBHOOK].
Proof.
  destruct payload as [e|files]; [done|]. exists files. split; [done|].
  unfold extractAPIProject in Hok.
  destruct (processZipFiles archiveProject files) as [p [e|]] eqn:Hp; [done|].
  destruct (ValidateAPIType (apiYamlOf p)) as [e|] eqn:Hv; [done|].
  injection Hok as <-. split; [done|].
  split; [by eapply processZipFiles_readable|]. split; [done|].
  destruct (decide (APIType (Data (apiYamlOf p))
                      ∈ [constants.HTTP; constants.WS; constants.WEBHOOK])) as [|Hout];
    [done|].
  by rewrite ValidateAPIType_unsupported in Hv.
Qed.

(** X9: [extractAPIProject] stops at the first entry that cannot be read or
    processed: the entries after it play no part, and the type of the
    project is not looked at. *)
Theorem extractAPIProject_stops_at_first_failure files rest apiProject (e : error)
    (Hfail : processZipFiles archiveProject files = (apiProject, Some e)) :
  extractAPIProject (inr (files ++ rest)) = (apiProject, Some e)
  ∧ extractAPIProject (inr (files ++ rest)) = extractAPIProject (inr files).
Proof.
  unfold extractAPIProject. by rewrite processZipFiles_app, Hfail.
Qed.

(** X10: the walk of a mounted directory, over calls that came with the
    info of their path, processes its files as an archive with the same
    files, directories left out, is processed; a call without info that the
    walk comes to makes it panic instead of returning. *)
Theorem walkProject_as_archive apiProject (files : list walkedFile) :
  walkProject apiProject (WithInfo <$> files) =
    Done (processZipFiles apiProject
            (asZipFile <$> filter (λ f, walkIsDir f = false) files))
  ∧ ∀ path e (later : list walkEntry),
      walkProject apiProject ((WithInfo <$> files) ++ WithoutInfo path e :: later) =
        match processZipFiles apiProject
                (asZipFile <$> filter (λ f, walkIsDir f = false) files) with
        | (_, None) => Panic nilInfoPanic
        | (apiProject', Some e') => Done (apiProject', Some e')
        end.
Proof.
  revert apiProject. induction files as [|f files IH]; intros p; simpl; [done|].
  rewrite filter_cons. destruct (walkIsDir f) eqn:Hd.
  - rewrite decide_False by done. apply IH.
  - rewrite decide_True by done. simpl.
    destruct (walkRead f) as [e|c]; [done|].
    destruct (processFileInsideProject p c (walkPath f)) as [p' [e|]]; [done|]. apply IH.
Qed.

End ParserFacts.

(** ** Creating and updating in standalone mode *)

Section StandaloneFacts.

Context {golib : GoLib} {config : AdapterConfig} {reader : ProjectReader}
  {ranging : MapRange}.
Context {St APIMeta : Type} {xds : XdsServer St APIMeta}.

Implicit Types (w : World St) (apiYaml : APIYamlData) (apiProject : ProjectAPI).

Lemma range_singleton (k : string) (v : list string) : range {[k := v]} = [(k, v)].
Proof. apply Permutation_singleton_r. by rewrite range_perm, map_to_list_singleton. Qed.

Lemma range_empty : range ∅ = [].
Proof. apply Permutation_nil_r. by rewrite range_perm, map_to_list_empty. Qed.

Lemma groupByVhost_snoc (deployments : list Deployment) (d : Deployment) :
  groupByVhost (deployments ++ [d]) =
    appendAt (DeploymentVhost d) (DeploymentEnvironment d) (groupByVhost deployments).
Proof. unfold groupByVhost. by rewrite fold_left_app. Qed.

(** The environments that [groupByVhost] files under a vhost. *)
Lemma groupByVhost_lookup (deployments : list Deployment) (vhost : string) :
  groupByVhost deployments !! vhost =
    match filter (λ d, DeploymentVhost d = vhost) deployments with
    | [] => None
    | d :: ds => Some (DeploymentEnvironment <$> d :: ds)
    end.
Proof.
  induction deployments as [|d deployments IH] using rev_ind; [done|].
  rewrite groupByVhost_snoc, filter_app. unfold appendAt.
  destruct (decide (DeploymentVhost d = vhost)) as [<-|Hne].
  - rewrite lookup_insert_eq, lookup_total_alt, IH, (filter_cons _ d), decide_True by done.
    rewrite filter_nil.
    destruct (filter _ deployments); simpl; [done|]. by rewrite fmap_app.
  - rewrite lookup_insert_ne by done.
    rewrite IH, (filter_cons _ d), decide_False by done.
    by rewrite filter_nil, app_nil_r.
Qed.

Lemma groupByVhost_Some (deployments : list Deployment) (vhost : string)
    (envs : list string) :
  groupByVhost deployments !! vhost = Some envs →
  (∃ d, d ∈ deployments ∧ DeploymentVhost d = vhost)
  ∧ envs = DeploymentEnvironment <$> filter (λ d, DeploymentVhost d = vhost) deployments.
Proof.
  rewrite groupByVhost_lookup.
  destruct (filter _ deployments) as [|d ds] eqn:Hf; [done|].
  intros [= <-]. split; [|done]. exists d.
  assert (d ∈ filter (λ d, DeploymentVhost d = vhost) deployments) as Hc
    by (rewrite Hf; by left).
  by apply list_elem_of_filter in Hc as [? ?].
Qed.

(** X11: [groupByVhost] has an entry for a vhost exactly when a deployment
    names it, and the entry lists the environments of the deployments on
    that vhost, in their order and as often as they occur. *)
Theorem groupByVhost_files_environments (deployments : list Deployment) (vhost : string) :
  (is_Some (groupByVhost deployments !! vhost) ↔
     ∃ d, d ∈ deployments ∧ DeploymentVhost d = vhost)
  ∧ groupByVhost deployments !!! vhost =
      DeploymentEnvironment <$> filter (λ d, DeploymentVhost d = vhost) deployments.
Proof.
  rewrite lookup_total_alt, groupByVhost_lookup. split.
  - destruct (filter _ deployments) as [|d ds] eqn:Hf.
    + split; [by intros [? ?]|]. intros (d & Hin & Hd).
      assert (d ∈ filter (λ d, DeploymentVhost d = vhost) deployments) as Hc
        by (by apply list_elem_of_filter).
      rewrite Hf in Hc. by apply not_elem_of_nil in Hc.
    + split; [|by eauto]. intros _. exists d.
      assert (d ∈ filter (λ d, DeploymentVhost d = vhost) deployments) as Hc
        by (rewrite Hf; by left).
      apply list_elem_of_filter in Hc as [? ?]. done.
  - by destruct (filter _ deployments).
Qed.

(** The calls of the update loop: one update for each pair of a prefix of
    the list. *)
Lemma updateEach_calls apiProject l :
  ∀ w w' r,
    updateEach apiProject l w = (w', r) →
    ∃ updated,
      updated `prefix_of` l
      ∧ (trace w').*1 = (trace w).*1 ++ (updateCall apiProject <$> updated)
      ∧ errors w' = errors w
      ∧ (r = Done None → updated = l).
Proof.
  induction l as [|[vhost envs] l IH]; intros w w' r; simpl.
  { intros [= <- <-]. exists []. by rewrite app_nil_r. }
  destruct (UpdateAPI _ _ _ _) as [w1 r1] eqn:Hu.
  apply UpdateAPI_spec in Hu as (_ & Ht & He).
  assert (∀ r' : result (option error), r' ≠ Done None →
            ∃ updated,
              updated `prefix_of` (vhost, envs) :: l
              ∧ (trace w1).*1 = (trace w).*1 ++ (updateCall apiProject <$> updated)
              ∧ errors w1 = errors w
              ∧ (r' = Done None → updated = (vhost, envs) :: l)) as Hone.
  { intros r' Hr'. exists [(vhost, envs)].
    split; [apply prefix_cons, prefix_nil|]. by rewrite Ht, fmap_app. }
  destruct r1 as [[rev [e|]]|r1].
  - intros [= <- <-]. by apply Hone.
  - intros Hrest. apply IH in Hrest as (u & Hp & Ht' & He' & Hall).
    exists ((vhost, envs) :: u). split; [by apply prefix_cons|].
    rewrite Ht', Ht, fmap_app, <- app_assoc, He', He.
    split; [done|]. split; [done|]. intros Hr. by rewrite Hall.
  - intros [= <- <-]. by apply Hone.
Qed.

(** The calls of [validateAndUpdateXds]: updates only, of the project with
    its deployments, for a prefix of the vhosts as they are ranged over. *)
Lemma validateAndUpdateXds_calls apiProject override w w' err :
  validateAndUpdateXds apiProject override w = (w', Done err) →
  ∃ updated,
    updated `prefix_of`
      range (groupByVhost (deploymentsOf (withDefaultDeployment apiProject)))
    ∧ (trace w').*1 =
        (trace w).*1 ++ (updateCall (withDefaultDeployment apiProject) <$> updated)
    ∧ (err = None →
       updated = range (groupByVhost (deploymentsOf (withDefaultDeployment apiProject)))).
Proof.
  unfold validateAndUpdateXds, validateAndUpdateXds_body.
  set (p := withDefaultDeployment apiProject).
  destruct (if negb _ then _ else _) as [[|]|r].
  - intros [= <- <-]. exists []. split; [apply prefix_nil|]. by rewrite app_nil_r.
  - destruct (updateEach p _ w) as [w1 r1] eqn:Hu.
    apply updateEach_calls in Hu as (u & Hp & Ht & He & Hall).
    destruct r1 as [err1|r1].
    + intros [= <- <-]. exists u. split; [done|]. split; [done|].
      intros ->. by apply Hall.
    + intros [= <- <-]. exists u. simpl. done.
  - intros [= <- <-]. exists []. split; [apply prefix_nil|]. by rewrite app_nil_r.
Qed.

(** X12: [validateAndUpdateXds] asks the index for updates only: one for
    each vhost it comes to, no vhost twice, with the project completed by
    its default deployment and with the environments of all the deployments
    on that vhost; when it returns no error every vhost of a deployment
    had its update. *)
Theorem validateAndUpdateXds_updates_each_vhost_once apiProject (override : option bool) w :
  let p := withDefaultDeployment apiProject in
  let run := validateAndUpdateXds apiProject override w in
  ∃ updated,
    (trace run.1).*1 = (trace w).*1 ++ (updateCall p <$> updated)
    ∧ NoDup updated.*1
    ∧ Forall (λ x, (∃ d, d ∈ deploymentsOf p ∧ DeploymentVhost d = x.1)
                   ∧ x.2 = DeploymentEnvironment <$>
                             filter (λ d, DeploymentVhost d = x.1) (deploymentsOf p))
        updated
    ∧ (run.2 = Done None →
       ∀ d, d ∈ deploymentsOf p → DeploymentVhost d ∈ updated.*1).
Proof.
  intros p run. subst run.
  destruct (validateAndUpdateXds_returns apiProject override w) as (w' & err & Hrun).
  rewrite Hrun. simpl.
  apply validateAndUpdateXds_calls in Hrun as (u & [rest Hp] & Ht & Hall).
  fold p in Hp, Ht, Hall.
  exists u. split; [done|].
  assert (∀ x, x ∈ u → groupByVhost (deploymentsOf p) !! x.1 = Some x.2) as Hlook.
  { intros [v es] Hin. apply elem_of_range. rewrite Hp. apply elem_of_app. by left. }
  split.
  { pose proof (NoDup_range (groupByVhost (deploymentsOf p))) as Hnd.
    rewrite Hp, fmap_app in Hnd. by apply NoDup_app in Hnd as [? _]. }
  split.
  { apply Forall_forall. intros x Hin. by apply groupByVhost_Some, Hlook. }
  intros [= ->] d Hin. rewrite Hall by done.
  destruct (groupByVhost_covers (deploymentsOf p) d Hin) as [es Hes].
  apply list_elem_of_fmap. exists (DeploymentVhost d, es). split; [done|].
  by apply elem_of_range.
Qed.

End StandaloneFacts.

Section CreationFacts.

Context {golib : GoLib} {config : AdapterConfig} {reader : ProjectReader}
  {ranging : MapRange}.
Context {St APIMeta : Type} {xds : XdsServer St APIMeta}.

Implicit Types (w : World St) (apiYaml : APIYamlData) (apiProject : ProjectAPI).

(** X13: a project without a list of deployments is deployed once, on the
    default vhost of the default gateway and in the environment of that
    name, whatever else [GetDefaultVhost] answers; the update carries the
    project with this one deployment, and its error is returned as it is. *)
Theorem missing_deployments_go_to_default_vhost apiProject w
    (Hnil : Deployments apiProject = None) :
  let vhost := (GetDefaultVhost DefaultGatewayName).1.1 in
  let p := set_Deployments
             (Some [ {| DisplayOnDevportal := true;
                        DeploymentEnvironment := DefaultGatewayName;
                        DeploymentVhost := vhost |} ]) apiProject in
  let run := validateAndUpdateXds apiProject (Some true) w in
  (trace run.1).*1 = (trace w).*1 ++ [CallUpdateAPI vhost p [DefaultGatewayName]]
  ∧ match xds_UpdateAPI (index w) vhost p [DefaultGatewayName] with
    | (s', Done (_, err)) =>
        index run.1 = s' ∧ run.2 = Done err ∧ errors run.1 = errors w
    | (s', Panic r) =>
        index run.1 = s'
        ∧ run.2 = Done (Some (canonicalError (Data (apiYamlOf apiProject))))
        ∧ errors run.1 = errors w ++ [recoveredMessage r]
    end.
Proof.
  intros vhost p run. subst run.
  unfold validateAndUpdateXds, validateAndUpdateXds_body. simpl.
  assert (withDefaultDeployment apiProject = p) as ->.
  { unfold withDefaultDeployment, p, vhost. rewrite Hnil.
    by destruct (GetDefaultVhost DefaultGatewayName) as [[??]?]. }
  assert (groupByVhost (deploymentsOf p) = {[ vhost := [DefaultGatewayName] ]}) as ->.
  { unfold groupByVhost, appendAt. simpl.
    by rewrite lookup_total_empty, insert_empty. }
  rewrite range_singleton. simpl. unfold UpdateAPI.
  destruct (xds_UpdateAPI (index w) vhost p [DefaultGatewayName])
    as [s' [[rev [e|]]|r]]; simpl; by rewrite fmap_app.
Qed.

Lemma existsOnSomeVhost_spec (s : St) apiYaml (deployments : list Deployment) :
  (∀ d, d ∈ deployments →
     ∃ b, xds_IsAPIExist s (DeploymentVhost d) (ID apiYaml) (Name apiYaml)
            (Version apiYaml) (OrganizationID apiYaml) = Done b) →
  ∃ b, existsOnSomeVhost s apiYaml deployments = Done b
       ∧ (b = true ↔
          ∃ d, d ∈ deployments
               ∧ xds_IsAPIExist s (DeploymentVhost d) (ID apiYaml) (Name apiYaml)
                   (Version apiYaml) (OrganizationID apiYaml) = Done true).
Proof.
  induction deployments as [|d ds IH]; intros Hquiet; simpl.
  { exists false. split; [done|]. split; [done|]. by intros (d & ?%not_elem_of_nil & _). }
  destruct (Hquiet d) as [b Hb]; [by left|]. rewrite Hb. destruct b.
  - exists true. split; [done|]. split; [|done]. intros _. exists d. split; [by left|done].
  - destruct IH as (b & Hex & Hiff); [intros d' Hd'; apply Hquiet; by right|].
    exists b. split; [done|]. rewrite Hiff. split.
    + intros (d' & Hin & Hd'). exists d'. split; [by right|done].
    + intros (d' & [->|Hin]%elem_of_cons & Hd'); [congruence|by eauto].
Qed.

(** X14: without override, when no existence check of the index panics: if
    the API exists on the vhost of one of the deployments, the call returns
    [AlreadyExists] and leaves the world as it was; if it exists on none,
    the call is the call with override. *)
Theorem create_is_refused_or_is_update apiProject w
    (Hquiet : ∀ d, d ∈ deploymentsOf (withDefaultDeployment apiProject) →
       ∃ b, xds_IsAPIExist (index w) (DeploymentVhost d) (uuidOf apiProject)
              (Name (Data (apiYamlOf apiProject))) (Version (Data (apiYamlOf apiProject)))
              (OrganizationID (Data (apiYamlOf apiProject))) = Done b) :
  ((∃ d, d ∈ deploymentsOf (withDefaultDeployment apiProject)
         ∧ xds_IsAPIExist (index w) (DeploymentVhost d) (uuidOf apiProject)
             (Name (Data (apiYamlOf apiProject))) (Version (Data (apiYamlOf apiProject)))
             (OrganizationID (Data (apiYamlOf apiProject))) = Done true) →
   validateAndUpdateXds apiProject (Some false) w = (w, Done (Some constants.AlreadyExists)))
  ∧ ((∀ d, d ∈ deploymentsOf (withDefaultDeployment apiProject) →
         xds_IsAPIExist (index w) (DeploymentVhost d) (uuidOf apiProject)
           (Name (Data (apiYamlOf apiProject))) (Version (Data (apiYamlOf apiProject)))
           (OrganizationID (Data (apiYamlOf apiProject))) = Done false) →
     validateAndUpdateXds apiProject (Some false) w
       = validateAndUpdateXds apiProject (Some true) w).
Proof.
  destruct (existsOnSomeVhost_spec (index w) (Data (apiYamlOf apiProject)) _ Hquiet)
    as (b & Hex & Hiff).
  unfold validateAndUpdateXds, validateAndUpdateXds_body. simpl. rewrite Hex.
  split.
  - intros Hsome. apply Hiff in Hsome as ->. done.
  - intros Hnone. destruct b; [|done].
    destruct (proj1 Hiff eq_refl) as (d & Hin & Hd).
    specialize (Hnone d Hin). unfold uuidOf in Hnone. congruence.
Qed.

Lemma updateEach_refused apiProject l :
  ∀ w w' (e : error),
    updateEach apiProject l w = (w', Done (Some e)) →
    ∃ updated s x s' rev,
      (trace w').*1 = (trace w).*1 ++ (updateCall apiProject <$> updated ++ [x])
      ∧ xds_UpdateAPI s x.1 apiProject x.2 = (s', Done (rev, Some e)).
Proof.
  induction l as [|[vhost envs] l IH]; intros w w' e; simpl; [done|].
  destruct (UpdateAPI _ _ _ _) as [w1 r1] eqn:Hu.
  apply UpdateAPI_spec in Hu as (Hx & Ht & _).
  destruct r1 as [[rev [e'|]]|r1]; [| |done].
  - intros [= <- <-]. exists [], (index w), (vhost, envs), (index w1), rev.
    split; [by rewrite Ht, fmap_app|done].
  - intros Hrest. apply IH in Hrest as (u & s & x & s' & rev' & Ht' & Hx').
    exists ((vhost, envs) :: u), s, x, s', rev'. split; [|done].
    by rewrite Ht', Ht, fmap_app, <- app_assoc.
Qed.

(** X15: the error of [validateAndUpdateXds] has one of three origins.  The
    API exists already, the call being without override: the error is
    [AlreadyExists] and the world is as it was.  A call of the index
    panicked: the error is made of name, version and id, and the panic is
    logged.  The index refused an update: the error is the one of the index
    as it is, and that update is the last call. *)
Theorem validateAndUpdateXds_error_origin apiProject (override : option bool) w w'
    (e : error)
    (Hrun : validateAndUpdateXds apiProject override w = (w', Done (Some e))) :
  (e = constants.AlreadyExists ∧ w' = w ∧ override ≠ Some true)
  ∨ (e = canonicalError (Data (apiYamlOf apiProject))
     ∧ ∃ r, errors w' = errors w ++ [recoveredMessage r])
  ∨ (errors w' = errors w
     ∧ ∃ updated s x s' rev,
         (trace w').*1 =
           (trace w).*1
             ++ (updateCall (withDefaultDeployment apiProject) <$> updated ++ [x])
         ∧ xds_UpdateAPI s x.1 (withDefaultDeployment apiProject) x.2
           = (s', Done (rev, Some e))).
Proof.
  unfold validateAndUpdateXds, validateAndUpdateXds_body in Hrun.
  destruct (if negb _ then _ else _) as [[|]|r] eqn:Hex.
  - injection Hrun as <- <-. left. split; [done|]. split; [done|].
    intros ->. done.
  - destruct (updateEach _ _ w) as [w1 r1] eqn:Hu.
    pose proof (updateEach_calls _ _ _ _ _ Hu) as (_ & _ & _ & He & _).
    destruct r1 as [err1|r1].
    + injection Hrun as <- ->. right; right. split; [done|].
      by apply updateEach_refused in Hu.
    + injection Hrun as <- <-. right; left. split; [done|].
      exists r1. simpl. by rewrite He.
  - injection Hrun as <- <-. right; left. split; [done|]. by exists r.
Qed.

End CreationFacts.

(** ** Applying a project sent by the control plane *)

Section ApplyFacts.

Context {golib : GoLib} {config : AdapterConfig} {reader : ProjectReader}
  {ranging : MapRange}.
Context {St APIMeta : Type} {xds : XdsServer St APIMeta}.

Implicit Types (w : World St) (apiYaml : APIYamlData) (apiProject : ProjectAPI).

Lemma last_cons_Some {A} (a x : A) (l : list A) : last l = Some x → last (a :: l) = Some x.
Proof. intros [l' ->]%last_Some. by rewrite app_comm_cons, last_snoc. Qed.

(** The first loop: the updates it asks for, the revisions it collects and
    how it ends. *)
Lemma updateVhosts_run apiYaml apiProject l :
  ∀ rm revs w w' exit,
    updateVhosts apiYaml apiProject l rm revs w = (w', exit) →
    ∃ updated acks,
      updated.*1 `prefix_of` l.*1
      ∧ (trace w').*1 = (trace w).*1 ++ (updateCall apiProject <$> updated)
      ∧ errors w' = errors w
      ∧ Forall (λ x, ∃ s envs, (x.1, envs) ∈ l
                     ∧ xds_GetAllEnvironments s (ID apiYaml) x.1 envs = Done x.2) updated
      ∧ exitRevisions exit = revs ++ acks
      ∧ length acks ≤ length updated
      ∧ Forall (λ rev, ∃ s x s', x ∈ updated
                  ∧ xds_UpdateAPI s x.1 apiProject x.2 = (s', Done (Some rev, None))) acks
      ∧ match exit with
        | Completed _ => updated.*1 = l.*1
        | Returned _ err =>
            err = Some (canonicalError apiYaml)
            ∧ ∃ s x s' rev e, last updated = Some x
                ∧ xds_UpdateAPI s x.1 apiProject x.2 = (s', Done (rev, Some e))
        | Panicked _ _ => True
        end.
Proof.
  induction l as [|[vhost envs] l IH]; intros rm revs w w' exit; simpl.
  { intros [= <- <-]. exists [], []. simpl. rewrite !app_nil_r.
    repeat split; try done; constructor. }
  destruct (searchVhosts _ _ _ _ _) as [rm'|r].
  2: { intros [= <- <-]. exists [], []. simpl. rewrite !app_nil_r.
       repeat split; try done; try constructor. apply prefix_nil. }
  destruct (xds_GetAllEnvironments _ _ _ _) as [allEnvs|r] eqn:Hall.
  2: { intros [= <- <-]. exists [], []. simpl. rewrite !app_nil_r.
       repeat split; try done; try constructor. apply prefix_nil. }
  destruct (UpdateAPI _ _ _ _) as [w1 r1] eqn:Hu.
  apply UpdateAPI_spec in Hu as (Hx & Ht & He).
  assert (Forall (λ x : string * list string, ∃ s envs0, (x.1, envs0) ∈ (vhost, envs) :: l
                   ∧ xds_GetAllEnvironments s (ID apiYaml) x.1 envs0 = Done x.2)
            [(vhost, allEnvs)]) as Hfirst.
  { constructor; [|constructor]. exists (index w), envs. split; [by left|done]. }
  destruct r1 as [[rev [e|]]|r].
  - intros [= <- <-]. exists [(vhost, allEnvs)], []. simpl. rewrite !app_nil_r.
    split; [apply prefix_cons, prefix_nil|]. split; [by rewrite Ht, fmap_app|].
    split; [done|]. split; [done|]. split; [done|]. split; [lia|].
    split; [constructor|]. split; [done|].
    by exists (index w), (vhost, allEnvs), (index w1), rev, e.
  - intros Hrest. apply IH in Hrest as (u & acks & Hp & Ht' & He' & Henvs & Hrevs & Hlen
                                          & Hacks & Hexit).
    exists ((vhost, allEnvs) :: u), (option_list rev ++ acks).
    split; [by apply prefix_cons|].
    split; [by rewrite Ht', Ht, fmap_app, <- app_assoc|].
    split; [by rewrite He', He|].
    split.
    { constructor; [by inversion Hfirst|].
      eapply Forall_impl; [exact Henvs|]. intros x (s & es & Hin & Hg).
      exists s, es. split; [by right|done]. }
    split; [rewrite Hrevs; destruct rev; simpl; by rewrite <- ?app_assoc|].
    split; [rewrite length_app; destruct rev; simpl; lia|].
    split.
    { apply Forall_app. split.
      - destruct rev as [d|]; [|constructor]. constructor; [|constructor].
        exists (index w), (vhost, allEnvs), (index w1). split; [by left|done].
      - eapply Forall_impl; [exact Hacks|]. intros d (s & x & s' & Hin & Hd).
        exists s, x, s'. split; [by right|done]. }
    destruct exit as [locals|revs' err|revs' r'].
    + simpl. by f_equal.
    + destruct Hexit as (-> & s & x & s' & rev' & e' & Hlast & Hd).
      split; [done|]. exists s, x, s', rev', e'. split; [by apply last_cons_Some|done].
    + done.
  - intros [= <- <-]. exists [(vhost, allEnvs)], []. simpl. rewrite !app_nil_r.
    split; [apply prefix_cons, prefix_nil|]. split; [by rewrite Ht, fmap_app|].
    split; [done|]. split; [done|]. split; [done|]. split; [lia|].
    split; [constructor|]. done.
Qed.

Lemma updateVhosts_remove_set apiYaml apiProject (all : list (string * list string)) l :
  (∀ x, x ∈ l → x ∈ all) →
  ∀ rm revs w w' rm' revs',
    updateVhosts apiYaml apiProject l rm revs w = (w', Completed (rm', revs')) →
    (∀ k e, e ∈ rm !!! k → relocated apiYaml all k e) →
    ∀ k e, e ∈ rm' !!! k → relocated apiYaml all k e.
Proof.
  induction l as [|[vhost envs] l IH]; intros Hsub rm revs w w' rm' revs'; simpl.
  { by intros [= <- <- <-]. }
  destruct (searchVhosts _ _ _ _ _) as [rm1|r] eqn:Hs; [|done].
  destruct (xds_GetAllEnvironments _ _ _ _) as [allEnvs|r]; [|done].
  destruct (UpdateAPI _ _ _ _) as [w1 [[rev [e|]]|r]]; [done| |done].
  intros Hrest Hrm. eapply IH; [|exact Hrest|].
  { intros x Hin. apply Hsub. by right. }
  intros k e Hin. apply (searchVhosts_spec _ _ _ _ _ _ Hs) in Hin as [Hin|(He & Hg & Hne)].
  - by apply Hrm.
  - exists vhost, envs, (index w). split; [apply Hsub; by left|]. done.
Qed.

(** The second loop: the undeploys it asks for and how it ends. *)
Lemma undeployVhosts_run apiYaml l :
  ∀ revs w w' exit,
    undeployVhosts apiYaml l revs w = (w', exit) →
    ∃ removed,
      removed `sublist_of` l
      ∧ Forall (λ x, x.1 ≠ "") removed
      ∧ (trace w').*1 = (trace w).*1 ++ (deleteCall apiYaml <$> removed)
      ∧ errors w' = errors w
      ∧ match exit with
        | Completed _ => True
        | Returned revs' err =>
            revs' = revs
            ∧ ∃ e s x s', err = Some e ∧ last removed = Some x
                ∧ xds_DeleteAPIsWithUUID s x.1 (ID apiYaml) x.2 (OrganizationID apiYaml)
                  = (s', Done (Some e))
        | Panicked revs' _ => revs' = revs
        end.
Proof.
  induction l as [|[vhost envs] l IH]; intros revs w w' exit; simpl.
  { intros [= <- <-]. exists []. simpl. rewrite app_nil_r.
    repeat split; try done; constructor. }
  destruct (String.eqb vhost "") eqn:Hv.
  { intros Hrest. apply IH in Hrest as (removed & Hsub & Hne & Ht & He & Hexit).
    exists removed. split; [by apply sublist_cons|done]. }
  apply String.eqb_neq in Hv.
  destruct (DeleteAPIsWithUUID _ _ _ _ _) as [w1 r1] eqn:Hd.
  apply DeleteAPIsWithUUID_spec in Hd as (Hx & Ht & He).
  destruct r1 as [[e|]|r].
  - intros [= <- <-]. exists [(vhost, envs)]. simpl.
    split; [apply sublist_skip, sublist_nil_l|]. split; [by repeat constructor|].
    split; [by rewrite Ht, fmap_app|]. split; [done|]. split; [done|].
    by exists e, (index w), (vhost, envs), (index w1).
  - intros Hrest. apply IH in Hrest as (removed & Hsub & Hne & Ht' & He' & Hexit).
    exists ((vhost, envs) :: removed).
    split; [by apply sublist_skip|]. split; [by constructor|].
    split; [by rewrite Ht', Ht, fmap_app, <- app_assoc|].
    split; [by rewrite He', He|].
    destruct exit as [locals|revs' err|revs' r']; [done| |done].
    destruct Hexit as (-> & e & s & x & s' & -> & Hlast & Hdel).
    split; [done|]. exists e, s, x, s'. split; [done|].
    split; [by apply last_cons_Some|done].
  - intros [= <- <-]. exists [(vhost, envs)]. simpl.
    split; [apply sublist_skip, sublist_nil_l|]. split; [by repeat constructor|].
    split; [by rewrite Ht, fmap_app|]. done.
Qed.

(** A call of [ApplyAPIProjectFromAPIM] on a project that was extracted:
    its calls, its revisions and its error. *)
Lemma ApplyAPIProjectFromAPIM_run payload extracted
    (m : gmap string (list string)) (apiEnvs : gmap string (gmap string string))
    w w' revs err :
  extractAPIProject payload = (extracted, None) →
  ApplyAPIProjectFromAPIM payload m apiEnvs w = (w', Done (revs, err)) →
  ∃ updated removed,
    (trace w').*1 =
      (trace w).*1 ++ (updateCall (withEnvProps apiEnvs extracted) <$> updated)
        ++ (deleteCall (Data (apiYamlOf extracted)) <$> removed)
    ∧ updated.*1 `prefix_of` (range m).*1
    ∧ Forall (λ x, ∃ s envs, m !! x.1 = Some envs
                   ∧ xds_GetAllEnvironments s (uuidOf extracted) x.1 envs = Done x.2)
        updated
    ∧ length revs ≤ length updated
    ∧ Forall (λ rev, ∃ s x s', x ∈ updated
                ∧ xds_UpdateAPI s x.1 (withEnvProps apiEnvs extracted) x.2
                  = (s', Done (Some rev, None))) revs
    ∧ NoDup removed.*1
    ∧ Forall (λ x, x.1 ≠ ""
                   ∧ ∀ e, e ∈ x.2 →
                       ∃ v es s, m !! v = Some es ∧ e ∈ es ∧ v ≠ x.1
                                 ∧ xds_GetVhostOfAPI s (uuidOf extracted) e
                                   = Done (x.1, true)) removed
    ∧ (removed ≠ [] → updated.*1 = (range m).*1)
    ∧ match err with
      | None => updated.*1 = (range m).*1 ∧ errors w' = errors w
      | Some e =>
          (e = canonicalError (Data (apiYamlOf extracted))
           ∧ removed = [] ∧ errors w' = errors w
           ∧ ∃ s x s' rev e', last updated = Some x
               ∧ xds_UpdateAPI s x.1 (withEnvProps apiEnvs extracted) x.2
                 = (s', Done (rev, Some e')))
          ∨ (e = canonicalError (Data (apiYamlOf extracted))
             ∧ ∃ r, errors w' = errors w ++ [recoveredMessage r])
          ∨ (errors w' = errors w
             ∧ ∃ s x s', last removed = Some x
                 ∧ xds_DeleteAPIsWithUUID s x.1 (uuidOf extracted) x.2
                     (OrganizationID (Data (apiYamlOf extracted)))
                   = (s', Done (Some e)))
      end.
Proof.
  intros Hex. unfold ApplyAPIProjectFromAPIM. rewrite Hex. simpl.
  change (match apiEnvs !! ID (Data (apiYamlOf extracted)) with
          | Some apiEnvProps => set_APIEnvProps (Some apiEnvProps) extracted
          | None => extracted
          end) with (withEnvProps apiEnvs extracted).
  set (p := withEnvProps apiEnvs extracted). set (apiYaml := Data (apiYamlOf extracted)).
  unfold ApplyAPIProjectFromAPIM_body, uuidOf. fold apiYaml.
  destruct (updateVhosts apiYaml p (range m) ∅ [] w) as [w1 ex1] eqn:Hup.
  destruct (updateVhosts_run _ _ _ _ _ _ _ _ Hup)
    as (u & acks & Hp & Ht & He & Henvs & Hrevs & Hlen & Hacks & Hexit).
  simpl in Hrevs.
  assert (Forall (λ x : string * list string, ∃ s envs, m !! x.1 = Some envs
            ∧ xds_GetAllEnvironments s (ID apiYaml) x.1 envs = Done x.2) u) as Henvs'.
  { eapply Forall_impl; [exact Henvs|]. intros x (s & es & Hin & Hg).
    exists s, es. split; [by apply elem_of_range|done]. }
  destruct ex1 as [[rm revs1]|revs1 err1|revs1 r1]; simpl in Hrevs; subst revs1.
  - destruct (undeployVhosts apiYaml (range rm) acks w1) as [w2 ex2] eqn:Hun.
    destruct (undeployVhosts_run _ _ _ _ _ _ Hun) as (removed & Hsub & Hne & Ht2 & He2 & Hexit2).
    assert (NoDup removed.*1) as Hnd.
    { eapply sublist_NoDup; [apply NoDup_range|]. by apply fmap_sublist. }
    assert (Forall (λ x : string * list string, x.1 ≠ ""
              ∧ ∀ e, e ∈ x.2 →
                  ∃ v es s, m !! v = Some es ∧ e ∈ es ∧ v ≠ x.1
                            ∧ xds_GetVhostOfAPI s (ID apiYaml) e = Done (x.1, true))
              removed) as Hrem.
    { apply Forall_forall. intros [k es] Hin. split.
      { rewrite Forall_forall in Hne. by apply Hne. }
      intros e Hein. simpl in *.
      assert (rm !! k = Some es) as Hk.
      { apply elem_of_range. by eapply elem_of_sublist. }
      destruct (updateVhosts_remove_set apiYaml p (range m) (range m) (λ x Hx, Hx)
                  _ _ _ _ _ _ Hup) with k e as (v & es' & s & Hv & He' & Hvk & Hg).
      { intros k' e'. rewrite lookup_total_empty. by intros ?%not_elem_of_nil. }
      { by rewrite lookup_total_alt, Hk. }
      exists v, es', s. split; [by apply elem_of_range|done]. }
    assert ((trace w2).*1 = (trace w).*1 ++ (updateCall p <$> u)
                              ++ (deleteCall apiYaml <$> removed)) as Htrace
      by (by rewrite Ht2, Ht, <- app_assoc).
    destruct ex2 as [[]|revs2 err2|revs2 r2].
    + intros [= <- <- <-]. exists u, removed.
      do 8 (split; [done|]). split; [done|]. by rewrite He2.
    + destruct Hexit2 as (-> & e & s & x & s' & -> & Hlast & Hdel).
      intros [= <- <- <-]. exists u, removed.
      do 8 (split; [done|]). right; right. split; [by rewrite He2|].
      by exists s, x, s'.
    + subst revs2. intros [= <- <- <-]. exists u, removed. simpl.
      do 8 (split; [done|]). right; left. split; [done|].
      exists r2. by rewrite He2, He.
  - destruct Hexit as (-> & Hrefused).
    intros [= <- <- <-]. exists u, []. simpl. rewrite app_nil_r.
    do 5 (split; [done|]). split; [constructor|]. split; [constructor|].
    split; [done|]. left. done.
  - intros [= <- <- <-]. exists u, []. simpl. rewrite app_nil_r.
    do 5 (split; [done|]). split; [constructor|]. split; [constructor|].
    split; [done|]. right; left. split; [done|]. exists r1. by rewrite He.
Qed.

End ApplyFacts.

Section ApplyTheorems.

Context {golib : GoLib} {config : AdapterConfig} {reader : ProjectReader}
  {ranging : MapRange}.
Context {St APIMeta : Type} {xds : XdsServer St APIMeta}.

Implicit Types (w : World St) (apiYaml : APIYamlData) (apiProject : ProjectAPI).
Implicit Types (m : gmap string (list string)) (apiEnvs : gmap string (gmap string string)).

(** X16: the updates of [ApplyAPIProjectFromAPIM] follow the request: they
    come before every other call and address vhosts of the request, each at
    most once and in the order of the range; each carries the extracted
    project with the properties that [apiEnvs] has for its id, and the
    environments that [GetAllEnvironments] answered for the vhost and its
    requested environments.  When the call returns no error, or when it
    undeploys anything, every requested vhost had its update. *)
Theorem ApplyAPIProjectFromAPIM_updates_follow_request payload extracted m apiEnvs
    w w' revs err
    (Hextract : extractAPIProject payload = (extracted, None))
    (Hrun : ApplyAPIProjectFromAPIM payload m apiEnvs w = (w', Done (revs, err))) :
  ∃ updated calls,
    (trace w').*1 =
      (trace w).*1 ++ (updateCall (withEnvProps apiEnvs extracted) <$> updated) ++ calls
    ∧ Forall (λ c, isDelete c = true) calls
    ∧ updated.*1 `prefix_of` (range m).*1
    ∧ NoDup updated.*1
    ∧ Forall (λ x, ∃ s envs, m !! x.1 = Some envs
                   ∧ xds_GetAllEnvironments s (uuidOf extracted) x.1 envs = Done x.2)
        updated
    ∧ (err = None ∨ calls ≠ [] →
       ∀ vhost, is_Some (m !! vhost) → vhost ∈ updated.*1).
Proof.
  destruct (ApplyAPIProjectFromAPIM_run _ _ _ _ _ _ _ _ Hextract Hrun)
    as (u & removed & Ht & Hp & Henvs & _ & _ & _ & _ & Hafter & Herr).
  exists u, (deleteCall (Data (apiYamlOf extracted)) <$> removed).
  split; [done|]. split; [by apply Forall_fmap, Forall_true|]. split; [done|].
  split.
  { destruct Hp as [rest Hp]. pose proof (NoDup_range m) as Hnd.
    rewrite Hp in Hnd. by apply NoDup_app in Hnd as [? _]. }
  split; [done|].
  intros Hall vhost [envs Hv].
  assert (u.*1 = (range m).*1) as ->.
  { destruct Hall as [->|Hcalls]; [by destruct Herr|].
    apply Hafter. intros ->. done. }
  apply list_elem_of_fmap. exists (vhost, envs). split; [done|]. by apply elem_of_range.
Qed.

(** X17: [ApplyAPIProjectFromAPIM] undeploys relocated environments only:
    its undeploys come after its updates, bear the id and the organization
    of the manifest, address vhosts that are not empty, no vhost twice, and
    each environment they name was requested under another vhost while the
    index had the API in it under the vhost of the undeploy. *)
Theorem ApplyAPIProjectFromAPIM_undeploys_relocated_only payload extracted m apiEnvs
    w w' revs err
    (Hextract : extractAPIProject payload = (extracted, None))
    (Hrun : ApplyAPIProjectFromAPIM payload m apiEnvs w = (w', Done (revs, err))) :
  ∃ updates removed,
    (trace w').*1 =
      (trace w).*1 ++ updates ++ (deleteCall (Data (apiYamlOf extracted)) <$> removed)
    ∧ Forall (λ c, isUpdate c = true) updates
    ∧ NoDup removed.*1
    ∧ Forall (λ x, x.1 ≠ ""
                   ∧ ∀ e, e ∈ x.2 →
                       ∃ v es s, m !! v = Some es ∧ e ∈ es ∧ v ≠ x.1
                                 ∧ xds_GetVhostOfAPI s (uuidOf extracted) e
                                   = Done (x.1, true)) removed.
Proof.
  destruct (ApplyAPIProjectFromAPIM_run _ _ _ _ _ _ _ _ Hextract Hrun)
    as (u & removed & Ht & _ & _ & _ & _ & Hnd & Hrem & _).
  exists (updateCall (withEnvProps apiEnvs extracted) <$> u), removed.
  split; [done|]. split; [by apply Forall_fmap, Forall_true|]. done.
Qed.

(** X18: the error of [ApplyAPIProjectFromAPIM] on a project that was
    extracted has one of three origins.  The index refused an update: the
    error is made of name, version and id, whatever the index said, that
    update is the last call and nothing is undeployed.  A call panicked: the
    error is the same one, and the panic is logged.  The index refused an
    undeploy: the error is the one of the index, and that undeploy is the
    last call. *)
Theorem ApplyAPIProjectFromAPIM_error_origin payload extracted m apiEnvs
    w w' revs (e : error)
    (Hextract : extractAPIProject payload = (extracted, None))
    (Hrun : ApplyAPIProjectFromAPIM payload m apiEnvs w = (w', Done (revs, Some e))) :
  (e = canonicalError (Data (apiYamlOf extracted))
   ∧ errors w' = errors w
   ∧ ∃ updated s x s' rev e',
       (trace w').*1 =
         (trace w).*1 ++ (updateCall (withEnvProps apiEnvs extracted) <$> updated ++ [x])
       ∧ xds_UpdateAPI s x.1 (withEnvProps apiEnvs extracted) x.2
         = (s', Done (rev, Some e')))
  ∨ (e = canonicalError (Data (apiYamlOf extracted))
     ∧ ∃ r, errors w' = errors w ++ [recoveredMessage r])
  ∨ (errors w' = errors w
     ∧ ∃ calls s x s',
         (trace w').*1 =
           (trace w).*1 ++ calls ++ [deleteCall (Data (apiYamlOf extracted)) x]
         ∧ xds_DeleteAPIsWithUUID s x.1 (uuidOf extracted) x.2
             (OrganizationID (Data (apiYamlOf extracted)))
           = (s', Done (Some e))).
Proof.
  destruct (ApplyAPIProjectFromAPIM_run _ _ _ _ _ _ _ _ Hextract Hrun)
    as (u & removed & Ht & _ & _ & _ & _ & _ & _ & _ & Herr).
  destruct Herr as [(-> & -> & He & s & x & s' & rev & e' & Hlast & Hx)
                   |[(-> & r & He)|(He & s & x & s' & Hlast & Hx)]].
  - left. split; [done|]. split; [done|].
    apply last_Some in Hlast as [u' ->].
    exists u', s, x, s', rev, e'. simpl in Ht. by rewrite app_nil_r in Ht.
  - right; left. split; [done|]. by exists r.
  - right; right. split; [done|].
    apply last_Some in Hlast as [removed' ->].
    exists ((updateCall (withEnvProps apiEnvs extracted) <$> u)
            ++ (deleteCall (Data (apiYamlOf extracted)) <$> removed')), s, x, s'.
    split; [|done]. by rewrite Ht, fmap_app, <- !app_assoc.
Qed.

(** X19: the revisions that [ApplyAPIProjectFromAPIM] returns are
    acknowledgements of the index: each was returned, without error, by an
    update of the extracted project on a requested vhost, and there are no
    more of them than requested vhosts. *)
Theorem ApplyAPIProjectFromAPIM_returns_acknowledgements payload extracted m apiEnvs
    w w' revs err
    (Hextract : extractAPIProject payload = (extracted, None))
    (Hrun : ApplyAPIProjectFromAPIM payload m apiEnvs w = (w', Done (revs, err))) :
  length revs ≤ size m
  ∧ Forall (λ rev, ∃ s vhost envs s',
              is_Some (m !! vhost)
              ∧ xds_UpdateAPI s vhost (withEnvProps apiEnvs extracted) envs
                = (s', Done (Some rev, None))) revs.
Proof.
  destruct (ApplyAPIProjectFromAPIM_run _ _ _ _ _ _ _ _ Hextract Hrun)
    as (u & removed & _ & Hp & Henvs & Hlen & Hacks & _).
  split.
  - apply prefix_length in Hp. rewrite !length_fmap in Hp.
    rewrite <- length_map_to_list, <- (range_perm m). lia.
  - eapply Forall_impl; [exact Hacks|]. intros rev (s & x & s' & Hin & Hx).
    exists s, x.1, x.2, s'. split; [|done].
    rewrite Forall_forall in Henvs. destruct (Henvs x Hin) as (_ & envs & -> & _). done.
Qed.

End ApplyTheorems.

(** ** Where a call of the control plane leaves the API *)

Section PlacementFacts.

Context {golib : GoLib} {config : AdapterConfig} {reader : ProjectReader}
  {ranging : MapRange}.
Context {St APIMeta : Type} {xds : XdsServer St APIMeta}.

Implicit Types (w : World St) (m : gmap string (list string)).

Section Frame.

Hypothesis contract : PlacementContract xds.

Variables (apiYaml : APIYamlData) (apiProject : ProjectAPI).
Hypothesis same_id : uuidOf apiProject = ID apiYaml.

Variable env : string.

(** An update loop in which [env] is not requested leaves whatever the index
    says of the API in [env], in every state it goes through, and files
    [env] nowhere in the remove set. *)
Lemma updateVhosts_keeps (l : list (string * list string)) :
  (∀ v envs, (v, envs) ∈ l → env ∉ envs) →
  ∀ rm revs w w' rm' revs',
    updateVhosts apiYaml apiProject l rm revs w = (w', Completed (rm', revs')) →
    xds_GetVhostOfAPI (index w') (ID apiYaml) env
      = xds_GetVhostOfAPI (index w) (ID apiYaml) env
    ∧ (∀ k, env ∈ rm' !!! k ↔ env ∈ rm !!! k)
    ∧ ∃ updates, trace w' = trace w ++ updates
        ∧ Forall (λ c, xds_GetVhostOfAPI c.2 (ID apiYaml) env
                       = xds_GetVhostOfAPI (index w) (ID apiYaml) env) updates.
Proof.
  induction l as [|[v envs] l IH]; intros Hl rm revs w w' rm' revs'; simpl.
  { intros [= <- <- <-]. split; [done|]. split; [done|].
    exists []. by rewrite app_nil_r. }
  destruct (searchVhosts _ _ _ _ _) as [rm1|r] eqn:Hs; [|done].
  destruct (xds_GetAllEnvironments _ _ _ _) as [allEnvs|r] eqn:Ha; [|done].
  destruct (UpdateAPI _ _ _ _) as [w1 [[rev [e|]]|r]] eqn:Hu; [done| |done].
  apply UpdateAPI_spec in Hu as (Hx & Ht & _).
  assert (env ∉ envs) as Hnot by (eapply Hl; left).
  assert (xds_GetVhostOfAPI (index w1) (ID apiYaml) env
          = xds_GetVhostOfAPI (index w) (ID apiYaml) env) as Hcur1.
  { rewrite <- same_id in *.
    destruct (decide (env ∈ allEnvs)) as [Hin|Hout].
    - rewrite (update_records contract _ _ _ _ _ _ _ Hx Hin).
      by apply (all_environments contract _ _ _ _ _ env Ha) in Hin as [?|Hv].
    - by rewrite (update_frame contract _ _ _ _ _ _ _ Hx Hout). }
  intros Hrest. apply IH in Hrest as (Hfin & Hrm & us & Hus & Hall); [|set_solver].
  split; [congruence|]. split.
  - intros k. rewrite Hrm, (searchVhosts_spec _ _ _ _ _ _ Hs). naive_solver.
  - eexists (_ :: us). rewrite Hus, Ht, <- app_assoc. split; [done|].
    constructor; [done|]. eapply Forall_impl; [exact Hall|]. intros c Hc. congruence.
Qed.

(** An undeploy loop that does not name [env] leaves whatever the index
    says of the API in [env]. *)
Lemma undeployVhosts_keeps (l : list (string * list string)) :
  (∀ k es, (k, es) ∈ l → env ∉ es) →
  ∀ revs w w',
    undeployVhosts apiYaml l revs w = (w', Completed ()) →
    xds_GetVhostOfAPI (index w') (ID apiYaml) env
      = xds_GetVhostOfAPI (index w) (ID apiYaml) env
    ∧ ∃ deletes, trace w' = trace w ++ deletes
        ∧ Forall (λ c, xds_GetVhostOfAPI c.2 (ID apiYaml) env
                       = xds_GetVhostOfAPI (index w) (ID apiYaml) env) deletes.
Proof.
  induction l as [|[k es] l IH]; intros Hl revs w w'; simpl.
  { intros [= <-]. split; [done|]. exists []. by rewrite app_nil_r. }
  destruct (String.eqb k "") eqn:Hk.
  { intros Hrest. apply IH in Hrest; [done|set_solver]. }
  destruct (DeleteAPIsWithUUID _ _ _ _ _) as [w1 [[e|]|r]] eqn:Hd; [done| |done].
  apply DeleteAPIsWithUUID_spec in Hd as (Hx & Ht & _).
  assert (xds_GetVhostOfAPI (index w1) (ID apiYaml) env
          = xds_GetVhostOfAPI (index w) (ID apiYaml) env) as Hcur1.
  { apply (delete_frame contract _ _ _ _ _ _ env Hx). left. eapply Hl. by left. }
  intros Hrest. apply IH in Hrest as (Hfin & ds & Hds & Hall); [|set_solver].
  split; [congruence|]. eexists (_ :: ds). rewrite Hds, Ht, <- app_assoc.
  split; [done|]. constructor; [done|].
  eapply Forall_impl; [exact Hall|]. intros c Hc. congruence.
Qed.

(** A run of the body that returns no error leaves the API where it was in
    an environment that the request does not name. *)
Lemma unrequested_run m w w' (revs : list DeployedAPIRevision) :
  (∀ v envs, m !! v = Some envs → env ∉ envs) →
  ApplyAPIProjectFromAPIM_body apiYaml apiProject m w = (w', Returned revs None) →
  xds_GetVhostOfAPI (index w') (ID apiYaml) env
    = xds_GetVhostOfAPI (index w) (ID apiYaml) env
  ∧ ∃ calls, trace w' = trace w ++ calls
      ∧ Forall (λ c, xds_GetVhostOfAPI c.2 (ID apiYaml) env
                     = xds_GetVhostOfAPI (index w) (ID apiYaml) env) calls.
Proof.
  intros Hfree. unfold ApplyAPIProjectFromAPIM_body.
  destruct (updateVhosts apiYaml apiProject (range m) ∅ [] w) as [w1 ex1] eqn:Hrun1.
  destruct ex1 as [[rm1 revs1]|revs1 err1|revs1 r1].
  2: { apply updateVhosts_returned in Hrun1 as [e ->]. done. }
  2: done.
  apply updateVhosts_keeps in Hrun1 as (Hcur1 & Hrm1 & us & Hus & Hst1).
  2: { intros v envs Hin%elem_of_range. by eapply Hfree. }
  destruct (undeployVhosts apiYaml (range rm1) revs1 w1) as [w2 ex2] eqn:Hrun2.
  destruct ex2 as [[]|revs2 err2|revs2 r2].
  2: { apply undeployVhosts_returned in Hrun2 as [e ->]. done. }
  2: done.
  intros [= <- <-].
  apply undeployVhosts_keeps in Hrun2 as (Hcur2 & ds & Hds & Hst2).
  2: { intros k es Hk%elem_of_range Hes.
       assert (env ∈ rm1 !!! k) as Hk1 by (by rewrite lookup_total_alt, Hk).
       apply Hrm1 in Hk1. rewrite lookup_total_empty in Hk1.
       by apply not_elem_of_nil in Hk1. }
  split; [congruence|]. exists (us ++ ds). rewrite Hds, Hus, <- app_assoc.
  split; [done|]. apply Forall_app. split; [done|].
  eapply Forall_impl; [exact Hst2|]. intros c Hc. congruence.
Qed.

(** A run of the body that returns no error leaves the API under the vhost
    that the request names for [env], when it names one only. *)
Lemma placement_run m (vhost : string) (envs : list string) w w'
    (revs : list DeployedAPIRevision) :
  m !! vhost = Some envs → env ∈ envs →
  (∀ v' envs', m !! v' = Some envs' → env ∈ envs' → v' = vhost) →
  ApplyAPIProjectFromAPIM_body apiYaml apiProject m w = (w', Returned revs None) →
  xds_GetVhostOfAPI (index w') (ID apiYaml) env = Done (vhost, true).
Proof.
  intros Hm Henv Honly. unfold ApplyAPIProjectFromAPIM_body.
  pose proof (NoDup_range m) as Hnd.
  assert ((vhost, envs) ∈ range m) as Hin by by apply elem_of_range.
  assert (∀ v' envs', (v', envs') ∈ range m → v' ≠ vhost → env ∉ envs') as Hother.
  { intros v' envs' Hv'%elem_of_range Hv Hc. by apply Hv, (Honly _ envs'). }
  apply list_elem_of_split in Hin as (l1 & l2 & Hl). rewrite Hl in *.
  rewrite fmap_app, fmap_cons in Hnd. simpl in Hnd.
  apply NoDup_app in Hnd as (_ & Hl1 & [Hl2 _]%NoDup_cons).
  assert (∀ v' envs', (v', envs') ∈ l1 → env ∉ envs') as Hfree1.
  { intros v' envs' Hv'. apply (Hother v'); [set_solver|].
    intros ->. apply (Hl1 vhost); [|by left].
    apply list_elem_of_fmap. by exists (vhost, envs'). }
  assert (∀ v' envs', (v', envs') ∈ l2 → env ∉ envs') as Hfree2.
  { intros v' envs' Hv'. apply (Hother v'); [set_solver|].
    intros ->. apply Hl2, list_elem_of_fmap. by exists (vhost, envs'). }
  rewrite updateVhosts_app.
  destruct (updateVhosts apiYaml apiProject l1 ∅ [] w) as [w1 ex1] eqn:Hrun1.
  destruct ex1 as [[rm1 revs1]|revs1 err1|revs1 r1].
  2: { apply updateVhosts_returned in Hrun1 as [e ->]. done. }
  2: done.
  apply updateVhosts_keeps in Hrun1 as (_ & Hrm1 & _); [|done].
  simpl.
  destruct (searchVhosts _ _ _ _ _) as [rm2|r] eqn:Hs; [|done].
  destruct (xds_GetAllEnvironments _ _ _ _) as [allEnvs|r] eqn:Ha; [|done].
  destruct (UpdateAPI _ _ _ _) as [w2 [[rev [e|]]|r]] eqn:Hu; [done| |done].
  apply UpdateAPI_spec in Hu as (Hx & _ & _).
  assert (xds_GetVhostOfAPI (index w2) (ID apiYaml) env = Done (vhost, true)) as Hcur2.
  { rewrite <- same_id in *. apply (update_records contract _ _ _ _ _ _ _ Hx).
    apply (all_environments contract _ _ _ _ _ env Ha). by left. }
  assert (∀ k, env ∈ rm2 !!! k → k ≠ vhost) as Hrm2.
  { intros k. rewrite (searchVhosts_spec _ _ _ _ _ _ Hs), Hrm1, lookup_total_empty.
    intros [?%not_elem_of_nil|(_ & _ & Hk)]; done. }
  match goal with
  | |- context [updateVhosts apiYaml apiProject l2 rm2 ?revs2 w2] =>
      destruct (updateVhosts apiYaml apiProject l2 rm2 revs2 w2) as [w3 ex3] eqn:Hrun3
  end.
  destruct ex3 as [[rm3 revs3]|revs3 err3|revs3 r3].
  2: { apply updateVhosts_returned in Hrun3 as [e ->]. done. }
  2: done.
  apply updateVhosts_keeps in Hrun3 as (Hcur3 & Hrm3 & _); [|done].
  destruct (undeployVhosts apiYaml (range rm3) revs3 w3) as [w4 ex4] eqn:Hrun4.
  destruct ex4 as [[]|revs4 err4|revs4 r4].
  2: { apply undeployVhosts_returned in Hrun4 as [e ->]. done. }
  2: done.
  intros [= <- <-].
  apply (undeployVhosts_frame contract apiYaml apiProject same_id env vhost) in Hrun4
    as (Hcur4 & _); [done| |congruence].
  intros k es Hk%elem_of_range Hes. apply Hrm2, Hrm3.
  by rewrite lookup_total_alt, Hk.
Qed.

End Frame.

(** X20: the index keeping its contract on placements, a call of
    [ApplyAPIProjectFromAPIM] that returns no error leaves the API where it
    was in every environment that the request does not name: what the index
    answers for the environment is the same after the call, and in every
    state the index goes through. *)
Theorem ApplyAPIProjectFromAPIM_keeps_unrequested_environments
    (contract : PlacementContract xds) (payload : Payload) (extracted : ProjectAPI)
    m (apiEnvs : gmap string (gmap string string)) (env : string) w w'
    (revs : list DeployedAPIRevision)
    (Hextract : extractAPIProject payload = (extracted, None))
    (Hfree : ∀ v envs, m !! v = Some envs → env ∉ envs)
    (Hok : ApplyAPIProjectFromAPIM payload m apiEnvs w = (w', Done (revs, None))) :
  xds_GetVhostOfAPI (index w') (uuidOf extracted) env
    = xds_GetVhostOfAPI (index w) (uuidOf extracted) env
  ∧ ∃ calls, trace w' = trace w ++ calls
      ∧ Forall (λ c, xds_GetVhostOfAPI c.2 (uuidOf extracted) env
                     = xds_GetVhostOfAPI (index w) (uuidOf extracted) env) calls.
Proof.
  destruct (ApplyAPIProjectFromAPIM_success _ _ _ _ _ _ _ Hextract Hok)
    as (apiProject & Hid & Hbody).
  by apply (unrequested_run contract _ apiProject Hid env m w w' revs).
Qed.

(** X21: the index keeping its contract on placements, after a call of
    [ApplyAPIProjectFromAPIM] that returns no error the API is under the
    requested vhost in every environment that the request names under one
    vhost only, wherever it was before and in whatever order the vhosts are
    ranged over. *)
Theorem ApplyAPIProjectFromAPIM_places_requested_environment
    (contract : PlacementContract xds) (payload : Payload) (extracted : ProjectAPI)
    m (apiEnvs : gmap string (gmap string string)) (vhost env : string)
    (envs : list string) w w' (revs : list DeployedAPIRevision)
    (Hextract : extractAPIProject payload = (extracted, None))
    (Hrequested : m !! vhost = Some envs) (Henv : env ∈ envs)
    (Honly : ∀ v' envs', m !! v' = Some envs' → env ∈ envs' → v' = vhost)
    (Hok : ApplyAPIProjectFromAPIM payload m apiEnvs w = (w', Done (revs, None))) :
  xds_GetVhostOfAPI (index w') (uuidOf extracted) env = Done (vhost, true).
Proof.
  destruct (ApplyAPIProjectFromAPIM_success _ _ _ _ _ _ _ Hextract Hok)
    as (apiProject & Hid & Hbody).
  by apply (placement_run contract _ apiProject Hid env m vhost envs w w' revs).
Qed.

End PlacementFacts.

(** ** The bootstrap from the mounted directory *)

Section BootstrapFacts.

Context {golib : GoLib} {config : AdapterConfig} {reader : ProjectReader}
  {ranging : MapRange}.
Context {St APIMeta : Type} {xds : XdsServer St APIMeta}.

Implicit Types (w : World St) (apiProject : ProjectAPI) (files : list artifact).

Lemma validateAndUpdateXds_only_updates apiProject override w w' r :
  validateAndUpdateXds apiProject override w = (w', r) →
  ∃ calls, (trace w').*1 = (trace w).*1 ++ calls ∧ Forall (λ c, isUpdate c = true) calls.
Proof.
  intros Hrun.
  destruct (validateAndUpdateXds_returns apiProject override w) as (w1 & err & Hret).
  rewrite Hret in Hrun. injection Hrun as <- <-.
  apply validateAndUpdateXds_calls in Hret as (u & _ & Ht & _).
  eexists. split; [exact Ht|]. by apply Forall_fmap, Forall_true.
Qed.

Lemma mountArtifact_only_updates (a : artifact) w w' r :
  mountArtifact a w = (w', r) →
  ∃ calls, (trace w').*1 = (trace w).*1 ++ calls ∧ Forall (λ c, isUpdate c = true) calls.
Proof.
  assert (∃ calls : list Call, (trace w).*1 = (trace w).*1 ++ calls
                               ∧ Forall (λ c, isUpdate c = true) calls) as Hnone.
  { exists []. by rewrite app_nil_r. }
  unfold mountArtifact. destruct a as [name files|name data].
  - destruct (walkProject _ _) as [[apiProject [e|]]|r0];
      [by intros [= <- <-]| |by intros [= <- <-]].
    destruct (ValidateAPIType _); [by intros [= <- <-]|].
    destruct (validateAndUpdateXds _ _ _) as [w1 r1] eqn:Hv.
    apply validateAndUpdateXds_only_updates in Hv.
    destruct r1 as [[e|]|r1]; by intros [= <- <-].
  - destruct (negb _); [by intros [= <- <-]|].
    destruct data as [e|payload]; [by intros [= <- <-]|].
    unfold ApplyAPIProjectInStandaloneMode.
    destruct (extractAPIProject payload) as [apiProject [e|]]; [by intros [= <- <-]|].
    destruct (validateAndUpdateXds _ _ _) as [w1 r1] eqn:Hv.
    apply validateAndUpdateXds_only_updates in Hv.
    destruct r1 as [[e|]|r1]; by intros [= <- <-].
Qed.

Lemma mountArtifacts_only_updates files :
  ∀ w w' r,
    mountArtifacts files w = (w', r) →
    ∃ calls, (trace w').*1 = (trace w).*1 ++ calls ∧ Forall (λ c, isUpdate c = true) calls.
Proof.
  induction files as [|a files IH]; intros w w' r; simpl.
  { intros [= <- <-]. exists []. by rewrite app_nil_r. }
  destruct (mountArtifact a w) as [w1 r1] eqn:Ha.
  apply mountArtifact_only_updates in Ha as (c1 & Ht1 & Hc1).
  destruct r1 as [[]|r1].
  - intros Hrest. apply IH in Hrest as (c2 & Ht2 & Hc2).
    exists (c1 ++ c2). rewrite Ht2, Ht1, <- app_assoc. split; [done|].
    by apply Forall_app.
  - intros [= <- <-]. by exists c1.
Qed.

(** X22: the bootstrap never undeploys: every call of the index that
    [ProcessMountedAPIProjects] adds to the trace is an update. *)
Theorem ProcessMountedAPIProjects_only_updates (readDir : error + list artifact) w :
  ∃ calls,
    (trace (ProcessMountedAPIProjects readDir w).1).*1 = (trace w).*1 ++ calls
    ∧ Forall (λ c, isUpdate c = true) calls.
Proof.
  unfold ProcessMountedAPIProjects. destruct readDir as [e|files].
  - exists []. rewrite app_nil_r. by destruct (negb ServerEnabled).
  - destruct (mountArtifacts files w) as [w' r] eqn:Hm.
    apply mountArtifacts_only_updates in Hm. by destruct r.
Qed.


(** X24: the bootstrap looks into directories and into files whose name
    ends in [zipExt] only: the other children of the directory can be left
    out without any change of the run. *)
Theorem ProcessMountedAPIProjects_ignores_other_files files w :
  ProcessMountedAPIProjects (inr (filter (λ a, isArtifact a = true) files)) w
  = ProcessMountedAPIProjects (inr files) w.
Proof.
  unfold ProcessMountedAPIProjects.
  assert (mountArtifacts (filter (λ a, isArtifact a = true) files) w
          = mountArtifacts files w) as ->; [|done].
  revert w. induction files as [|a files IH]; intros w; [done|].
  rewrite filter_cons. destruct (isArtifact a) eqn:Ha.
  - rewrite decide_True by done. simpl.
    destruct (mountArtifact a w) as [w1 [[]|r]]; [apply IH|done].
  - rewrite decide_False by done. rewrite IH. simpl.
    destruct a as [name fs|name data]; [done|]. simpl in Ha. simpl. by rewrite Ha.
Qed.

End BootstrapFacts.

(** ** The queries that make [ListApis] panic *)

Section ListFacts.

Context {golib : GoLib}.
Context {St APIMeta : Type} {xds : XdsServer St APIMeta}.

Lemma Split_nonempty (s : string) (sep : ascii) : Go.Split s sep ≠ [].
Proof.
  destruct s as [|c s]; simpl; [done|].
  destruct (Ascii.eqb c sep); [done|]. by destruct (Go.Split s sep).
Qed.

Lemma Split_singleton (s : string) (sep : ascii) (k : string) :
  Go.Split s sep = [k] → s = k.
Proof.
  revert k. induction s as [|c s IH]; intros k; simpl; [by intros [= <-]|].
  destruct (Ascii.eqb c sep).
  - intros [= _ Hs]. by apply Split_nonempty in Hs.
  - destruct (Go.Split s sep) as [|piece pieces] eqn:Hs; [by apply Split_nonempty in Hs|].
    intros [= <- ->]. by rewrite (IH piece).
Qed.

(** X25: on an index whose listing does not panic, [ListApis] panics on one
    query only: the one that is the key [type] and nothing else. *)
Theorem ListApis_panics_on_the_bare_key_only (s : St) (query : option string)
    (limit : option Z) (organizationID : string)
    (Hindex : ∀ apiType, ∃ apis, xds_ListApis s apiType organizationID limit = Done apis) :
  (∃ r, ListApis s query limit organizationID = Panic r) ↔ query = Some apiTypeFilterKey.
Proof.
  split.
  - intros [r Hr]. unfold ListApis in Hr.
    destruct query as [q|]; [|by destruct (Hindex "") as [apis Ha]; rewrite Ha in Hr].
    destruct (Go.Split q ":") as [|key rest] eqn:Hs; [by apply Split_nonempty in Hs|].
    simpl in Hr. destruct (String.eqb key apiTypeFilterKey) eqn:Hk.
    + destruct rest as [|value rest].
      * apply Split_singleton in Hs as ->. by apply String.eqb_eq in Hk as ->.
      * simpl in Hr. destruct (Hindex (ToUpper value)) as [apis Ha].
        by rewrite Ha in Hr.
    + destruct (Hindex "") as [apis Ha]. by rewrite Ha in Hr.
  - intros ->. by eexists.
Qed.

End ListFacts.

(** ** Further runs on the sample projects *)

Section FurtherRuns.

#[local] Existing Instance asciiGo.
#[local] Existing Instance localConfig.
#[local] Existing Instance specReader.
#[local] Existing Instance listedRange.
#[local] Existing Instance specIndex.

(** X5 on the sample manifest. *)
Lemma FormatAndUpdateInfo_idempotent_witness :
  FormatAndUpdateInfo
    (FormatAndUpdateInfo (sampleManifest "A" "PetStore" "http" (sampleEndpoint "https://h/1")))
  = FormatAndUpdateInfo (sampleManifest "A" "PetStore" "http" (sampleEndpoint "https://h/1")).
Proof.
  apply (FormatAndUpdateInfo_idempotent
           (sampleManifest "A" "PetStore" "http" (sampleEndpoint "https://h/1")));
    reflexivity.
Defined.

(** X7 on the sample manifest: its type comes out in upper case and its
    organization is the tenant domain. *)
Lemma NewAPIYaml_accepted_manifest_witness :
  APIType (Data (NewAPIYaml (Manifest (sampleManifest "A" "PetStore" "http"
                                         (sampleEndpoint "https://h/1")))).1)
    = ToUpper "http"
  ∧ OrganizationID (Data (NewAPIYaml (Manifest (sampleManifest "A" "PetStore" "http"
                                                  (sampleEndpoint "https://h/1")))).1)
    = GetControlPlaneConnectedTenantDomain.
Proof.
  destruct (NewAPIYaml_accepted_manifest
              (Manifest (sampleManifest "A" "PetStore" "http" (sampleEndpoint "https://h/1")))
              (NewAPIYaml (Manifest (sampleManifest "A" "PetStore" "http"
                                       (sampleEndpoint "https://h/1")))).1)
    as (decoded & Heq & _ & _ & _ & _ & _ & _ & _ & Hty & _ & _ & Horg).
  { apply pair_of_snd. vm_compute. reflexivity. }
  injection Heq as <-. split; [exact Hty | exact Horg].
Defined.

(** X8 on the sample archive. *)
Lemma extractAPIProject_accepted_project_witness :
  APIType (Data (apiYamlOf (extractAPIProject petstore).1))
    ∈ [constants.HTTP; constants.WS; constants.WEBHOOK].
Proof.
  destruct (extractAPIProject_accepted_project petstore (extractAPIProject petstore).1)
    as (files & _ & _ & _ & _ & Hty).
  { apply pair_of_snd. vm_compute. reflexivity. }
  exact Hty.
Defined.

(** X9 on an archive whose manifest has a relative endpoint: the deployments
    that follow are not read. *)
Lemma extractAPIProject_stops_at_first_failure_witness :
  extractAPIProject
    (inr ([manifestEntry (sampleManifest "A" "PetStore" "http" (sampleEndpoint "/internal/x"))]
          ++ [deploymentsEntry []]))
  = (archiveProject, Some productionEndpointsError).
Proof.
  apply (extractAPIProject_stops_at_first_failure
           [manifestEntry (sampleManifest "A" "PetStore" "http" (sampleEndpoint "/internal/x"))]
           [deploymentsEntry []] archiveProject productionEndpointsError).
  vm_compute. reflexivity.
Defined.

(** X13 on the sample project, which lists no deployment. *)
Lemma missing_deployments_go_to_default_vhost_witness :
  (trace (validateAndUpdateXds (extractAPIProject petstore).1 (Some true) emptyWorld).1).*1
  = [CallUpdateAPI "localhost"
       (set_Deployments
          (Some [ {| DisplayOnDevportal := true; DeploymentEnvironment := "Default";
                     DeploymentVhost := "localhost" |} ])
          (extractAPIProject petstore).1)
       ["Default"]].
Proof.
  exact (proj1 (missing_deployments_go_to_default_vhost (extractAPIProject petstore).1
                  emptyWorld eq_refl)).
Defined.

(** X14 on scenario 2: the sample API exists on its default vhost. *)
Lemma create_is_refused_or_is_update_witness :
  validateAndUpdateXds (extractAPIProject petstore).1 (Some false) petstoreDeployed
  = (petstoreDeployed, Done (Some constants.AlreadyExists)).
Proof.
  apply (proj1 (create_is_refused_or_is_update (extractAPIProject petstore).1
                  petstoreDeployed ltac:(intros d _; eexists; reflexivity))).
  exists {| DisplayOnDevportal := true; DeploymentEnvironment := "Default";
            DeploymentVhost := "localhost" |}.
  split; [vm_compute; left | vm_compute; reflexivity].
Defined.

(** X15 on scenario 2: the second creation is refused. *)
Lemma validateAndUpdateXds_error_origin_witness :
  (constants.AlreadyExists = constants.AlreadyExists
   ∧ petstoreDeployed = petstoreDeployed ∧ Some false ≠ Some true)
  ∨ (constants.AlreadyExists
       = canonicalError (Data (apiYamlOf (extractAPIProject petstore).1))
     ∧ ∃ r, errors petstoreDeployed = errors petstoreDeployed ++ [recoveredMessage r])
  ∨ (errors petstoreDeployed = errors petstoreDeployed
     ∧ ∃ updated s x s' rev,
         (trace petstoreDeployed).*1 =
           (trace petstoreDeployed).*1
             ++ (updateCall (withDefaultDeployment (extractAPIProject petstore).1)
                   <$> updated ++ [x])
         ∧ xds_UpdateAPI s x.1 (withDefaultDeployment (extractAPIProject petstore).1) x.2
           = (s', Done (rev, Some constants.AlreadyExists))).
Proof.
  apply (validateAndUpdateXds_error_origin (extractAPIProject petstore).1 (Some false)
           petstoreDeployed petstoreDeployed constants.AlreadyExists).
  apply pair_of_snd. vm_compute. reflexivity.
Defined.

(** X16 on scenario 3. *)
Lemma ApplyAPIProjectFromAPIM_updates_follow_request_witness :
  ∃ updated calls,
    (trace (ApplyAPIProjectFromAPIM petstore toV2 ∅ petstoreDeployed).1).*1 =
      (trace petstoreDeployed).*1
        ++ (updateCall (withEnvProps ∅ (extractAPIProject petstore).1) <$> updated) ++ calls
    ∧ Forall (λ c, isDelete c = true) calls
    ∧ updated.*1 `prefix_of` (range toV2).*1
    ∧ NoDup updated.*1
    ∧ Forall (λ x, ∃ s envs, toV2 !! x.1 = Some envs
                   ∧ xds_GetAllEnvironments s "A" x.1 envs = Done x.2) updated
    ∧ (@None error = None ∨ calls ≠ [] →
       ∀ vhost, is_Some (toV2 !! vhost) → vhost ∈ updated.*1).
Proof.
  apply (ApplyAPIProjectFromAPIM_updates_follow_request petstore
           (extractAPIProject petstore).1 toV2 ∅ petstoreDeployed _ [petstoreOnV2] None).
  - apply pair_of_snd. vm_compute. reflexivity.
  - apply pair_of_snd. vm_compute. reflexivity.
Defined.

(** X17 on scenario 3. *)
Lemma ApplyAPIProjectFromAPIM_undeploys_relocated_only_witness :
  ∃ updates removed,
    (trace (ApplyAPIProjectFromAPIM petstore toV2 ∅ petstoreDeployed).1).*1 =
      (trace petstoreDeployed).*1 ++ updates
        ++ (deleteCall (Data (apiYamlOf (extractAPIProject petstore).1)) <$> removed)
    ∧ Forall (λ c, isUpdate c = true) updates
    ∧ NoDup removed.*1
    ∧ Forall (λ x, x.1 ≠ ""
                   ∧ ∀ e, e ∈ x.2 →
                       ∃ v es s, toV2 !! v = Some es ∧ e ∈ es ∧ v ≠ x.1
                                 ∧ xds_GetVhostOfAPI s "A" e = Done (x.1, true)) removed.
Proof.
  apply (ApplyAPIProjectFromAPIM_undeploys_relocated_only petstore
           (extractAPIProject petstore).1 toV2 ∅ petstoreDeployed _ [petstoreOnV2] None).
  - apply pair_of_snd. vm_compute. reflexivity.
  - apply pair_of_snd. vm_compute. reflexivity.
Defined.

(** X18 on the index that panics: the error is the one made of name,
    version and id, and the panic is logged. *)
Lemma ApplyAPIProjectFromAPIM_error_origin_witness :
  let w := {| index := (); trace := []; errors := [] |} in
  let w' := (ApplyAPIProjectFromAPIM (xds := panickingIndex) petstore toV2 ∅ w).1 in
  let e := "PetStore:1.0.0 with UUID " +:+ dquote +:+ "A" +:+ dquote in
  (e = canonicalError (Data (apiYamlOf (extractAPIProject petstore).1))
   ∧ errors w' = errors w
   ∧ ∃ updated s x s' rev e',
       (trace w').*1 =
         (trace w).*1
           ++ (updateCall (withEnvProps ∅ (extractAPIProject petstore).1) <$> updated ++ [x])
       ∧ xds_UpdateAPI (XdsServer := panickingIndex) s x.1
           (withEnvProps ∅ (extractAPIProject petstore).1) x.2
         = (s', Done (rev, Some e')))
  ∨ (e = canonicalError (Data (apiYamlOf (extractAPIProject petstore).1))
     ∧ ∃ r, errors w' = errors w ++ [recoveredMessage r])
  ∨ (errors w' = errors w
     ∧ ∃ calls s x s',
         (trace w').*1 =
           (trace w).*1 ++ calls
             ++ [deleteCall (Data (apiYamlOf (extractAPIProject petstore).1)) x]
         ∧ xds_DeleteAPIsWithUUID (XdsServer := panickingIndex) s x.1
             (uuidOf (extractAPIProject petstore).1) x.2
             (OrganizationID (Data (apiYamlOf (extractAPIProject petstore).1)))
           = (s', Done (Some e))).
Proof.
  apply (ApplyAPIProjectFromAPIM_error_origin (xds := panickingIndex) petstore
           (extractAPIProject petstore).1 toV2 ∅
           {| index := (); trace := []; errors := [] |} _ []).
  - apply pair_of_snd. vm_compute. reflexivity.
  - apply pair_of_snd. vm_compute. reflexivity.
Defined.

(** X19 on scenario 3. *)
Lemma ApplyAPIProjectFromAPIM_returns_acknowledgements_witness :
  length [petstoreOnV2] ≤ size toV2
  ∧ Forall (λ rev, ∃ s vhost envs s',
              is_Some (toV2 !! vhost)
              ∧ xds_UpdateAPI s vhost (withEnvProps ∅ (extractAPIProject petstore).1) envs
                = (s', Done (Some rev, None))) [petstoreOnV2].
Proof.
  apply (ApplyAPIProjectFromAPIM_returns_acknowledgements petstore
           (extractAPIProject petstore).1 toV2 ∅ petstoreDeployed
           (ApplyAPIProjectFromAPIM petstore toV2 ∅ petstoreDeployed).1 [petstoreOnV2] None).
  - apply pair_of_snd. vm_compute. reflexivity.
  - apply pair_of_snd. vm_compute. reflexivity.
Defined.

(** X20 on scenario 3: the request names the default environment only, and
    the index has nothing to say of the environment [Other], before and
    after. *)
Lemma ApplyAPIProjectFromAPIM_keeps_unrequested_environments_witness :
  xds_GetVhostOfAPI (index (ApplyAPIProjectFromAPIM petstore toV2 ∅ petstoreDeployed).1)
    "A" "Other"
  = xds_GetVhostOfAPI (index petstoreDeployed) "A" "Other".
Proof.
  apply (ApplyAPIProjectFromAPIM_keeps_unrequested_environments specIndex_placement petstore
           (extractAPIProject petstore).1 toV2 ∅ "Other" petstoreDeployed _ [petstoreOnV2]).
  - apply pair_of_snd. vm_compute. reflexivity.
  - unfold toV2. intros v envs [<- <-]%lookup_singleton_Some.
    apply (bool_decide_unpack _). vm_compute. exact I.
  - apply pair_of_snd. vm_compute. reflexivity.
Defined.

(** X21 on a first deployment: the sample API, deployed nowhere, is sent to
    the vhost v2. *)
Lemma ApplyAPIProjectFromAPIM_places_requested_environment_witness :
  xds_GetVhostOfAPI (index (ApplyAPIProjectFromAPIM petstore toV2 ∅ emptyWorld).1)
    "A" "Default"
  = Done ("v2", true).
Proof.
  apply (ApplyAPIProjectFromAPIM_places_requested_environment specIndex_placement petstore
           (extractAPIProject petstore).1 toV2 ∅ "v2" "Default" ["Default"] emptyWorld _
           [petstoreOnV2]).
  - apply pair_of_snd. vm_compute. reflexivity.
  - reflexivity.
  - by left.
  - unfold toV2. intros v' envs' [<- _]%lookup_singleton_Some _. reflexivity.
  - apply pair_of_snd. vm_compute. reflexivity.
Defined.

(** X25 on the index with both sample APIs. *)
Lemma ListApis_panics_on_the_bare_key_only_witness :
  ∃ r, ListApis (index bothDeployed) (Some "type") None "carbon.super" = Panic r.
Proof.
  apply (proj2 (ListApis_panics_on_the_bare_key_only (index bothDeployed) (Some "type")
                  None "carbon.super" ltac:(intros apiType; eexists; reflexivity))).
  reflexivity.
Defined.

End FurtherRuns.
